(** * TimeSeries: a shallow embedding of [timeseries/TimeSeries.py]

    The Python class [TimeSeries] stores a time component, a value
    component and a derived list of (time, value) pairs.  This file
    embeds the constructor, indexing, item assignment, interpolation and
    the binary operators as Rocq functions, and proves the properties
    stated about them.

    Modelling conventions.
    - Python numbers (ints and floats alike) are rationals [Q]: every
      finite int and float is one.  The arithmetic of [interpolate]
      (line 162), where [/] is true division and the operands may be
      rounded or too large for a float, is a parameter of the model,
      the class [PyArith]; the pointwise operators [+], [-], [*] and
      unary [-] are taken on the rationals.
    - Python [==], [<], [<=] on numbers are [Qeq_bool], [Qlt_bool],
      [Qle_bool].
    - Python integers used as indices, lengths and counters are [Z].
    - A method that may raise returns a [result]; [__setitem__], which
      mutates [self], returns the state after the call together with the
      exception raised, if any. *)

From Stdlib Require Import ZArith QArith Lia Lqa Bool.
From stdpp Require Import base option list.

Local Open Scope Z_scope.

(** ** Exceptions and results *)

Inductive exception : Type :=
  | TypeError
  | ValueError
  | IndexError
  | ZeroDivisionError
  | OverflowError.

Inductive result (A : Type) : Type :=
  | Ok (a : A)
  | Raise (e : exception).

Arguments Ok {A} a.
Arguments Raise {A} e.

#[global] Instance result_ret : MRet result := fun A a => Ok a.
#[global] Instance result_bind : MBind result := fun A B f m =>
  match m with
  | Ok a => f a
  | Raise e => Raise e
  end.

#[global] Instance result_fmap : FMap result := fun A B f m =>
  match m with
  | Ok a => Ok (f a)
  | Raise e => Raise e
  end.

(** ** Numbers *)

Definition Qlt_bool (x y : Q) : bool := negb (Qle_bool y x).

(** Python arithmetic on numbers, as line 162 uses it: [a + b],
    [a - b], [a * b] and the true division [a / b].  What each returns
    depends on whether its operands are ints, floats or fractions, and
    it rounds when a float is involved, so the four operations are
    parameters: functions from the values of the operands to a finite
    value or an exception.  What is fixed is how they fail: [+], [-]
    and [*] raise only [OverflowError] (an int too large to be converted
    to a float); [/] raises only [ZeroDivisionError] or [OverflowError],
    and does raise on a zero divisor; and the difference of two equal
    numbers is zero. *)
Class PyArith : Type := {
  py_add : Q -> Q -> result Q;
  py_sub : Q -> Q -> result Q;
  py_mul : Q -> Q -> result Q;
  py_truediv : Q -> Q -> result Q;
  py_add_raises : forall a b e, py_add a b = Raise e -> e = OverflowError;
  py_sub_raises : forall a b e, py_sub a b = Raise e -> e = OverflowError;
  py_mul_raises : forall a b e, py_mul a b = Raise e -> e = OverflowError;
  py_truediv_raises :
    forall a b e,
      py_truediv a b = Raise e -> e = ZeroDivisionError \/ e = OverflowError;
  py_truediv_zero :
    forall a b, (b == 0)%Q -> exists e, py_truediv a b = Raise e;
  py_sub_equal :
    forall a b, (a == b)%Q -> exists d, py_sub a b = Ok d /\ (d == 0)%Q
}.

(** The arithmetic in which nothing rounds and nothing overflows: what
    Python computes on [fractions.Fraction] operands, and on ints and
    floats as long as no result has to be rounded. *)
Definition exact_truediv (a b : Q) : result Q :=
  if Qeq_bool b 0 then Raise ZeroDivisionError else Ok (a / b)%Q.

Definition exact_arith : PyArith.
Proof.
  refine {| py_add := fun a b => Ok (a + b)%Q;
            py_sub := fun a b => Ok (a - b)%Q;
            py_mul := fun a b => Ok (a * b)%Q;
            py_truediv := exact_truediv |}.
  - intros a b e H. discriminate H.
  - intros a b e H. discriminate H.
  - intros a b e H. discriminate H.
  - intros a b e. unfold exact_truediv.
    destruct (Qeq_bool b 0); intros H; [left|discriminate H].
    injection H as <-. reflexivity.
  - intros a b Hb. exists ZeroDivisionError. unfold exact_truediv.
    rewrite (Qeq_eq_bool _ _ Hb). reflexivity.
  - intros a b Hab. exists (a - b)%Q. split; [reflexivity|].
    rewrite Hab. unfold Qeq, Qminus, Qplus, Qopp. simpl. lia.
Defined.

(** The value line 162 computes for the query time [t] from the values
    and times at the two ends of a bracket:
    [t + t * ((v_hi - v_lo) / (t_hi - t_lo))]. *)
Definition bracket_value {arith : PyArith} (t v_hi v_lo t_hi t_lo : Q) : result Q :=
  dv ← py_sub v_hi v_lo;
  dt ← py_sub t_hi t_lo;
  slope ← py_truediv dv dt;
  m ← py_mul t slope;
  py_add t m.

(** Python [==] on two lists (or tuples) of numbers. *)
Fixpoint num_list_eqb (l1 l2 : list Q) : bool :=
  match l1, l2 with
  | [], [] => true
  | x :: l1', y :: l2' => Qeq_bool x y && num_list_eqb l1' l2'
  | _, _ => false
  end.

(** Python [==] on two lists of 2-tuples of numbers. *)
Fixpoint pair_list_eqb (l1 l2 : list (Q * Q)) : bool :=
  match l1, l2 with
  | [], [] => true
  | (t1, v1) :: l1', (t2, v2) :: l2' =>
      Qeq_bool t1 t2 && Qeq_bool v1 v2 && pair_list_eqb l1' l2'
  | _, _ => false
  end.

(** ** Python [range] objects *)

Record pyrange : Type := mk_range { start : Z; stop : Z; step : Z }.

(** [range(a, b)] *)
Definition range2 (a b : Z) : pyrange := mk_range a b 1.

(** Number of items between [lo] and [hi] with stride [st]; this is the
    length computation shared by [range] and by slices. *)
Definition stride_len (lo hi st : Z) : Z :=
  if 0 <? st then
    if lo <? hi then (hi - lo - 1) / st + 1 else 0
  else
    if hi <? lo then (lo - hi - 1) / (- st) + 1 else 0.

Definition range_len (r : pyrange) : Z :=
  stride_len (start r) (stop r) (step r).

(** [list(r)] *)
Definition range_list (r : pyrange) : list Z :=
  map (fun i : nat => start r + Z.of_nat i * step r)
      (seq 0 (Z.to_nat (range_len r))).

(** [r1 == r2]: ranges compare as sequences. *)
Definition range_eqb (r1 r2 : pyrange) : bool :=
  let n1 := range_len r1 in
  if negb (n1 =? range_len r2) then false
  else if n1 =? 0 then true
  else if negb (start r1 =? start r2) then false
  else if n1 =? 1 then true
  else step r1 =? step r2.

(** ** Indexing Python sequences *)

Definition py_len {A} (l : list A) : Z := Z.of_nat (length l).

(** Position designated by the integer index [i] in a sequence of length
    [n]; negative indices count from the end. *)
Definition norm_index (n i : Z) : Z := if i <? 0 then i + n else i.

Definition index_in_range (n i : Z) : bool :=
  (0 <=? norm_index n i) && (norm_index n i <? n).

(** [l[i]] *)
Definition list_getitem {A} (l : list A) (i : Z) : result A :=
  if index_in_range (py_len l) i then
    match l !! Z.to_nat (norm_index (py_len l) i) with
    | Some x => Ok x
    | None => Raise IndexError
    end
  else Raise IndexError.

(** [l[i] = x] *)
Definition list_setitem {A} (l : list A) (i : Z) (x : A) : result (list A) :=
  if index_in_range (py_len l) i then
    Ok (<[Z.to_nat (norm_index (py_len l) i) := x]> l)
  else Raise IndexError.

(** [r[i]] *)
Definition range_getitem (r : pyrange) (i : Z) : result Z :=
  if index_in_range (range_len r) i then
    Ok (start r + norm_index (range_len r) i * step r)
  else Raise IndexError.

(** ** Slices *)

Record pyslice : Type :=
  mk_slice { sl_start : option Z; sl_stop : option Z; sl_step : option Z }.

(** Clipping of one slice bound against a sequence of length [n]. *)
Definition adjust_bound (n st b : Z) : Z :=
  if b <? 0 then
    (if b + n <? 0 then (if st <? 0 then -1 else 0) else b + n)
  else if n <=? b then (if st <? 0 then n - 1 else n)
  else b.

(** [s.indices(n)]: the (start, stop, step) triple the slice [s] denotes
    on a sequence of length [n]; a zero step raises [ValueError]. *)
Definition slice_indices (s : pyslice) (n : Z) : result (Z * Z * Z) :=
  let st := default 1 (sl_step s) in
  if st =? 0 then Raise ValueError
  else
    let lo := match sl_start s with
              | Some b => adjust_bound n st b
              | None => if st <? 0 then n - 1 else 0
              end in
    let hi := match sl_stop s with
              | Some b => adjust_bound n st b
              | None => if st <? 0 then -1 else n
              end in
    Ok (lo, hi, st).

(** The items at positions [lo], [lo + st], ... ([count] of them). *)
Definition list_pick {A} (l : list A) (lo st : Z) (count : nat) : list A :=
  omap (fun i : nat => l !! Z.to_nat (lo + Z.of_nat i * st)) (seq 0 count).

(** [l[s]] *)
Definition list_getslice {A} (s : pyslice) (l : list A) : result (list A) :=
  '(lo, hi, st) ← slice_indices s (py_len l);
  mret (list_pick l lo st (Z.to_nat (stride_len lo hi st))).

(** [r[s]]: slicing a range gives a range. *)
Definition range_getslice (s : pyslice) (r : pyrange) : result pyrange :=
  '(lo, hi, st) ← slice_indices s (range_len r);
  mret (mk_range (start r + lo * step r) (start r + hi * step r) (step r * st)).

(** ** Python values passed to the constructor *)

Inductive pyobject : Type :=
  | PyNone
  | PyBool (b : bool)
  | PyNum (q : Q)
  | PyList (l : list Q)
  | PyTuple (l : list Q)
  | PyRange (r : pyrange).

(** [bool(x)], as tested by [if x:]. *)
Definition truthy (x : pyobject) : bool :=
  match x with
  | PyNone => false
  | PyBool b => b
  | PyNum q => negb (Qeq_bool q 0)
  | PyList l | PyTuple l => negb (py_len l =? 0)
  | PyRange r => negb (range_len r =? 0)
  end.

(** [isinstance(x, collections.Sequence)] *)
Definition is_sequence (x : pyobject) : bool :=
  match x with
  | PyList _ | PyTuple _ | PyRange _ => true
  | PyNone | PyBool _ | PyNum _ => false
  end.

(** [list(x)] for a sequence [x]; range items are integers. *)
Definition seq_items (x : pyobject) : list Q :=
  match x with
  | PyList l | PyTuple l => l
  | PyRange r => map inject_Z (range_list r)
  | PyNone | PyBool _ | PyNum _ => []
  end.

(** [len(x)] for a sequence [x]. *)
Definition seq_len (x : pyobject) : Z :=
  match x with
  | PyList l | PyTuple l => py_len l
  | PyRange r => range_len r
  | PyNone | PyBool _ | PyNum _ => 0
  end.

(** ** The class *)

(** What [self._time] holds: [list(input_time)] (line 117) or the
    [range] object built on line 119. *)
Inductive time_store : Type :=
  | TimeList (l : list Q)
  | TimeRange (r : pyrange).

Record TimeSeries : Type := mk_TimeSeries {
  _time : time_store;
  _value : list Q;
  _timeseries : list (Q * Q)
}.

(** The items of [self._time], in order. *)
Definition time_items (tm : time_store) : list Q :=
  match tm with
  | TimeList l => l
  | TimeRange r => map inject_Z (range_list r)
  end.

(** [self._time] as an argument of a call. *)
Definition time_object (tm : time_store) : pyobject :=
  match tm with
  | TimeList l => PyList l
  | TimeRange r => PyRange r
  end.

(** [len(self._time)] *)
Definition time_len (tm : time_store) : Z :=
  match tm with
  | TimeList l => py_len l
  | TimeRange r => range_len r
  end.

(** [self._time[i]] *)
Definition time_getitem (tm : time_store) (i : Z) : result Q :=
  match tm with
  | TimeList l => list_getitem l i
  | TimeRange r => inject_Z <$> range_getitem r i
  end.

(** [self._time[s]] *)
Definition time_getslice (s : pyslice) (tm : time_store) : result pyobject :=
  match tm with
  | TimeList l => PyList <$> list_getslice s l
  | TimeRange r => PyRange <$> range_getslice s r
  end.

(** [a != b] for two stored time components: a list and a range are
    never equal. *)
Definition time_ne (a b : time_store) : bool :=
  match a, b with
  | TimeList l1, TimeList l2 => negb (num_list_eqb l1 l2)
  | TimeRange r1, TimeRange r2 => negb (range_eqb r1 r2)
  | TimeList _, TimeRange _ | TimeRange _, TimeList _ => true
  end.

(** [__init__(self, input_value, input_time)] *)
Definition __init__ (input_value input_time : pyobject) : result TimeSeries :=
  if negb (is_sequence input_value) then Raise TypeError
  else
    tm ← (if truthy input_time then
            if negb (is_sequence input_time) then Raise TypeError
            else if negb (seq_len input_time =? seq_len input_value)
            then Raise ValueError
            else Ok (TimeList (seq_items input_time))
          else Ok (TimeRange (range2 1 (seq_len input_value + 1))));
    let value := seq_items input_value in
    mret (mk_TimeSeries tm value (zip (time_items tm) value)).

(** The call [TimeSeries(args...)]: the signature on line 93 has two
    required positional parameters and no defaults, so any other number
    of arguments is rejected with [TypeError] before the body runs. *)
Definition TimeSeries_call (args : list pyobject) : result TimeSeries :=
  match args with
  | [input_value; input_time] => __init__ input_value input_time
  | _ => Raise TypeError
  end.

(** [__len__] *)
Definition __len__ (self : TimeSeries) : Z := py_len (_value self).

(** Index kinds: ints, slice objects, and any other object.  Among the
    other objects a bool is an instance of [numbers.Integral] and
    indexes as 0 or 1; a number [PyNum q] in index position is a float
    (an int index is [IdxInt]). *)
Inductive pyindex : Type :=
  | IdxInt (i : Z)
  | IdxSlice (s : pyslice)
  | IdxOther (x : pyobject).

(** The integer an index denotes when
    [isinstance(index, numbers.Integral)] holds. *)
Definition integral_index (index : pyindex) : option Z :=
  match index with
  | IdxInt i => Some i
  | IdxOther (PyBool b) => Some (if b then 1 else 0)
  | IdxSlice _ | IdxOther _ => None
  end.

Inductive item : Type :=
  | ItemSeries (ts : TimeSeries)
  | ItemPair (p : Q * Q).

(** [__getitem__] *)
Definition __getitem__ (self : TimeSeries) (index : pyindex) : result item :=
  match index with
  | IdxSlice s =>
      v ← list_getslice s (_value self);
      t ← time_getslice s (_time self);
      ItemSeries <$> __init__ (PyList v) t
  | IdxInt _ | IdxOther _ =>
      match integral_index index with
      | Some i => ItemPair <$> list_getitem (_timeseries self) i
      | None => Raise TypeError
      end
  end.

(** [__setitem__]: the state of [self] after the call, and the exception
    raised if the call did not complete. *)
Definition __setitem__ (self : TimeSeries) (index : pyindex) (value : Q)
  : TimeSeries * option exception :=
  match integral_index index with
  | Some i =>
      match list_setitem (_value self) i value with
      | Raise e => (self, Some e)
      | Ok value' =>
          let self1 := mk_TimeSeries (_time self) value' (_timeseries self) in
          match time_getitem (_time self) i with
          | Raise e => (self1, Some e)
          | Ok t =>
              match list_setitem (_timeseries self) i (t, value) with
              | Raise e => (self1, Some e)
              | Ok pairs' => (mk_TimeSeries (_time self) value' pairs', None)
              end
          end
      end
  | None => (self, Some TypeError)
  end.

(** *** interpolate *)

Section Interpolate.
Context {arith : PyArith}.
Variables (time : time_store) (value : list Q) (n : Z).

(** The [while counter < n] loop for one query time [t], entered with
    the cursor at [counter].  It returns the value appended to
    [newValues], if any, and the cursor on leaving the loop.  [fuel]
    bounds the number of iterations; [n - counter] is always enough
    (see [bracket_scan_fuel]). *)
Fixpoint bracket_scan (t : Q) (fuel : nat) (counter : Z)
  : result (option Q * Z) :=
  if negb (counter <? n) then Ok (None, counter)
  else
    match fuel with
    | O => Ok (None, counter)
    | S fuel' =>
        t_first ← time_getitem time 0;
        if Qlt_bool t t_first then
          v ← list_getitem value 0;
          mret (Some v, counter)
        else
          t_last ← time_getitem time (n - 1);
          if Qlt_bool t_last t then
            v ← list_getitem value (n - 1);
            mret (Some v, counter)
          else
            t_lo ← time_getitem time (counter - 1);
            inside ← (if Qle_bool t_lo t then
                        t_hi ← time_getitem time counter;
                        mret (Qle_bool t t_hi)
                      else mret false);
            if inside : bool then
              v_hi ← list_getitem value counter;
              v_lo ← list_getitem value (counter - 1);
              dv ← py_sub v_hi v_lo;
              t_hi ← time_getitem time counter;
              t_lo ← time_getitem time (counter - 1);
              dt ← py_sub t_hi t_lo;
              slope ← py_truediv dv dt;
              m ← py_mul t slope;
              newVal ← py_add t m;
              mret (Some newVal, counter)
            else bracket_scan t fuel' (counter + 1)
    end.

(** The [for t in newTimes] loop: the list [newValues] and the cursor
    are carried from one query time to the next. *)
Fixpoint interpolate_loop (newTimes : list Q) (counter : Z)
    (newValues : list Q) : result (list Q * Z) :=
  match newTimes with
  | [] => Ok (newValues, counter)
  | t :: rest =>
      '(appended, counter') ← bracket_scan t (Z.to_nat (n - counter)) counter;
      interpolate_loop rest counter'
        (match appended with
         | Some v => newValues ++ [v]
         | None => newValues
         end)
  end.
End Interpolate.

(** [interpolate(self, newTimes)]; iterating over a non-iterable raises
    [TypeError]. *)
Definition interpolate {arith : PyArith} (self : TimeSeries) (newTimes : pyobject)
  : result TimeSeries :=
  if negb (is_sequence newTimes) then Raise TypeError
  else
    '(newValues, _) ← interpolate_loop (_time self) (_value self)
                        (time_len (_time self))
                        (seq_items newTimes) 1 [];
    __init__ (PyList newValues) newTimes.

(** *** Binary operators *)

(** The right operand of a binary operator: a [TimeSeries] or an object
    of another type. *)
Inductive operand : Type :=
  | OperandSeries (ts : TimeSeries)
  | OperandOther (x : pyobject).

Definition __add__ (self : TimeSeries) (otherTS : operand) : result TimeSeries :=
  match otherTS with
  | OperandOther _ => Raise TypeError
  | OperandSeries other =>
      if negb (__len__ self =? __len__ other) || time_ne (_time self) (_time other)
      then Raise ValueError
      else __init__ (PyList (map (fun t => (t.1 + t.2)%Q)
                                 (zip (_value self) (_value other))))
                    (time_object (_time self))
  end.

Definition __sub__ (self : TimeSeries) (otherTS : operand) : result TimeSeries :=
  match otherTS with
  | OperandOther _ => Raise TypeError
  | OperandSeries other =>
      if negb (__len__ self =? __len__ other) || time_ne (_time self) (_time other)
      then Raise ValueError
      else __init__ (PyList (map (fun t => (t.1 - t.2)%Q)
                                 (zip (_value self) (_value other))))
                    (time_object (_time self))
  end.

Definition __eq__ (self : TimeSeries) (otherTS : operand) : result bool :=
  match otherTS with
  | OperandOther _ => Raise TypeError
  | OperandSeries other =>
      if negb (__len__ self =? __len__ other) || time_ne (_time self) (_time other)
      then Raise ValueError
      else Ok (pair_list_eqb (_timeseries self) (_timeseries other))
  end.

Definition __mul__ (self : TimeSeries) (otherTS : operand) : result TimeSeries :=
  match otherTS with
  | OperandOther _ => Raise TypeError
  | OperandSeries other =>
      if negb (__len__ self =? __len__ other) || time_ne (_time self) (_time other)
      then Raise ValueError
      else __init__ (PyList (map (fun t => (t.1 * t.2)%Q)
                                 (zip (_value self) (_value other))))
                    (time_object (_time self))
  end.

Definition __neg__ (self : TimeSeries) : result TimeSeries :=
  __init__ (PyList (map Qopp (_value self))) (time_object (_time self)).

Definition __pos__ (self : TimeSeries) : result TimeSeries :=
  __init__ (PyList (_value self)) (time_object (_time self)).

(** The series of the script at the end of the source file. *)
Definition series_0_5_10 : result TimeSeries :=
  TimeSeries_call [PyList [1; 2; 3]%Q; PyList [0; 5; 10]%Q].

(** ** Invariants of the class *)

(** The list position an in-range index designates. *)
Definition position (n i : Z) : nat := Z.to_nat (norm_index n i).

(** Times and values are aligned, and the pair view is their zip. *)
Definition ts_inv (ts : TimeSeries) : Prop :=
  length (time_items (_time ts)) = length (_value ts) /\
  _timeseries ts = zip (time_items (_time ts)) (_value ts).

(** What the constructor stores in [_time]: a non-empty list, or the
    default index [range(1, n + 1)] for [n] values. *)
Definition time_repr (tm : time_store) (n : nat) : Prop :=
  match tm with
  | TimeList l => l <> []
  | TimeRange r => r = range2 1 (Z.of_nat n + 1)
  end.

Definition ts_wf (ts : TimeSeries) : Prop :=
  ts_inv ts /\ time_repr (_time ts) (length (_value ts)).

(** Two series are time-aligned when their time sequences have the same
    length and are equal element-wise (numerically). *)
Definition time_aligned (a b : TimeSeries) : Prop :=
  Forall2 Qeq (time_items (_time a)) (time_items (_time b)).

(** [isinstance(index, numbers.Integral)] *)
Definition is_integral (index : pyindex) : bool :=
  match integral_index index with
  | Some _ => true
  | None => false
  end.

(** The state [TimeSeries([1,2,3], [0,5,10])] evaluates to. *)
Definition ts_0_5_10 : TimeSeries :=
  mk_TimeSeries (TimeList [0; 5; 10]%Q) [1; 2; 3]%Q
                [(0, 1); (5, 2); (10, 3)]%Q.

(** Both time components are stored the same way (both as a list, or
    both as the default index). *)
Definition same_store (a b : time_store) : bool :=
  match a, b with
  | TimeList _, TimeList _ | TimeRange _, TimeRange _ => true
  | TimeList _, TimeRange _ | TimeRange _, TimeList _ => false
  end.

(** [TimeSeries([1,2,3], [])]: the default index 1, 2, 3. *)
Definition default_123 : TimeSeries :=
  mk_TimeSeries (TimeRange (range2 1 4)) [1; 2; 3]%Q [(1, 1); (2, 2); (3, 3)]%Q.

(** [TimeSeries([4,5,6], [1,2,3])]: the same times, given explicitly. *)
Definition explicit_123 : TimeSeries :=
  mk_TimeSeries (TimeList [1; 2; 3]%Q) [4; 5; 6]%Q [(1, 4); (2, 5); (3, 6)]%Q.

(** [bracket_at ts k t_lo t_hi v_lo v_hi]: bracket [k] of the series is
    [[time[k-1], time[k]]] = [[t_lo, t_hi]], with values [v_lo], [v_hi]
    at its two ends. *)
Definition bracket_at (ts : TimeSeries) (k : nat) (t_lo t_hi v_lo v_hi : Q)
  : Prop :=
  (1 <= k)%nat /\
  time_items (_time ts) !! (k - 1)%nat = Some t_lo /\
  time_items (_time ts) !! k = Some t_hi /\
  _value ts !! (k - 1)%nat = Some v_lo /\
  _value ts !! k = Some v_hi.

(** [t] lies in the closed interval [[lo, hi]]. *)
Definition within (lo hi t : Q) : Prop := (lo <= t)%Q /\ (t <= hi)%Q.

(** First and last time of the series, and the values there. *)
Definition endpoints (ts : TimeSeries) (t_first t_last v_first v_last : Q)
  : Prop :=
  time_items (_time ts) !! 0%nat = Some t_first /\
  time_items (_time ts) !! (length (_value ts) - 1)%nat = Some t_last /\
  _value ts !! 0%nat = Some v_first /\
  _value ts !! (length (_value ts) - 1)%nat = Some v_last.

(** The scan of the source for one query time, started at [counter]. *)
Definition scan_from {arith : PyArith} (ts : TimeSeries) (t : Q) (counter : Z)
  : result (option Q * Z) :=
  bracket_scan (_time ts) (_value ts) (time_len (_time ts)) t
               (Z.to_nat (time_len (_time ts) - counter)) counter.

(** The [for] loop of [interpolate] on the query times [newTimes]. *)
Definition run_queries {arith : PyArith} (ts : TimeSeries) (newTimes : list Q)
  : result (list Q * Z) :=
  interpolate_loop (_time ts) (_value ts) (time_len (_time ts)) newTimes 1 [].

(** ** Iteration, views and membership *)

(** [__iter__]: the values the generator yields, in order. *)
Definition __iter__ (self : TimeSeries) : list Q := _value self.

(** [itertimes]: the items [iter(self._time)] yields. *)
Definition itertimes (self : TimeSeries) : list Q := time_items (_time self).

(** [itervalues]: the items [iter(self._value)] yields. *)
Definition itervalues (self : TimeSeries) : list Q := _value self.

(** [items] *)
Definition items (self : TimeSeries) : list (Q * Q) := _timeseries self.

(** [iteritems]: the items [iter(self._timeseries)] yields. *)
Definition iteritems (self : TimeSeries) : list (Q * Q) := _timeseries self.

(** [__contains__], for a number [value]: [value in self._value]
    compares [value] with each stored value by [==]. *)
Definition __contains__ (self : TimeSeries) (value : Q) : bool :=
  existsb (fun x => Qeq_bool x value) (_value self).

(** ** Sorted inputs of [interpolate] *)

(** The times of the series increase strictly. *)
Definition increasing_times (ts : TimeSeries) : Prop :=
  forall (i j : nat) a b,
    (i < j)%nat ->
    time_items (_time ts) !! i = Some a ->
    time_items (_time ts) !! j = Some b -> (a < b)%Q.

(** The query times never decrease. *)
Fixpoint ascending (newTimes : list Q) : Prop :=
  match newTimes with
  | [] => True
  | t :: rest => Forall (fun t' => (t <= t')%Q) rest /\ ascending rest
  end.

(** [point_result ts t r]: [r] is what the source computes for the
    query time [t] taken alone: the first value below the first time,
    the last value above the last time, and otherwise the outcome of
    line 162 on the first bracket that contains [t]. *)
Definition point_result {arith : PyArith} (ts : TimeSeries) (t : Q) (r : result Q)
  : Prop :=
  exists t_first t_last v_first v_last,
    endpoints ts t_first t_last v_first v_last /\
    (((t < t_first)%Q /\ r = Ok v_first) \/
     (~ (t < t_first)%Q /\ (t_last < t)%Q /\ r = Ok v_last) \/
     (within t_first t_last t /\
      exists (k : nat) t_lo t_hi v_lo v_hi,
        (k < length (_value ts))%nat /\
        bracket_at ts k t_lo t_hi v_lo v_hi /\ within t_lo t_hi t /\
        (forall (j : nat) a b va vb,
           (j < k)%nat -> bracket_at ts j a b va vb -> ~ within a b t) /\
        r = bracket_value t v_hi v_lo t_hi t_lo)).

(** The values of a list of outcomes, in order, or the first exception
    among them. *)
Fixpoint collect (outcomes : list (result Q)) : result (list Q) :=
  match outcomes with
  | [] => Ok []
  | r :: rest => v ← r; vs ← collect rest; mret (v :: vs)
  end.

(** How the constructor stores the time component [tm] of an existing
    series when a method passes it on as [input_time]: as the list of
    its items, or, when it has none, as the (empty) default index. *)
Definition restored (tm : time_store) : time_store :=
  match time_items tm with
  | [] => TimeRange (range2 1 1)
  | _ :: _ => TimeList (time_items tm)
  end.

(** The cursor [k] has not run past the query time [t]: it is still at
    the first bracket, or the left end of bracket [k] lies below [t]. *)
Definition cursor_behind (ts : TimeSeries) (k : nat) (t : Q) : Prop :=
  k = 1%nat \/
  exists a, time_items (_time ts) !! (k - 1)%nat = Some a /\ (a < t)%Q.

(** * Properties *)

(** ** Arithmetic of lengths and indices *)

Lemma stride_len_nonneg lo hi st : 0 <= stride_len lo hi st.
Proof.
  unfold stride_len.
  destruct (0 <? st) eqn:Hst.
  - apply Z.ltb_lt in Hst.
    destruct (lo <? hi) eqn:Hlh; [|lia].
    apply Z.ltb_lt in Hlh.
    assert (0 <= (hi - lo - 1) / st) by (apply Z.div_pos; lia). lia.
  - apply Z.ltb_ge in Hst.
    destruct (hi <? lo) eqn:Hlh; [|lia].
    apply Z.ltb_lt in Hlh.
    destruct (Z.eq_dec st 0) as [->|Hne].
    + simpl. rewrite Z.div_0_r. lia.
    + assert (0 <= (lo - hi - 1) / (- st)) by (apply Z.div_pos; lia). lia.
Qed.

Lemma range_len_nonneg r : 0 <= range_len r.
Proof. apply stride_len_nonneg. Qed.

Lemma length_range_list r : length (range_list r) = Z.to_nat (range_len r).
Proof. unfold range_list. by rewrite length_map, length_seq. Qed.

Lemma py_len_range_list r : py_len (range_list r) = range_len r.
Proof.
  unfold py_len. rewrite length_range_list.
  apply Z2Nat.id, range_len_nonneg.
Qed.

Lemma range_list_lookup r (k : nat) :
  (k < Z.to_nat (range_len r))%nat ->
  range_list r !! k = Some (start r + Z.of_nat k * step r).
Proof.
  intros Hk. unfold range_list.
  rewrite list_lookup_fmap, lookup_seq_lt by done. done.
Qed.

Lemma range_len_default (n : nat) :
  range_len (range2 1 (Z.of_nat n + 1)) = Z.of_nat n.
Proof.
  unfold range_len, range2, stride_len; simpl.
  destruct (1 <? Z.of_nat n + 1) eqn:H.
  - apply Z.ltb_lt in H. rewrite Z.div_1_r. lia.
  - apply Z.ltb_ge in H. lia.
Qed.

Lemma range_list_default (n : nat) :
  range_list (range2 1 (Z.of_nat n + 1)) = map (fun i : nat => 1 + Z.of_nat i) (seq 0 n).
Proof.
  unfold range_list. rewrite range_len_default, Nat2Z.id. simpl.
  apply map_ext. intros i. lia.
Qed.

Lemma py_len_nonneg {A} (l : list A) : 0 <= py_len l.
Proof. unfold py_len. lia. Qed.

Lemma index_in_range_spec n i :
  index_in_range n i = true <-> 0 <= norm_index n i < n.
Proof.
  unfold index_in_range. rewrite andb_true_iff, Z.leb_le, Z.ltb_lt. tauto.
Qed.

Lemma index_in_range_bounds n i :
  index_in_range n i = true <-> - n <= i < n.
Proof.
  rewrite index_in_range_spec. unfold norm_index.
  destruct (i <? 0) eqn:Hi; [apply Z.ltb_lt in Hi | apply Z.ltb_ge in Hi]; lia.
Qed.

Lemma position_lt {A} (l : list A) i :
  index_in_range (py_len l) i = true -> (position (py_len l) i < length l)%nat.
Proof.
  rewrite index_in_range_spec. unfold position, py_len. lia.
Qed.

Lemma list_getitem_in_range {A} (l : list A) i :
  index_in_range (py_len l) i = true ->
  exists x, l !! position (py_len l) i = Some x /\ list_getitem l i = Ok x.
Proof.
  intros Hi. unfold list_getitem. rewrite Hi.
  destruct (lookup_lt_is_Some_2 l _ (position_lt l i Hi)) as [x Hx].
  exists x. unfold position in Hx |- *. by rewrite Hx.
Qed.

Lemma list_getitem_lookup {A} (l : list A) (k : nat) x :
  l !! k = Some x -> list_getitem l (Z.of_nat k) = Ok x.
Proof.
  intros Hx. pose proof (lookup_lt_Some _ _ _ Hx) as Hk.
  unfold list_getitem.
  assert (Hn : norm_index (py_len l) (Z.of_nat k) = Z.of_nat k).
  { unfold norm_index. destruct (Z.of_nat k <? 0) eqn:E; [|done].
    apply Z.ltb_lt in E. lia. }
  assert (Hr : index_in_range (py_len l) (Z.of_nat k) = true).
  { apply index_in_range_spec. rewrite Hn. unfold py_len. lia. }
  by rewrite Hr, Hn, Nat2Z.id, Hx.
Qed.

Lemma time_len_items tm : time_len tm = py_len (time_items tm).
Proof.
  destruct tm as [l|r]; simpl; [done|].
  unfold py_len. rewrite length_map, length_range_list.
  symmetry. apply Z2Nat.id, range_len_nonneg.
Qed.

(** Reading [self._time] by index is reading its list of items. *)
Lemma time_getitem_items tm i : time_getitem tm i = list_getitem (time_items tm) i.
Proof.
  destruct tm as [l|r]; simpl; [done|].
  unfold range_getitem, list_getitem.
  assert (Hlen : py_len (map inject_Z (range_list r)) = range_len r).
  { unfold py_len. rewrite length_map. apply py_len_range_list. }
  rewrite Hlen.
  destruct (index_in_range (range_len r) i) eqn:Hi; [|done].
  apply index_in_range_spec in Hi.
  change (map inject_Z (range_list r)) with (inject_Z <$> range_list r).
  rewrite list_lookup_fmap, range_list_lookup by lia.
  simpl. rewrite Z2Nat.id by lia. done.
Qed.

(** ** The constructor *)

Lemma seq_len_items x : is_sequence x = true -> seq_len x = py_len (seq_items x).
Proof.
  destruct x; simpl; try done. intros _.
  unfold py_len. rewrite length_map. symmetry. apply py_len_range_list.
Qed.

Lemma py_len_zero {A} (l : list A) : py_len l = 0 <-> l = [].
Proof.
  unfold py_len. destruct l; simpl; split; intros H; try done; lia.
Qed.

Lemma truthy_sequence x :
  is_sequence x = true -> truthy x = negb (py_len (seq_items x) =? 0).
Proof.
  intros Hs. rewrite <- seq_len_items by done. by destruct x.
Qed.

Lemma falsy_sequence_empty x :
  is_sequence x = true -> truthy x = false -> seq_items x = [].
Proof.
  intros Hs Ht. rewrite truthy_sequence in Ht by done.
  apply negb_false_iff, Z.eqb_eq in Ht. by apply py_len_zero.
Qed.

Lemma truthy_sequence_nonempty x :
  is_sequence x = true -> truthy x = true -> seq_items x <> [].
Proof.
  intros Hs Ht. rewrite truthy_sequence in Ht by done.
  apply negb_true_iff, Z.eqb_neq in Ht. by rewrite <- py_len_zero.
Qed.

Lemma time_items_default (n : nat) :
  time_items (TimeRange (range2 1 (Z.of_nat n + 1)))
  = map (fun i : nat => inject_Z (1 + Z.of_nat i)) (seq 0 n).
Proof. simpl. by rewrite range_list_default, map_map. Qed.

Lemma length_time_items_default (n : nat) :
  length (time_items (TimeRange (range2 1 (Z.of_nat n + 1)))) = n.
Proof. by rewrite time_items_default, length_map, length_seq. Qed.

(** An explicit, non-empty time sequence of the right length is copied. *)
Lemma init_explicit v t :
  is_sequence v = true -> is_sequence t = true -> truthy t = true ->
  seq_len t = seq_len v ->
  __init__ v t = Ok (mk_TimeSeries (TimeList (seq_items t)) (seq_items v)
                                   (zip (seq_items t) (seq_items v))).
Proof.
  intros Hv Ht Htr Hlen. unfold __init__.
  rewrite Hv, Htr, Ht, Hlen, Z.eqb_refl. done.
Qed.

(** A falsy time argument is replaced by the default index. *)
Lemma init_default v t :
  is_sequence v = true -> truthy t = false ->
  __init__ v t =
    Ok (mk_TimeSeries (TimeRange (range2 1 (seq_len v + 1))) (seq_items v)
          (zip (time_items (TimeRange (range2 1 (seq_len v + 1)))) (seq_items v))).
Proof. intros Hv Htr. unfold __init__. by rewrite Hv, Htr. Qed.

(** Every way in which the constructor can succeed. *)
Lemma init_Ok v t ts :
  __init__ v t = Ok ts ->
  is_sequence v = true /\
  _value ts = seq_items v /\
  _timeseries ts = zip (time_items (_time ts)) (_value ts) /\
  ((truthy t = true /\ is_sequence t = true /\ seq_len t = seq_len v /\
    _time ts = TimeList (seq_items t))
   \/ (truthy t = false /\ _time ts = TimeRange (range2 1 (seq_len v + 1)))).
Proof.
  unfold __init__. intros H.
  destruct (is_sequence v) eqn:Hv; simpl in H; [|done].
  destruct (truthy t) eqn:Htr.
  - destruct (is_sequence t) eqn:Ht; simpl in H; [|done].
    destruct (seq_len t =? seq_len v) eqn:Hlen; simpl in H; [|done].
    apply Z.eqb_eq in Hlen. injection H as <-. simpl. eauto 10.
  - simpl in H. injection H as <-. simpl. eauto 10.
Qed.

Lemma init_wf v t ts : __init__ v t = Ok ts -> ts_wf ts.
Proof.
  intros H. destruct (init_Ok _ _ _ H) as (Hv & Hval & Hpairs & Htime).
  assert (Hn : seq_len v = Z.of_nat (length (_value ts))).
  { rewrite Hval. by apply seq_len_items. }
  destruct Htime as [(Htr & Ht & Hlen & Htm) | (Htr & Htm)].
  - repeat split; [|done|].
    + rewrite Htm. simpl. rewrite seq_len_items in Hlen by done.
      unfold py_len in *. lia.
    + rewrite Htm. simpl. by apply truthy_sequence_nonempty.
  - rewrite Hn in Htm. repeat split; [|done|].
    + rewrite Htm. apply length_time_items_default.
    + by rewrite Htm.
Qed.

(** Every well-formed state is one the constructor builds. *)
Lemma wf_constructed ts :
  ts_wf ts -> exists t, __init__ (PyList (_value ts)) t = Ok ts.
Proof.
  destruct ts as [tm value pairs]. intros [[Hlen Hpairs] Hrepr]. simpl in *.
  destruct tm as [l|r]; simpl in *.
  - exists (PyList l). rewrite init_explicit; simpl; try done.
    + by rewrite Hpairs.
    + apply negb_true_iff, Z.eqb_neq. by rewrite py_len_zero.
    + unfold py_len. lia.
  - exists PyNone. rewrite init_default by done. simpl.
    unfold py_len. rewrite <- Hrepr. by rewrite Hpairs.
Qed.

(** A constructor call made by a method: the values are a list and the
    time argument is a sequence with as many items. *)
Lemma init_aligned v t :
  is_sequence t = true -> length (seq_items t) = length v ->
  exists ts, __init__ (PyList v) t = Ok ts /\ _value ts = v /\
             time_items (_time ts) = seq_items t.
Proof.
  intros Ht Hlen. destruct (truthy t) eqn:Htr.
  - eexists. split; [apply init_explicit; try done|done].
    rewrite seq_len_items by done. simpl. unfold py_len. lia.
  - eexists. split; [by apply init_default|]. split; [done|].
    pose proof (falsy_sequence_empty _ Ht Htr) as He.
    rewrite He in Hlen |- *. destruct v; [done|discriminate].
Qed.

Lemma time_object_sequence tm : is_sequence (time_object tm) = true.
Proof. by destruct tm. Qed.

Lemma seq_items_time_object tm : seq_items (time_object tm) = time_items tm.
Proof. by destruct tm. Qed.

(** ** Integer indexing and item assignment *)

Lemma inv_len_time ts : ts_inv ts -> py_len (time_items (_time ts)) = __len__ ts.
Proof. intros [Hlen _]. unfold __len__, py_len. by rewrite Hlen. Qed.

Lemma inv_len_pairs ts : ts_inv ts -> py_len (_timeseries ts) = __len__ ts.
Proof.
  intros [Hlen ->]. unfold __len__, py_len.
  rewrite length_zip_with_r_eq; [done|by rewrite Hlen].
Qed.

(** [self[i]] for an integer [i]: the pair at that position, or
    [IndexError]. *)
Lemma getitem_int ts i :
  ts_inv ts ->
  __getitem__ ts (IdxInt i) =
    if index_in_range (__len__ ts) i then
      match time_items (_time ts) !! position (__len__ ts) i,
            _value ts !! position (__len__ ts) i with
      | Some t, Some v => Ok (ItemPair (t, v))
      | _, _ => Raise IndexError
      end
    else Raise IndexError.
Proof.
  intros Hinv. cbn [__getitem__ integral_index]. unfold list_getitem.
  rewrite (inv_len_pairs ts Hinv).
  destruct (index_in_range (__len__ ts) i) eqn:Hi; [|done].
  destruct Hinv as [_ ->]. fold (position (__len__ ts) i).
  rewrite lookup_zip_with.
  destruct (time_items (_time ts) !! _); simpl; [|done].
  by destruct (_value ts !! _).
Qed.

(** Item assignment at an in-range index replaces the value and the pair
    at the same position and completes without raising. *)
Lemma setitem_in_range ts i v :
  ts_inv ts -> index_in_range (__len__ ts) i = true ->
  exists t,
    time_items (_time ts) !! position (__len__ ts) i = Some t /\
    __setitem__ ts (IdxInt i) v =
      (mk_TimeSeries (_time ts)
         (<[position (__len__ ts) i := v]> (_value ts))
         (<[position (__len__ ts) i := (t, v)]> (_timeseries ts)), None).
Proof.
  intros Hinv Hi.
  pose proof Hi as Hit. rewrite <- (inv_len_time ts Hinv) in Hit.
  destruct (list_getitem_in_range _ _ Hit) as (t & Ht & Hget).
  rewrite (inv_len_time ts Hinv) in Ht.
  exists t. split; [done|].
  unfold __setitem__, list_setitem. cbn [integral_index]. fold (__len__ ts).
  rewrite Hi, time_getitem_items, Hget, (inv_len_pairs ts Hinv), Hi. done.
Qed.

Lemma setitem_out_of_range ts i v :
  index_in_range (__len__ ts) i = false ->
  __setitem__ ts (IdxInt i) v = (ts, Some IndexError).
Proof.
  intros Hi. unfold __setitem__, list_setitem. cbn [integral_index].
  fold (__len__ ts). by rewrite Hi.
Qed.

(** An index that is an instance of [numbers.Integral] is used as the
    integer it denotes; any other index makes [__setitem__] raise
    [TypeError] before anything is written. *)
Lemma setitem_integral ts index i v :
  integral_index index = Some i ->
  __setitem__ ts index v = __setitem__ ts (IdxInt i) v.
Proof. intros Hi. unfold __setitem__. by rewrite Hi. Qed.

Lemma setitem_not_integral ts index v :
  integral_index index = None ->
  __setitem__ ts index v = (ts, Some TypeError).
Proof. intros Hi. unfold __setitem__. by rewrite Hi. Qed.

Lemma getitem_integral ts index i :
  integral_index index = Some i ->
  __getitem__ ts index = __getitem__ ts (IdxInt i).
Proof.
  intros Hi. destruct index as [j|s|x]; [|done|];
    cbn [__getitem__]; by rewrite Hi.
Qed.

Lemma getitem_not_integral ts index :
  (forall s, index <> IdxSlice s) -> integral_index index = None ->
  __getitem__ ts index = Raise TypeError.
Proof.
  intros Hs Hi. destruct index as [j|s|x]; [done|by destruct (Hs s)|].
  cbn [__getitem__]. by rewrite Hi.
Qed.

Lemma setitem_preserves_wf ts index v :
  ts_wf ts -> ts_wf (__setitem__ ts index v).1.
Proof.
  intros Hwf. destruct (integral_index index) as [i|] eqn:Hidx;
    [rewrite (setitem_integral _ _ _ _ Hidx)
    |by rewrite (setitem_not_integral _ _ _ Hidx)].
  destruct (index_in_range (__len__ ts) i) eqn:Hi.
  - destruct Hwf as [Hinv Hrepr].
    destruct (setitem_in_range ts i v Hinv Hi) as (t & Ht & ->). simpl.
    destruct Hinv as [Hlen Hpairs].
    split; [split|]; simpl.
    + by rewrite length_insert.
    + rewrite Hpairs, insert_zip_with. by rewrite (list_insert_id _ _ _ Ht).
    + by rewrite length_insert.
  - by rewrite setitem_out_of_range.
Qed.

Lemma setitem_len ts index v :
  __len__ (__setitem__ ts index v).1 = __len__ ts.
Proof.
  destruct (integral_index index) as [i|] eqn:Hidx;
    [rewrite (setitem_integral _ _ _ _ Hidx)
    |by rewrite (setitem_not_integral _ _ _ Hidx)].
  unfold __setitem__, list_setitem. cbn [integral_index].
  destruct (index_in_range _ i); [|done].
  destruct (time_getitem _ _); [destruct (index_in_range _ i)|];
    simpl; unfold __len__, py_len; simpl; by rewrite length_insert.
Qed.

Lemma series_0_5_10_eval : series_0_5_10 = Ok ts_0_5_10.
Proof. reflexivity. Qed.

Lemma ts_0_5_10_wf : ts_wf ts_0_5_10.
Proof. exact (init_wf _ _ _ series_0_5_10_eval). Qed.

(** C9.  Setting the value at a valid integer index [i] to [v] completes
    without raising and changes only position [i]: the length and the
    times are unchanged, the stored values are the old ones with [v] at
    position [i], the stored pairs are the old ones with [(times[i], v)]
    at position [i]; so the pair read at [i] becomes [(times[i], v)] and
    the pair read at any index designating another position is what it
    was.  A bool index is an [Integral] and writes position 0 or 1.  An
    index that is not an [Integral] raises [TypeError] and leaves the
    series as it was.  On [TimeSeries([1,2,3], [0,5,10])], [t[0] = 99]
    leaves the length 3, makes pair 0 equal to [(0, 99)] and leaves pairs
    1 and 2 unchanged. *)
Theorem setitem_changes_only_position :
  (forall ts i v,
     ts_inv ts -> index_in_range (__len__ ts) i = true ->
     let after := __setitem__ ts (IdxInt i) v in
     after.2 = None /\
     __len__ after.1 = __len__ ts /\
     _time after.1 = _time ts /\
     _value after.1 = <[position (__len__ ts) i := v]> (_value ts) /\
     (exists t, time_getitem (_time ts) i = Ok t /\
                _timeseries after.1 =
                  <[position (__len__ ts) i := (t, v)]> (_timeseries ts) /\
                __getitem__ after.1 (IdxInt i) = Ok (ItemPair (t, v))) /\
     (forall j, norm_index (__len__ ts) j <> norm_index (__len__ ts) i ->
                __getitem__ after.1 (IdxInt j) = __getitem__ ts (IdxInt j) /\
                list_getitem (_value after.1) j = list_getitem (_value ts) j)) /\
  (forall ts (b : bool) v,
     __setitem__ ts (IdxOther (PyBool b)) v =
     __setitem__ ts (IdxInt (if b then 1 else 0)) v) /\
  (forall ts index v,
     is_integral index = false ->
     __setitem__ ts index v = (ts, Some TypeError)) /\
  (let after := __setitem__ ts_0_5_10 (IdxInt 0) 99%Q in
   after.2 = None /\
   __len__ after.1 = 3 /\
   __getitem__ after.1 (IdxInt 0) = Ok (ItemPair (0, 99)%Q) /\
   __getitem__ after.1 (IdxInt 1) = __getitem__ ts_0_5_10 (IdxInt 1) /\
   __getitem__ after.1 (IdxInt 2) = __getitem__ ts_0_5_10 (IdxInt 2)).
Proof.
  split; [|split; [|split]].
  - intros ts i v Hinv Hi after.
    destruct (setitem_in_range ts i v Hinv Hi) as (t & Ht & Hset).
    assert (Hinv' : ts_inv after.1).
    { subst after. rewrite Hset. simpl. destruct Hinv as [Hlen Hpairs].
      split; simpl.
      - by rewrite length_insert.
      - rewrite Hpairs, insert_zip_with. by rewrite (list_insert_id _ _ _ Ht). }
    assert (Hlen' : __len__ after.1 = __len__ ts) by apply setitem_len.
    assert (Hk : (position (__len__ ts) i < length (_value ts))%nat).
    { apply index_in_range_spec in Hi. unfold position, __len__, py_len in *. lia. }
    split; [by subst after; rewrite Hset|].
    split; [done|].
    split; [by subst after; rewrite Hset|].
    split; [by subst after; rewrite Hset|].
    split.
    + exists t. split; [|split].
      * rewrite time_getitem_items.
        pose proof Hi as Hit. rewrite <- (inv_len_time ts Hinv) in Hit.
        destruct (list_getitem_in_range _ _ Hit) as (t' & Ht' & ->).
        rewrite (inv_len_time ts Hinv) in Ht'. congruence.
      * by subst after; rewrite Hset.
      * rewrite (getitem_int _ _ Hinv'), Hlen', Hi.
        subst after. rewrite Hset. simpl.
        by rewrite Ht, list_lookup_insert_eq.
    + intros j Hj. split.
      * rewrite (getitem_int _ _ Hinv'), (getitem_int _ _ Hinv), Hlen'.
        destruct (index_in_range (__len__ ts) j) eqn:Hjr; [|done].
        subst after. rewrite Hset. simpl.
        rewrite list_lookup_insert_ne; [done|].
        apply index_in_range_spec in Hi, Hjr. unfold position. lia.
      * unfold list_getitem. fold (__len__ after.1) (__len__ ts).
        rewrite Hlen'.
        destruct (index_in_range (__len__ ts) j) eqn:Hjr; [|done].
        subst after. rewrite Hset. simpl.
        fold (position (__len__ ts) j).
        rewrite list_lookup_insert_ne; [done|].
        apply index_in_range_spec in Hi, Hjr. unfold position. lia.
  - intros ts b v. by apply setitem_integral.
  - intros ts index v Hint. apply setitem_not_integral.
    unfold is_integral in Hint. by destruct (integral_index index).
  - vm_compute. repeat split; reflexivity.
Qed.

Lemma setitem_changes_only_position_witness :
  (__setitem__ ts_0_5_10 (IdxInt (-1)) 7%Q).2 = None /\
  __getitem__ (__setitem__ ts_0_5_10 (IdxInt (-1)) 7%Q).1 (IdxInt 0)
  = __getitem__ ts_0_5_10 (IdxInt 0) /\
  __setitem__ ts_0_5_10 (IdxOther (PyNum 1)) 7%Q
  = (ts_0_5_10, Some TypeError).
Proof.
  destruct (proj1 setitem_changes_only_position ts_0_5_10 (-1) 7%Q
              (proj1 ts_0_5_10_wf) eq_refl)
    as (Hnone & _ & _ & _ & _ & Hother).
  split; [exact Hnone|]. split.
  - apply Hother. vm_compute. discriminate.
  - apply (proj1 (proj2 (proj2 setitem_changes_only_position))).
    reflexivity.
Defined.

(** ** Slices *)

Lemma adjust_bound_forward n st b :
  0 <= n -> 0 < st -> 0 <= adjust_bound n st b <= n.
Proof.
  intros Hn Hst. unfold adjust_bound.
  repeat match goal with
         | |- context [?a <? ?b] => destruct (Z.ltb_spec a b)
         | |- context [?a <=? ?b] => destruct (Z.leb_spec a b)
         end; lia.
Qed.

Lemma adjust_bound_backward n st b :
  0 <= n -> st < 0 -> -1 <= adjust_bound n st b <= n - 1.
Proof.
  intros Hn Hst. unfold adjust_bound.
  repeat match goal with
         | |- context [?a <? ?b] => destruct (Z.ltb_spec a b)
         | |- context [?a <=? ?b] => destruct (Z.leb_spec a b)
         end; lia.
Qed.

(** The bounds a slice denotes lie inside the sequence. *)
Lemma slice_indices_bounds s n lo hi st :
  0 <= n -> slice_indices s n = Ok (lo, hi, st) ->
  (0 < st /\ 0 <= lo <= n /\ 0 <= hi <= n) \/
  (st < 0 /\ -1 <= lo <= n - 1 /\ -1 <= hi <= n - 1).
Proof.
  intros Hn. unfold slice_indices.
  destruct (Z.eqb_spec (default 1 (sl_step s)) 0) as [|Hne]; [done|].
  intros [= <- <- <-].
  destruct (Z.ltb_spec (default 1 (sl_step s)) 0) as [Hneg|Hpos].
  - right. split; [done|]. split.
    + destruct (sl_start s); [by apply adjust_bound_backward|lia].
    + destruct (sl_stop s); [by apply adjust_bound_backward|lia].
  - left. assert (0 < default 1 (sl_step s)) by lia. split; [done|]. split.
    + destruct (sl_start s); [by apply adjust_bound_forward|lia].
    + destruct (sl_stop s); [by apply adjust_bound_forward|lia].
Qed.

Lemma slice_indices_Ok s n :
  sl_step s <> Some 0 -> exists lo hi st, slice_indices s n = Ok (lo, hi, st).
Proof.
  intros Hstep. unfold slice_indices.
  destruct (Z.eqb_spec (default 1 (sl_step s)) 0) as [Hz|Hne]; [|eauto].
  destruct (sl_step s) as [z|]; simpl in Hz; [|done].
  subst z. by destruct Hstep.
Qed.

(** Every position a slice visits is a position of the sequence. *)
Lemma slice_positions_in_range s n lo hi st (i : nat) :
  0 <= n -> slice_indices s n = Ok (lo, hi, st) ->
  (i < Z.to_nat (stride_len lo hi st))%nat ->
  0 <= lo + Z.of_nat i * st < n.
Proof.
  intros Hn Hs Hi.
  destruct (slice_indices_bounds _ _ _ _ _ Hn Hs)
    as [(Hst & Hlo & Hhi) | (Hst & Hlo & Hhi)]; unfold stride_len in Hi.
  - destruct (Z.ltb_spec 0 st); [|lia].
    destruct (Z.ltb_spec lo hi); [|simpl in Hi; lia].
    pose proof (Z.mul_div_le (hi - lo - 1) st Hst).
    assert (Z.of_nat i <= (hi - lo - 1) / st) by lia. nia.
  - destruct (Z.ltb_spec 0 st); [lia|].
    destruct (Z.ltb_spec hi lo); [|simpl in Hi; lia].
    assert (Hst' : 0 < - st) by lia.
    pose proof (Z.mul_div_le (lo - hi - 1) (- st) Hst').
    assert (Z.of_nat i <= (lo - hi - 1) / (- st)) by lia. nia.
Qed.

Lemma omap_all_some {A B} (g : A -> option B) (xs : list A) :
  (forall x, x ∈ xs -> is_Some (g x)) ->
  length (omap g xs) = length xs /\
  (forall i x, xs !! i = Some x -> omap g xs !! i = g x).
Proof.
  induction xs as [|x xs IH]; intros H; [done|].
  destruct (H x) as [y Hy]; [by constructor|].
  destruct IH as [IHlen IHlook]; [intros z Hz; apply H; by constructor|].
  simpl. rewrite Hy. simpl. fold (omap g xs). split; [by rewrite IHlen|].
  intros [|i] z Hz; simpl in *; [by injection Hz as <-|by apply IHlook].
Qed.

Lemma list_pick_in_range {A} (l : list A) lo st count :
  (forall i : nat, (i < count)%nat -> 0 <= lo + Z.of_nat i * st < py_len l) ->
  length (list_pick l lo st count) = count /\
  (forall i : nat, (i < count)%nat ->
     list_pick l lo st count !! i = l !! Z.to_nat (lo + Z.of_nat i * st)).
Proof.
  intros Hin. unfold list_pick.
  destruct (omap_all_some
              (fun i : nat => l !! Z.to_nat (lo + Z.of_nat i * st)) (seq 0 count))
    as [Hlen Hlook].
  - intros i Hi. apply elem_of_seq in Hi.
    apply lookup_lt_is_Some_2.
    assert (Hi' : (i < count)%nat) by lia.
    specialize (Hin i Hi'). unfold py_len in Hin. lia.
  - split; [by rewrite Hlen, length_seq|].
    intros i Hi. apply Hlook. by rewrite lookup_seq_lt.
Qed.

(** A slice of a list has as many items as the slice denotes. *)
Lemma length_list_getslice {A} s (l : list A) lo hi st :
  slice_indices s (py_len l) = Ok (lo, hi, st) ->
  exists v, list_getslice s l = Ok v /\
            length v = Z.to_nat (stride_len lo hi st).
Proof.
  intros Hs. unfold list_getslice. rewrite Hs. simpl.
  eexists. split; [done|].
  apply list_pick_in_range. intros i Hi.
  by apply (slice_positions_in_range s _ _ hi _ i (py_len_nonneg l)).
Qed.

Lemma stride_len_shift a lo hi st :
  stride_len (a + lo * 1) (a + hi * 1) (1 * st) = stride_len lo hi st.
Proof.
  unfold stride_len. rewrite !Z.mul_1_r, Z.mul_1_l.
  replace (a + hi - (a + lo) - 1) with (hi - lo - 1) by lia.
  replace (a + lo - (a + hi) - 1) with (lo - hi - 1) by lia.
  destruct (0 <? st).
  - destruct (Z.ltb_spec lo hi), (Z.ltb_spec (a + lo) (a + hi)); done || lia.
  - destruct (Z.ltb_spec hi lo), (Z.ltb_spec (a + hi) (a + lo)); done || lia.
Qed.

(** Slicing the default index and listing the result gives the slice of
    the listed index. *)
Lemma default_index_getslice s (n : nat) lo hi st :
  slice_indices s (Z.of_nat n) = Ok (lo, hi, st) ->
  exists r',
    range_getslice s (range2 1 (Z.of_nat n + 1)) = Ok r' /\
    list_getslice s (time_items (TimeRange (range2 1 (Z.of_nat n + 1))))
    = Ok (map inject_Z (range_list r')).
Proof.
  intros Hs. unfold range_getslice, list_getslice.
  assert (Hlen : py_len (time_items (TimeRange (range2 1 (Z.of_nat n + 1))))
                 = Z.of_nat n).
  { unfold py_len. by rewrite length_time_items_default. }
  rewrite range_len_default, Hlen, Hs. simpl.
  eexists. split; [done|]. f_equal.
  set (count := Z.to_nat (stride_len lo hi st)).
  assert (Hin : forall i : nat, (i < count)%nat ->
                  0 <= lo + Z.of_nat i * st < Z.of_nat n).
  { intros i Hi. apply (slice_positions_in_range s _ _ hi _ i); [lia|done..]. }
  change (map inject_Z (range_list (range2 1 (Z.of_nat n + 1))))
    with (time_items (TimeRange (range2 1 (Z.of_nat n + 1)))).
  destruct (list_pick_in_range
              (time_items (TimeRange (range2 1 (Z.of_nat n + 1)))) lo st count)
    as [Hplen Hplook]; [by rewrite Hlen|].
  assert (Hrlen : length (map inject_Z (range_list
                    (mk_range (1 + lo * 1) (1 + hi * 1) (1 * st)))) = count).
  { rewrite length_map, length_range_list. unfold range_len. simpl.
    by rewrite stride_len_shift. }
  apply list_eq. intros i.
  destruct (Nat.lt_ge_cases i count) as [Hi|Hi].
  - rewrite (Hplook i Hi), time_items_default.
    change (map inject_Z ?l) with (inject_Z <$> l).
    rewrite !list_lookup_fmap.
    rewrite range_list_lookup
      by (unfold range_len; simpl; rewrite stride_len_shift; exact Hi).
    specialize (Hin i Hi).
    rewrite lookup_seq_lt by lia. simpl.
    do 2 f_equal. lia.
  - rewrite !lookup_ge_None_2; [done|lia..].
Qed.

(** [self[s]] builds a new series from the slices of the values and of
    the times. *)
Lemma getitem_slice ts s :
  ts_wf ts -> sl_step s <> Some 0 ->
  exists ts' v tms,
    __getitem__ ts (IdxSlice s) = Ok (ItemSeries ts') /\
    list_getslice s (_value ts) = Ok v /\
    list_getslice s (time_items (_time ts)) = Ok tms /\
    _value ts' = v /\ time_items (_time ts') = tms.
Proof.
  intros [[Hlen Hpairs] Hrepr] Hstep.
  destruct (slice_indices_Ok s (py_len (_value ts)) Hstep) as (lo & hi & st & Hs).
  destruct (length_list_getslice s (_value ts) lo hi st Hs) as (v & Hv & Hvlen).
  assert (Hs' : slice_indices s (py_len (time_items (_time ts))) = Ok (lo, hi, st)).
  { unfold py_len in *. by rewrite Hlen. }
  destruct (length_list_getslice s _ lo hi st Hs') as (tms & Htms & Htlen).
  assert (Htime : exists t, time_getslice s (_time ts) = Ok t /\
                            is_sequence t = true /\ seq_items t = tms).
  { destruct (_time ts) as [l|r].
    - simpl in *. rewrite Htms. by exists (PyList tms).
    - red in Hrepr. subst r.
      destruct (default_index_getslice s _ lo hi st Hs) as (r' & Hr' & Hl).
      rewrite Hl in Htms. injection Htms as <-.
      unfold time_getslice. rewrite Hr'. by exists (PyRange r'). }
  destruct Htime as (t & Ht & Hseq & Hitems).
  destruct (init_aligned v t Hseq) as (ts' & Hinit & Hval' & Htime').
  { rewrite Hitems. lia. }
  exists ts', v, tms. simpl. rewrite Hv. simpl. rewrite Ht. simpl.
  rewrite Hinit. simpl. repeat split; congruence.
Qed.

(** The claim as written fails for a slice of step zero: [ts[::0]] on
    [TimeSeries([1,2,3], [0,5,10])] returns no series, it raises
    [ValueError] (from [self._value[index]]). *)
Lemma getitem_slice_step_zero_raises :
  ts_wf ts_0_5_10 /\
  __getitem__ ts_0_5_10 (IdxSlice (mk_slice None None (Some 0)))
  = Raise ValueError /\
  ~ exists ts',
      __getitem__ ts_0_5_10 (IdxSlice (mk_slice None None (Some 0)))
      = Ok (ItemSeries ts').
Proof.
  split; [exact ts_0_5_10_wf|]. split; [reflexivity|].
  intros [ts' H]. vm_compute in H. discriminate.
Qed.

(** C8.  Indexing with a slice of non-zero step returns a new series
    whose values and times are the slices of the values and of the times
    of the original, and a slice of step zero raises [ValueError];
    indexing with an integer that designates a position (negative
    integers count from the end) returns the (time, value) pair at that
    position, a bool being the integer 0 or 1; indexing with anything
    that is neither a slice nor an [Integral] raises [TypeError]. *)
Theorem getitem_by_index_kind :
  (forall ts s,
     ts_wf ts -> sl_step s <> Some 0 ->
     exists ts' v tms,
       __getitem__ ts (IdxSlice s) = Ok (ItemSeries ts') /\
       list_getslice s (_value ts) = Ok v /\
       list_getslice s (time_items (_time ts)) = Ok tms /\
       _value ts' = v /\ time_items (_time ts') = tms) /\
  (forall ts i,
     ts_wf ts -> index_in_range (__len__ ts) i = true ->
     exists t v,
       time_getitem (_time ts) i = Ok t /\
       list_getitem (_value ts) i = Ok v /\
       __getitem__ ts (IdxInt i) = Ok (ItemPair (t, v))) /\
  (forall ts (b : bool),
     __getitem__ ts (IdxOther (PyBool b)) =
     __getitem__ ts (IdxInt (if b then 1 else 0))) /\
  (forall ts x,
     (forall b, x <> PyBool b) ->
     __getitem__ ts (IdxOther x) = Raise TypeError) /\
  (forall ts s,
     sl_step s = Some 0 ->
     list_getslice s (_value ts) = Raise ValueError /\
     __getitem__ ts (IdxSlice s) = Raise ValueError).
Proof.
  split; [exact getitem_slice|]. split; [|split; [|split]].
  - intros ts i [Hinv _] Hi.
    pose proof Hi as Hit. rewrite <- (inv_len_time ts Hinv) in Hit.
    destruct (list_getitem_in_range _ _ Hit) as (t & Ht & Hgt).
    destruct (list_getitem_in_range (_value ts) i Hi) as (v & Hv & Hgv).
    exists t, v. rewrite time_getitem_items, Hgt, Hgv.
    split; [done|]. split; [done|].
    rewrite (getitem_int _ _ Hinv), Hi.
    rewrite (inv_len_time ts Hinv) in Ht. rewrite Ht.
    unfold __len__. by rewrite Hv.
  - intros ts b. by apply getitem_integral.
  - intros ts x Hx. apply getitem_not_integral; [done|].
    destruct x as [|b| | | |]; try done. by destruct (Hx b).
  - intros ts s Hstep. simpl. unfold list_getslice, slice_indices.
    by rewrite Hstep.
Qed.

Lemma getitem_by_index_kind_witness :
  (exists ts',
     __getitem__ ts_0_5_10 (IdxSlice (mk_slice (Some 1) (Some 3) None))
     = Ok (ItemSeries ts') /\
     _value ts' = [2; 3]%Q /\ time_items (_time ts') = [5; 10]%Q) /\
  __getitem__ ts_0_5_10 (IdxOther (PyNum 1)) = Raise TypeError.
Proof.
  split.
  - destruct (proj1 getitem_by_index_kind ts_0_5_10
                (mk_slice (Some 1) (Some 3) None) ts_0_5_10_wf)
      as (ts' & v & tms & Hget & Hv & Ht & Hval & Htime).
    + simpl. discriminate.
    + exists ts'. split; [exact Hget|].
      vm_compute in Hv, Ht.
      injection Hv as <-. injection Ht as <-. by split.
  - apply (proj1 (proj2 (proj2 (proj2 getitem_by_index_kind)))).
    intros b. discriminate.
Defined.

(** ** Binary operators *)

Lemma num_list_eqb_Forall2 l1 l2 :
  num_list_eqb l1 l2 = true <-> Forall2 Qeq l1 l2.
Proof.
  revert l2. induction l1 as [|x l1 IH]; intros [|y l2]; simpl.
  - split; [constructor|done].
  - split; [done|inversion 1].
  - split; [done|inversion 1].
  - rewrite andb_true_iff, Qeq_bool_iff, IH. split.
    + intros [? ?]. by constructor.
    + inversion 1; subst. done.
Qed.

Lemma range_eqb_list r1 r2 :
  range_eqb r1 r2 = true -> range_list r1 = range_list r2.
Proof.
  unfold range_eqb, range_list.
  destruct (Z.eqb_spec (range_len r1) (range_len r2)) as [Hlen|]; [|done].
  simpl. rewrite <- Hlen.
  destruct (Z.eqb_spec (range_len r1) 0) as [->|_]; [done|].
  destruct (Z.eqb_spec (start r1) (start r2)) as [->|]; [|done]. simpl.
  destruct (Z.eqb_spec (range_len r1) 1) as [->|_].
  - intros _. done.
  - intros ->%Z.eqb_eq. done.
Qed.

Lemma Forall2_Qeq_refl l : Forall2 Qeq l l.
Proof. induction l; constructor; [reflexivity|done]. Qed.

(** When the comparison [self._time != otherTS._time] is false the two
    time sequences are equal element-wise. *)
Lemma time_ne_false_aligned a b :
  time_ne a b = false -> Forall2 Qeq (time_items a) (time_items b).
Proof.
  destruct a as [l1|r1], b as [l2|r2]; simpl; try done.
  - intros H%negb_false_iff. by apply num_list_eqb_Forall2.
  - intros H%negb_false_iff. rewrite (range_eqb_list _ _ H).
    apply Forall2_Qeq_refl.
Qed.

(** The comparison is false exactly when the time sequences are equal
    element-wise and are stored the same way. *)
Lemma time_ne_false_iff a b :
  ts_wf a -> ts_wf b ->
  time_ne (_time a) (_time b) = false <->
  time_aligned a b /\ same_store (_time a) (_time b) = true.
Proof.
  intros [[Hlena _] Hra] [[Hlenb _] Hrb]. split.
  - intros H. split; [by apply time_ne_false_aligned|].
    by destruct (_time a), (_time b).
  - intros [Hal Hst]. unfold time_aligned in Hal.
    destruct (_time a) as [l1|r1], (_time b) as [l2|r2]; simpl in *; try done.
    + apply negb_false_iff. by apply num_list_eqb_Forall2.
    + apply Forall2_length in Hal. rewrite Hlena, Hlenb in Hal.
      subst r1 r2. rewrite Hal. apply negb_false_iff.
      unfold range_eqb. rewrite Z.eqb_refl. simpl.
      destruct (_ =? 0); [done|]. by destruct (_ =? 1).
Qed.

Lemma aligned_same_len a b :
  ts_inv a -> ts_inv b -> time_aligned a b -> __len__ a = __len__ b.
Proof.
  intros [Ha _] [Hb _] Hal%Forall2_length.
  unfold __len__, py_len. congruence.
Qed.

Lemma map_zip_with {A B C} (f : A -> B -> C) (l : list A) (k : list B) :
  map (fun t => f t.1 t.2) (zip l k) = zip_with f l k.
Proof.
  revert k. induction l as [|x l IH]; intros [|y k]; simpl; [done..|].
  f_equal. apply IH.
Qed.

(** The constructor call that ends [__add__], [__sub__] and [__mul__]. *)
Lemma init_pointwise (f : Q -> Q -> Q) a b :
  ts_inv a -> __len__ a = __len__ b ->
  exists ts,
    __init__ (PyList (map (fun t => f t.1 t.2) (zip (_value a) (_value b))))
             (time_object (_time a)) = Ok ts /\
    time_items (_time ts) = time_items (_time a) /\
    _value ts = zip_with f (_value a) (_value b).
Proof.
  intros [Hlen _] Hab. rewrite map_zip_with.
  destruct (init_aligned (zip_with f (_value a) (_value b))
              (time_object (_time a))) as (ts & Hinit & Hval & Htime).
  - apply time_object_sequence.
  - rewrite seq_items_time_object, length_zip_with_l_eq; [done|].
    unfold __len__, py_len in Hab. lia.
  - exists ts. rewrite seq_items_time_object in Htime. done.
Qed.

(** What the operators do on two series whose time components pass the
    comparison of the source. *)
Lemma binop_checked a b :
  ts_inv a -> ts_inv b -> time_ne (_time a) (_time b) = false ->
  (exists ts, __add__ a (OperandSeries b) = Ok ts /\
              time_items (_time ts) = time_items (_time a) /\
              _value ts = zip_with Qplus (_value a) (_value b)) /\
  (exists ts, __sub__ a (OperandSeries b) = Ok ts /\
              time_items (_time ts) = time_items (_time a) /\
              _value ts = zip_with Qminus (_value a) (_value b)) /\
  (exists ts, __mul__ a (OperandSeries b) = Ok ts /\
              time_items (_time ts) = time_items (_time a) /\
              _value ts = zip_with Qmult (_value a) (_value b)) /\
  __eq__ a (OperandSeries b)
  = Ok (pair_list_eqb (_timeseries a) (_timeseries b)).
Proof.
  intros Ha Hb Hne.
  assert (Hlen : __len__ a = __len__ b).
  { apply aligned_same_len; [done..|]. by apply time_ne_false_aligned. }
  unfold __add__, __sub__, __mul__, __eq__.
  rewrite Hne, Hlen, Z.eqb_refl. simpl.
  split; [apply (init_pointwise Qplus a b Ha Hlen)|].
  split; [apply (init_pointwise Qminus a b Ha Hlen)|].
  split; [apply (init_pointwise Qmult a b Ha Hlen)|done].
Qed.

(** Two series whose time sequences differ are rejected. *)
Lemma binop_misaligned a b :
  ~ time_aligned a b ->
  __add__ a (OperandSeries b) = Raise ValueError /\
  __sub__ a (OperandSeries b) = Raise ValueError /\
  __mul__ a (OperandSeries b) = Raise ValueError /\
  __eq__ a (OperandSeries b) = Raise ValueError.
Proof.
  intros Hmis.
  assert (Hne : time_ne (_time a) (_time b) = true).
  { destruct (time_ne (_time a) (_time b)) eqn:E; [done|].
    destruct Hmis. by apply time_ne_false_aligned. }
  unfold __add__, __sub__, __mul__, __eq__.
  rewrite Hne, orb_true_r. done.
Qed.

(** On two series the operators raise [ValueError] exactly when the
    time sequences differ or are stored differently. *)
Lemma binop_raises_iff a b :
  ts_wf a -> ts_wf b ->
  let rejected :=
    ~ (time_aligned a b /\ same_store (_time a) (_time b) = true) in
  (__add__ a (OperandSeries b) = Raise ValueError <-> rejected) /\
  (__sub__ a (OperandSeries b) = Raise ValueError <-> rejected) /\
  (__mul__ a (OperandSeries b) = Raise ValueError <-> rejected) /\
  (__eq__ a (OperandSeries b) = Raise ValueError <-> rejected).
Proof.
  intros Ha Hb rejected. subst rejected.
  rewrite <- (time_ne_false_iff a b Ha Hb).
  destruct (time_ne (_time a) (_time b)) eqn:Hne.
  - unfold __add__, __sub__, __mul__, __eq__. rewrite Hne, orb_true_r.
    repeat split; done.
  - destruct (binop_checked a b (proj1 Ha) (proj1 Hb) Hne)
      as ((x & -> & _) & (y & -> & _) & (z & -> & _) & ->).
    repeat split; done.
Qed.

(** C5.  A right operand that is not a [TimeSeries] makes every binary
    operator raise [TypeError]; equality in particular never answers
    [False] for such an operand, nor for a series whose time sequence
    differs: it raises. *)
Theorem binop_rejects_non_series :
  (forall a x,
     __add__ a (OperandOther x) = Raise TypeError /\
     __sub__ a (OperandOther x) = Raise TypeError /\
     __mul__ a (OperandOther x) = Raise TypeError /\
     __eq__ a (OperandOther x) = Raise TypeError) /\
  (forall a b,
     ~ time_aligned a b -> __eq__ a (OperandSeries b) = Raise ValueError).
Proof.
  split; [done|]. intros a b Hmis. by apply binop_misaligned.
Qed.

Lemma binop_rejects_non_series_witness :
  __eq__ ts_0_5_10 (OperandSeries explicit_123) = Raise ValueError.
Proof.
  apply (proj2 binop_rejects_non_series).
  unfold time_aligned. simpl. intros H.
  apply Forall2_cons_1 in H as [H _]. vm_compute in H. discriminate.
Defined.

(** C3, at the input where the code departs from it.  The default-index
    series [TimeSeries([1,2,3], [])] and [TimeSeries([4,5,6], [1,2,3])]
    have the same time sequence 1, 2, 3, yet [+], [-] and [*] raise
    [ValueError] instead of returning the pointwise result: the default
    index is stored as a [range] object, which never compares equal to a
    list. *)
Theorem pointwise_ops_reject_default_index :
  TimeSeries_call [PyList [1; 2; 3]%Q; PyList []] = Ok default_123 /\
  TimeSeries_call [PyList [4; 5; 6]%Q; PyList [1; 2; 3]%Q] = Ok explicit_123 /\
  time_items (_time default_123) = time_items (_time explicit_123) /\
  __add__ default_123 (OperandSeries explicit_123) = Raise ValueError /\
  __sub__ default_123 (OperandSeries explicit_123) = Raise ValueError /\
  __mul__ default_123 (OperandSeries explicit_123) = Raise ValueError.
Proof. repeat split; reflexivity. Qed.

(** C4, at the input where the code departs from it.  A series built
    with the default index ([None] as time argument) and one built from
    the equal explicit tuple [(1, 2)] are time-aligned and of equal
    length, yet every binary operator, in either operand order, raises
    [ValueError]. *)
Theorem aligned_series_rejected :
  exists a b,
    __init__ (PyList [7; 8]%Q) PyNone = Ok a /\
    __init__ (PyList [7; 8]%Q) (PyTuple [1; 2]%Q) = Ok b /\
    time_aligned a b /\ __len__ a = __len__ b /\
    __add__ a (OperandSeries b) = Raise ValueError /\
    __sub__ a (OperandSeries b) = Raise ValueError /\
    __mul__ a (OperandSeries b) = Raise ValueError /\
    __eq__ a (OperandSeries b) = Raise ValueError /\
    __add__ b (OperandSeries a) = Raise ValueError /\
    __eq__ b (OperandSeries a) = Raise ValueError.
Proof.
  do 2 eexists. split; [reflexivity|]. split; [reflexivity|].
  split; [|repeat split; reflexivity].
  unfold time_aligned. simpl. repeat constructor.
Qed.

(** A falsy time argument ([None], an empty sequence, zero, [False])
    gives the default index: the times are 1, ..., n and the pair at
    position [i] has time [i + 1]. *)
Lemma init_falsy_time v t :
  is_sequence v = true -> truthy t = false ->
  exists ts,
    __init__ v t = Ok ts /\
    _value ts = seq_items v /\
    time_items (_time ts)
    = map (fun i : nat => inject_Z (Z.of_nat i + 1)) (seq 0 (length (seq_items v))) /\
    (forall (i : nat) x,
       seq_items v !! i = Some x ->
       __getitem__ ts (IdxInt (Z.of_nat i))
       = Ok (ItemPair (inject_Z (Z.of_nat i + 1), x))).
Proof.
  intros Hv Ht. eexists. split; [by apply init_default|].
  pose proof (init_wf _ _ _ (init_default v t Hv Ht)) as [Hinv _].
  set (ts := mk_TimeSeries _ _ _) in *.
  assert (Htimes : time_items (_time ts)
            = map (fun i : nat => inject_Z (Z.of_nat i + 1))
                  (seq 0 (length (seq_items v)))).
  { subst ts. cbn [_time]. rewrite seq_len_items by done. unfold py_len.
    rewrite time_items_default. apply map_ext. intros i. f_equal. lia. }
  split; [done|]. split; [done|].
  intros i x Hx. pose proof (lookup_lt_Some _ _ _ Hx) as Hi.
  rewrite (getitem_int _ _ Hinv).
  assert (Hr : index_in_range (__len__ ts) (Z.of_nat i) = true).
  { apply index_in_range_bounds. unfold __len__, py_len. simpl. lia. }
  assert (Hp : position (__len__ ts) (Z.of_nat i) = i).
  { unfold position, norm_index.
    destruct (Z.ltb_spec (Z.of_nat i) 0); lia. }
  rewrite Hr, Hp, Htimes.
  change (map ?f ?l) with (f <$> l). rewrite list_lookup_fmap.
  rewrite lookup_seq_lt by done. simpl.
  change (_value ts) with (seq_items v). by rewrite Hx.
Qed.

(** C7, at the input where the code departs from it.  The constructor
    declares [input_time] without a default, so a call that omits it is
    rejected with [TypeError] and no series with the default index is
    built; passing [None] or an empty list in its place does give the
    times 1, 2, 3 (see [init_falsy_time] for the general statement). *)
Theorem constructor_requires_time_argument :
  TimeSeries_call [PyList [1; 2; 3]%Q] = Raise TypeError /\
  (exists ts, TimeSeries_call [PyList [1; 2; 3]%Q; PyNone] = Ok ts /\
              time_items (_time ts) = [1; 2; 3]%Q) /\
  (exists ts, TimeSeries_call [PyList [1; 2; 3]%Q; PyList []] = Ok ts /\
              time_items (_time ts) = [1; 2; 3]%Q).
Proof. split; [reflexivity|]. split; eexists; split; reflexivity. Qed.

(** ** Interpolation *)

Lemma Qlt_bool_iff x y : Qlt_bool x y = true <-> (x < y)%Q.
Proof.
  unfold Qlt_bool. rewrite negb_true_iff. split.
  - intros H. apply Qnot_le_lt. intros Hle.
    apply Qle_bool_iff in Hle. congruence.
  - intros H. destruct (Qle_bool y x) eqn:E; [|done].
    apply Qle_bool_iff in E. by apply Qlt_not_le in H.
Qed.

Lemma Qlt_bool_false_iff x y : Qlt_bool x y = false <-> ~ (x < y)%Q.
Proof.
  rewrite <- Qlt_bool_iff. destruct (Qlt_bool x y); split; try done.
Qed.

(** Case analysis on the outcome of the next operation of a chain of
    binds. *)
Ltac case_bind :=
  match goal with
  | |- context [mbind _ ?m] => destruct m; simpl; try done
  | |- context [match ?m with Ok _ => _ | Raise _ => _ end] =>
      destruct m; simpl; try done
  end.

(** With the arithmetic in which nothing rounds the value of a bracket
    of non-zero width is the formula on the rationals. *)
Lemma bracket_value_exact t v_hi v_lo t_hi t_lo :
  ~ (t_hi - t_lo == 0)%Q ->
  bracket_value (arith:=exact_arith) t v_hi v_lo t_hi t_lo
  = Ok (t + t * ((v_hi - v_lo) / (t_hi - t_lo)))%Q.
Proof.
  intros Hd. unfold bracket_value. simpl. unfold exact_truediv.
  destruct (Qeq_bool (t_hi - t_lo) 0) eqn:E; [|done].
  apply Qeq_bool_iff in E. by destruct Hd.
Qed.

(** The arithmetic of line 162 raises nothing but [ZeroDivisionError]
    and [OverflowError]. *)
Lemma bracket_value_raises {arith : PyArith} t v_hi v_lo t_hi t_lo e :
  bracket_value t v_hi v_lo t_hi t_lo = Raise e ->
  e = ZeroDivisionError \/ e = OverflowError.
Proof.
  unfold bracket_value.
  destruct (py_sub v_hi v_lo) as [dv|e1] eqn:E1; simpl;
    [|intros [= <-]; right; by eapply py_sub_raises].
  destruct (py_sub t_hi t_lo) as [dt|e2] eqn:E2; simpl;
    [|intros [= <-]; right; by eapply py_sub_raises].
  destruct (py_truediv dv dt) as [slope|e3] eqn:E3; simpl;
    [|intros [= <-]; by eapply py_truediv_raises].
  destruct (py_mul t slope) as [m|e4] eqn:E4; simpl;
    [|intros [= <-]; right; by eapply py_mul_raises].
  intros H. right. by eapply py_add_raises.
Qed.

(** On a bracket of zero width the division raises. *)
Lemma bracket_value_zero_width {arith : PyArith} t v_hi v_lo t_hi t_lo :
  (t_hi == t_lo)%Q ->
  exists e, bracket_value t v_hi v_lo t_hi t_lo = Raise e.
Proof.
  intros Heq. unfold bracket_value.
  destruct (py_sub v_hi v_lo) as [dv|e1]; simpl; [|by eexists].
  destruct (py_sub_equal _ _ Heq) as (dt & -> & Hdt). simpl.
  destruct (py_truediv_zero dv dt Hdt) as [e ->]. by eexists.
Qed.

Section BracketScan.
Context {arith : PyArith}.
Variables (time : time_store) (value : list Q) (n : Z).

(** The loop is not entered once the cursor has reached [n]. *)
Lemma bracket_scan_exhausted t fuel counter :
  n <= counter ->
  bracket_scan time value n t fuel counter = Ok (None, counter).
Proof.
  intros Hc. destruct fuel; simpl;
    destruct (Z.ltb_spec counter n); done || lia.
Qed.

(** Any amount of fuel of at least [n - counter] gives the same run:
    the fuel never cuts the loop short. *)
Lemma bracket_scan_fuel t fuel fuel' counter :
  (Z.to_nat (n - counter) <= fuel)%nat ->
  (Z.to_nat (n - counter) <= fuel')%nat ->
  bracket_scan time value n t fuel counter
  = bracket_scan time value n t fuel' counter.
Proof.
  revert fuel' counter.
  induction fuel as [|fuel IH]; intros fuel' counter Hf Hf'.
  - rewrite !bracket_scan_exhausted by lia. done.
  - destruct (Z.ltb_spec counter n) as [Hlt|Hge];
      [|by rewrite !bracket_scan_exhausted by lia].
    destruct fuel' as [|fuel']; [lia|].
    simpl. destruct (Z.ltb_spec counter n); [|lia]. simpl.
    destruct (time_getitem time 0); [|done]. simpl.
    destruct (Qlt_bool t a); [done|].
    destruct (time_getitem time (n - 1)); [|done]. simpl.
    destruct (Qlt_bool a0 t); [done|].
    destruct (time_getitem time (counter - 1)); [|done]. simpl.
    destruct (if Qle_bool a1 t
              then time_getitem time counter ≫= λ t_hi, mret (Qle_bool t t_hi)
              else mret false) as [[|]|]; simpl; [done| |done].
    apply IH; lia.
Qed.

(** Leaving the loop without a value means the cursor reached [n]. *)
Lemma bracket_scan_none t fuel counter counter' :
  (Z.to_nat (n - counter) <= fuel)%nat ->
  bracket_scan time value n t fuel counter = Ok (None, counter') ->
  n <= counter' /\ counter <= counter'.
Proof.
  revert counter.
  induction fuel as [|fuel IH]; intros counter Hf.
  - rewrite bracket_scan_exhausted by lia. intros [= <-]. lia.
  - destruct (Z.ltb_spec counter n) as [Hlt|Hge].
    2:{ rewrite bracket_scan_exhausted by lia. intros [= <-]. lia. }
    simpl. destruct (Z.ltb_spec counter n); [|lia]. simpl.
    destruct (time_getitem time 0); [|done]. simpl.
    destruct (Qlt_bool t a).
    { destruct (list_getitem value 0); done. }
    destruct (time_getitem time (n - 1)); [|done]. simpl.
    destruct (Qlt_bool a0 t).
    { destruct (list_getitem value (n - 1)); done. }
    destruct (time_getitem time (counter - 1)); [|done]. simpl.
    destruct (if Qle_bool a1 t
              then time_getitem time counter ≫= λ t_hi, mret (Qle_bool t t_hi)
              else mret false) as [[|]|]; simpl; [|intros Hrec|done].
    + repeat case_bind.
    + apply IH in Hrec; lia.
Qed.

(** The cursor never moves back, and a value is produced only with the
    cursor inside the series. *)
Lemma bracket_scan_cursor t fuel counter r counter' :
  bracket_scan time value n t fuel counter = Ok (r, counter') ->
  counter <= counter' /\ (is_Some r -> counter' < n).
Proof.
  revert counter.
  induction fuel as [|fuel IH]; intros counter; simpl.
  - destruct (counter <? n); simpl; intros [= <- <-];
      (split; [lia|by intros [? ?]]).
  - destruct (Z.ltb_spec counter n) as [Hlt|Hge]; simpl;
      [|intros [= <- <-]; split; [lia|by intros [? ?]]].
    destruct (time_getitem time 0); [|done]. simpl.
    destruct (Qlt_bool t a).
    { destruct (list_getitem value 0); [|done]. simpl.
      intros [= <- <-]. split; [lia|done]. }
    destruct (time_getitem time (n - 1)); [|done]. simpl.
    destruct (Qlt_bool a0 t).
    { destruct (list_getitem value (n - 1)); [|done]. simpl.
      intros [= <- <-]. split; [lia|done]. }
    destruct (time_getitem time (counter - 1)); [|done]. simpl.
    destruct (if Qle_bool a1 t
              then time_getitem time counter ≫= λ t_hi, mret (Qle_bool t t_hi)
              else mret false) as [[|]|]; simpl; [|intros Hrec|done].
    + repeat case_bind. intros [= <- <-]. split; [lia|done].
    + apply IH in Hrec. split; [lia|tauto].
Qed.

(** A list of query times is processed left to right. *)
Lemma interpolate_loop_app pre post counter newValues :
  interpolate_loop time value n (pre ++ post) counter newValues
  = '(vals, c) ← interpolate_loop time value n pre counter newValues;
    interpolate_loop time value n post c vals.
Proof.
  revert counter newValues.
  induction pre as [|t pre IH]; intros counter newValues; [done|].
  simpl. destruct (bracket_scan _ _ _ _ _ _) as [[appended c]|]; [|done].
  simpl. apply IH.
Qed.

(** Once the cursor has reached [n] no further value is produced. *)
Lemma interpolate_loop_exhausted newTimes counter newValues :
  n <= counter ->
  interpolate_loop time value n newTimes counter newValues
  = Ok (newValues, counter).
Proof.
  revert newValues. induction newTimes as [|t rest IH]; intros newValues Hc;
    [done|].
  simpl. rewrite bracket_scan_exhausted by done. simpl. by apply IH.
Qed.

(** At most one value is appended per query time. *)
Lemma interpolate_loop_length newTimes counter newValues vals c :
  interpolate_loop time value n newTimes counter newValues = Ok (vals, c) ->
  (length vals <= length newValues + length newTimes)%nat.
Proof.
  revert counter newValues.
  induction newTimes as [|t rest IH]; intros counter newValues.
  - simpl. intros [= <- <-]. lia.
  - simpl. destruct (bracket_scan _ _ _ _ _ _) as [[appended c']|]; [|done].
    simpl. intros H%IH.
    destruct appended; [rewrite length_app in H|]; simpl in *; lia.
Qed.

(** The loop only appends: at most one value per query time, and one
    for every query time as long as the cursor stays inside the
    series. *)
Lemma interpolate_loop_values newTimes counter newValues vals c :
  interpolate_loop time value n newTimes counter newValues = Ok (vals, c) ->
  counter <= c /\
  exists more,
    vals = newValues ++ more /\
    (length more <= length newTimes)%nat /\
    (c < n -> length more = length newTimes).
Proof.
  revert counter newValues.
  induction newTimes as [|t rest IH]; intros counter newValues.
  - simpl. intros [= <- <-]. split; [lia|].
    exists []. by rewrite app_nil_r.
  - simpl.
    destruct (bracket_scan _ _ _ _ _ _) as [[appended c']|] eqn:Hscan; [|done].
    simpl. intros Hrest.
    apply IH in Hrest as (Hc & more & -> & Hle & Hlen).
    pose proof (bracket_scan_cursor _ _ _ _ _ Hscan) as [Hmono _].
    split; [lia|].
    destruct appended as [v|].
    + exists (v :: more). rewrite <- app_assoc. simpl.
      split; [done|]. split; [lia|]. intros Hlt. by rewrite Hlen.
    + exists more. split; [done|]. split; [lia|]. intros Hlt.
      apply bracket_scan_none in Hscan as [Hn _]; [lia|done].
Qed.
End BracketScan.

Section ScanOnSeries.
Context {arith : PyArith}.
Variable ts : TimeSeries.
Hypothesis Hinv : ts_inv ts.

Lemma time_len_inv : time_len (_time ts) = Z.of_nat (length (_value ts)).
Proof. rewrite time_len_items. by apply inv_len_time. Qed.

Lemma time_at (k : nat) x :
  time_items (_time ts) !! k = Some x ->
  time_getitem (_time ts) (Z.of_nat k) = Ok x.
Proof. intros H. rewrite time_getitem_items. by apply list_getitem_lookup. Qed.

Lemma time_lookup_lt (k : nat) :
  (k < length (_value ts))%nat ->
  exists x, time_items (_time ts) !! k = Some x.
Proof.
  intros Hk. apply lookup_lt_is_Some_2. destruct Hinv as [-> _]. done.
Qed.

Lemma value_lookup_lt (k : nat) :
  (k < length (_value ts))%nat -> exists x, _value ts !! k = Some x.
Proof. intros Hk. by apply lookup_lt_is_Some_2. Qed.

(** One iteration of the loop with the cursor at bracket [k]. *)
Lemma bracket_scan_body t fuel (k : nat) t_first t_last v_first v_last
      t_lo t_hi v_lo v_hi :
  (1 <= k < length (_value ts))%nat ->
  time_items (_time ts) !! 0%nat = Some t_first ->
  time_items (_time ts) !! (length (_value ts) - 1)%nat = Some t_last ->
  _value ts !! 0%nat = Some v_first ->
  _value ts !! (length (_value ts) - 1)%nat = Some v_last ->
  time_items (_time ts) !! (k - 1)%nat = Some t_lo ->
  time_items (_time ts) !! k = Some t_hi ->
  _value ts !! (k - 1)%nat = Some v_lo ->
  _value ts !! k = Some v_hi ->
  bracket_scan (_time ts) (_value ts) (time_len (_time ts)) t (S fuel)
               (Z.of_nat k)
  = if Qlt_bool t t_first then Ok (Some v_first, Z.of_nat k)
    else if Qlt_bool t_last t then Ok (Some v_last, Z.of_nat k)
    else if Qle_bool t_lo t && Qle_bool t t_hi then
      newVal ← bracket_value t v_hi v_lo t_hi t_lo;
      mret (Some newVal, Z.of_nat k)
    else bracket_scan (_time ts) (_value ts) (time_len (_time ts)) t fuel
                      (Z.of_nat (S k)).
Proof.
  intros Hk Ht0 Htl Hv0 Hvl Hta Htb Hva Hvb.
  rewrite time_len_inv. simpl bracket_scan.
  destruct (Z.ltb_spec (Z.of_nat k) (Z.of_nat (length (_value ts)))); [|lia].
  simpl negb. cbv iota.
  change 0 with (Z.of_nat 0).
  replace (Z.of_nat (length (_value ts)) - 1)
    with (Z.of_nat (length (_value ts) - 1)) by lia.
  replace (Z.of_nat k - 1) with (Z.of_nat (k - 1)) by lia.
  replace (Z.of_nat k + 1) with (Z.of_nat (S k)) by lia.
  rewrite (time_at _ _ Ht0), (time_at _ _ Htl), (time_at _ _ Hta),
    (time_at _ _ Htb).
  rewrite (list_getitem_lookup _ _ _ Hv0), (list_getitem_lookup _ _ _ Hvl),
    (list_getitem_lookup _ _ _ Hva), (list_getitem_lookup _ _ _ Hvb).
  simpl.
  destruct (Qlt_bool t t_first); [done|].
  destruct (Qlt_bool t_last t); [done|].
  destruct (Qle_bool t_lo t); simpl; [|done].
  destruct (Qle_bool t t_hi); [|done].
  unfold bracket_value. simpl. by repeat case_bind.
Qed.

(** Left clamp: a query time below the first time takes the first
    value, wherever the cursor stands inside the series. *)
Lemma bracket_scan_left t fuel (k : nat) t_first v_first :
  (1 <= k < length (_value ts))%nat ->
  time_items (_time ts) !! 0%nat = Some t_first ->
  _value ts !! 0%nat = Some v_first ->
  (t < t_first)%Q ->
  bracket_scan (_time ts) (_value ts) (time_len (_time ts)) t (S fuel)
               (Z.of_nat k)
  = Ok (Some v_first, Z.of_nat k).
Proof.
  intros Hk Ht0 Hv0 Hlt.
  destruct (time_lookup_lt (length (_value ts) - 1)) as [tl Htl]; [lia|].
  destruct (value_lookup_lt (length (_value ts) - 1)) as [vl Hvl]; [lia|].
  destruct (time_lookup_lt (k - 1)) as [a Ha]; [lia|].
  destruct (time_lookup_lt k) as [b Hb]; [lia|].
  destruct (value_lookup_lt (k - 1)) as [va Hva]; [lia|].
  destruct (value_lookup_lt k) as [vb Hvb]; [lia|].
  rewrite (bracket_scan_body t fuel k _ _ _ _ _ _ _ _ Hk Ht0 Htl Hv0 Hvl Ha Hb Hva Hvb).
  apply Qlt_bool_iff in Hlt. by rewrite Hlt.
Qed.

(** Right clamp: a query time above the last time, and not below the
    first, takes the last value. *)
Lemma bracket_scan_right t fuel (k : nat) t_first t_last v_last :
  (1 <= k < length (_value ts))%nat ->
  time_items (_time ts) !! 0%nat = Some t_first ->
  time_items (_time ts) !! (length (_value ts) - 1)%nat = Some t_last ->
  _value ts !! (length (_value ts) - 1)%nat = Some v_last ->
  ~ (t < t_first)%Q -> (t_last < t)%Q ->
  bracket_scan (_time ts) (_value ts) (time_len (_time ts)) t (S fuel)
               (Z.of_nat k)
  = Ok (Some v_last, Z.of_nat k).
Proof.
  intros Hk Ht0 Htl Hvl Hge Hlt.
  destruct (value_lookup_lt 0) as [v0 Hv0]; [lia|].
  destruct (time_lookup_lt (k - 1)) as [a Ha]; [lia|].
  destruct (time_lookup_lt k) as [b Hb]; [lia|].
  destruct (value_lookup_lt (k - 1)) as [va Hva]; [lia|].
  destruct (value_lookup_lt k) as [vb Hvb]; [lia|].
  rewrite (bracket_scan_body t fuel k _ _ _ _ _ _ _ _ Hk Ht0 Htl Hv0 Hvl Ha Hb Hva Hvb).
  apply Qlt_bool_false_iff in Hge. apply Qlt_bool_iff in Hlt.
  by rewrite Hge, Hlt.
Qed.

(** The scan stops at the first bracket, from the cursor on, that
    contains the query time, and applies the formula of the source
    there. *)
Lemma bracket_scan_first_bracket t (gap : nat) :
  forall (fuel c k : nat) t_first t_last t_lo t_hi v_lo v_hi,
    k = (c + gap)%nat -> (1 <= c)%nat -> (k < length (_value ts))%nat ->
    (gap < fuel)%nat ->
    time_items (_time ts) !! 0%nat = Some t_first ->
    time_items (_time ts) !! (length (_value ts) - 1)%nat = Some t_last ->
    ~ (t < t_first)%Q -> ~ (t_last < t)%Q ->
    time_items (_time ts) !! (k - 1)%nat = Some t_lo ->
    time_items (_time ts) !! k = Some t_hi ->
    _value ts !! (k - 1)%nat = Some v_lo ->
    _value ts !! k = Some v_hi ->
    (t_lo <= t)%Q -> (t <= t_hi)%Q ->
    (forall (j : nat) a b,
       (c <= j < k)%nat ->
       time_items (_time ts) !! (j - 1)%nat = Some a ->
       time_items (_time ts) !! j = Some b ->
       ~ ((a <= t)%Q /\ (t <= b)%Q)) ->
    bracket_scan (_time ts) (_value ts) (time_len (_time ts)) t fuel
                 (Z.of_nat c)
    = newVal ← bracket_value t v_hi v_lo t_hi t_lo;
      mret (Some newVal, Z.of_nat k).
Proof.
  induction gap as [|gap IH];
    intros fuel c k t0 tl a b va vb -> Hc Hk Hfuel Ht0 Htl Hge Hle
           Ha Hb Hva Hvb Hlo Hhi Hfirst;
    (destruct fuel as [|fuel]; [lia|]);
    destruct (value_lookup_lt 0) as [v0 Hv0]; try lia;
    destruct (value_lookup_lt (length (_value ts) - 1)) as [vl Hvl]; try lia.
  - rewrite Nat.add_0_r in *.
    rewrite (bracket_scan_body t fuel c _ _ _ _ _ _ _ _
               (conj Hc Hk) Ht0 Htl Hv0 Hvl Ha Hb Hva Hvb).
    apply Qlt_bool_false_iff in Hge, Hle. rewrite Hge, Hle.
    apply Qle_bool_iff in Hlo, Hhi. by rewrite Hlo, Hhi.
  - destruct (time_lookup_lt (c - 1)) as [a' Ha']; [lia|].
    destruct (time_lookup_lt c) as [b' Hb']; [lia|].
    destruct (value_lookup_lt (c - 1)) as [va' Hva']; [lia|].
    destruct (value_lookup_lt c) as [vb' Hvb']; [lia|].
    assert (Hck : (1 <= c < length (_value ts))%nat) by lia.
    rewrite (bracket_scan_body t fuel c _ _ _ _ _ _ _ _
               Hck Ht0 Htl Hv0 Hvl Ha' Hb' Hva' Hvb').
    pose proof Hge as Hge'. pose proof Hle as Hle'.
    apply Qlt_bool_false_iff in Hge', Hle'. rewrite Hge', Hle'.
    assert (Hout : Qle_bool a' t && Qle_bool t b' = false).
    { destruct (Qle_bool a' t) eqn:E1, (Qle_bool t b') eqn:E2; try done.
      apply Qle_bool_iff in E1, E2.
      destruct (Hfirst c a' b'); [lia|done..]. }
    rewrite Hout.
    apply (IH fuel (S c) (c + S gap)%nat t0 tl a b va vb);
      try done; try lia.
    intros j a1 b1 Hj. apply Hfirst. lia.
Qed.
End ScanOnSeries.

(** The constructor rejects fewer values than query times. *)
Lemma init_too_few_values vals q :
  is_sequence q = true -> (length vals < length (seq_items q))%nat ->
  __init__ (PyList vals) q = Raise ValueError.
Proof.
  intros Hq Hlen. unfold __init__. simpl.
  rewrite truthy_sequence, Hq by done.
  rewrite seq_len_items by done.
  destruct (Z.eqb_spec (py_len (seq_items q)) 0) as [E|_];
    [unfold py_len in E; lia|]. simpl.
  destruct (Z.eqb_spec (py_len (seq_items q)) (py_len vals)) as [E|_];
    [unfold py_len in E; lia|done].
Qed.

Lemma interpolate_unfold {arith : PyArith} ts q :
  is_sequence q = true ->
  interpolate ts q
  = '(newValues, _) ← run_queries ts (seq_items q); __init__ (PyList newValues) q.
Proof. intros Hq. unfold interpolate, run_queries. by rewrite Hq. Qed.

(** A query time at which the scan runs out of brackets makes the whole
    call fail. *)
Lemma interpolate_exhausted {arith : PyArith} ts q pre t post vals c c' :
  is_sequence q = true -> seq_items q = pre ++ t :: post ->
  run_queries ts pre = Ok (vals, c) ->
  scan_from ts t c = Ok (None, c') ->
  interpolate ts q = Raise ValueError.
Proof.
  intros Hq Hitems Hpre Hscan.
  rewrite interpolate_unfold by done.
  unfold run_queries in *. rewrite Hitems, interpolate_loop_app, Hpre.
  simpl. unfold scan_from in Hscan. rewrite Hscan. simpl.
  apply bracket_scan_none in Hscan as [Hn _]; [|done].
  rewrite interpolate_loop_exhausted by done. simpl.
  apply init_too_few_values; [done|].
  apply interpolate_loop_length in Hpre.
  rewrite Hitems, length_app. simpl in *. lia.
Qed.

(** C10.  On a series with exactly one pair the scan loop is never
    entered: no value is produced for any query time, and for a
    non-empty sequence of query times the call raises [ValueError] when
    it builds the result, the empty value list being shorter than the
    query times.  The same [ValueError] is raised whenever some query
    time is reached with the scan running out of brackets. *)
Theorem interpolate_without_match_raises {arith : PyArith} :
  (forall ts q,
     ts_wf ts -> __len__ ts = 1 -> is_sequence q = true ->
     seq_items q <> [] ->
     (forall t, scan_from ts t 1 = Ok (None, 1)) /\
     run_queries ts (seq_items q) = Ok ([], 1) /\
     interpolate ts q = Raise ValueError) /\
  (forall ts q pre t post vals c c',
     is_sequence q = true -> seq_items q = pre ++ t :: post ->
     run_queries ts pre = Ok (vals, c) ->
     scan_from ts t c = Ok (None, c') ->
     interpolate ts q = Raise ValueError).
Proof.
  split; [|exact interpolate_exhausted].
  intros ts q [Hinv _] Hlen Hq Hne.
  assert (Hn : time_len (_time ts) = 1).
  { rewrite (time_len_inv ts Hinv). unfold __len__, py_len in Hlen. done. }
  assert (Hscan : forall t, scan_from ts t 1 = Ok (None, 1)).
  { intros t. unfold scan_from. apply bracket_scan_exhausted. lia. }
  assert (Hrun : run_queries ts (seq_items q) = Ok ([], 1)).
  { unfold run_queries. apply interpolate_loop_exhausted. lia. }
  split; [done|]. split; [done|].
  rewrite interpolate_unfold, Hrun by done. simpl.
  apply init_too_few_values; [done|].
  destruct (seq_items q); [done|simpl; lia].
Qed.

Lemma interpolate_without_match_raises_witness :
  interpolate (arith:=exact_arith) ts_0_5_10 (PyList [7; 3; 100]%Q)
  = Raise ValueError.
Proof.
  eapply (proj2 (interpolate_without_match_raises (arith:=exact_arith))
            ts_0_5_10 (PyList [7; 3; 100]%Q) [7%Q] 3%Q [100%Q]).
  - reflexivity.
  - reflexivity.
  - vm_compute. reflexivity.
  - vm_compute. reflexivity.
Defined.

Lemma scan_from_inside {arith : PyArith} ts t (k : nat) :
  ts_inv ts -> (k < length (_value ts))%nat ->
  exists fuel,
    scan_from ts t (Z.of_nat k)
    = bracket_scan (_time ts) (_value ts) (time_len (_time ts)) t (S fuel)
                   (Z.of_nat k)
    /\ (length (_value ts) - k = S fuel)%nat.
Proof.
  intros Hinv Hk. exists (length (_value ts) - k - 1)%nat.
  unfold scan_from. rewrite (time_len_inv ts Hinv).
  split; [f_equal|]; lia.
Qed.

(** Where the result of the constructor keeps the values and the query
    times it was given. *)
Lemma init_values_Ok vals q ts' :
  is_sequence q = true -> seq_items q <> [] ->
  __init__ (PyList vals) q = Ok ts' ->
  _value ts' = vals /\ time_items (_time ts') = seq_items q /\
  _timeseries ts' = zip (seq_items q) vals.
Proof.
  intros Hq Hne Hinit.
  destruct (init_Ok _ _ _ Hinit) as (_ & Hval & Hpairs & [Hlist|Hdef]).
  - destruct Hlist as (_ & _ & _ & Htime).
    rewrite Hpairs, Hval, Htime. done.
  - destruct Hdef as [Hfalsy _].
    by destruct Hne; apply falsy_sequence_empty.
Qed.

(** The steps of the [for] loop.  With the cursor and the values the
    query times [pre] leave behind, the next query time [t] is scanned
    from that cursor, and what the scan yields is appended. *)
Lemma run_queries_step {arith : PyArith} ts pre t vals c :
  run_queries ts pre = Ok (vals, c) ->
  run_queries ts (pre ++ [t])
  = '(appended, c') ← scan_from ts t c;
    mret (match appended with
          | Some v => vals ++ [v]
          | None => vals
          end, c').
Proof.
  intros Hpre. unfold run_queries in *.
  rewrite interpolate_loop_app, Hpre. simpl. unfold scan_from.
  by destruct (bracket_scan _ _ _ _ _ _) as [[appended c']|].
Qed.

(** The cursor starts at 1 and never moves back; as long as it is
    inside the series every query time so far has produced a value. *)
Lemma run_queries_cursor {arith : PyArith} ts pre vals c :
  run_queries ts pre = Ok (vals, c) ->
  1 <= c /\ (c < time_len (_time ts) -> length vals = length pre).
Proof.
  intros H. apply interpolate_loop_values in H as (Hc & more & -> & _ & Hlen).
  split; [done|]. intros Hlt. by apply Hlen.
Qed.

(** A query time for which the scan yields [v] has [v] at its position
    in the result. *)
Lemma interpolate_at {arith : PyArith} ts q pre t post vals c v c' :
  is_sequence q = true -> seq_items q = pre ++ t :: post ->
  run_queries ts pre = Ok (vals, c) ->
  scan_from ts t c = Ok (Some v, c') ->
  length vals = length pre /\
  forall ts', interpolate ts q = Ok ts' ->
    _value ts' !! length pre = Some v /\
    time_items (_time ts') !! length pre = Some t /\
    _timeseries ts' !! length pre = Some (t, v).
Proof.
  intros Hq Hitems Hpre Hscan.
  assert (Hlen : length vals = length pre).
  { apply (run_queries_cursor ts pre vals c Hpre).
    unfold scan_from in Hscan.
    apply bracket_scan_cursor in Hscan as [Hle Hlt].
    specialize (Hlt (ltac:(by eexists))). lia. }
  split; [done|]. intros ts'.
  rewrite interpolate_unfold by done.
  unfold run_queries in *. rewrite Hitems, interpolate_loop_app, Hpre.
  simpl. unfold scan_from in Hscan. rewrite Hscan. simpl.
  destruct (interpolate_loop _ _ _ post c' (vals ++ [v]))
    as [[newValues c'']|] eqn:Hpost; [|done].
  simpl. intros Hinit.
  apply interpolate_loop_values in Hpost as (_ & more & -> & _).
  apply init_values_Ok in Hinit as (Hval & Htime & Hpairs);
    [|done|rewrite Hitems; by destruct pre].
  assert (Hv : ((vals ++ [v]) ++ more) !! length pre = Some v).
  { rewrite <- Hlen, <- app_assoc. simpl. by apply list_lookup_middle. }
  assert (Ht : seq_items q !! length pre = Some t).
  { rewrite Hitems. by apply list_lookup_middle. }
  rewrite Hval, Htime, Hpairs.
  split; [done|]. split; [done|].
  rewrite lookup_zip_with, Ht. simpl. by rewrite Hv.
Qed.

(** An exception raised while a query time is scanned leaves [interpolate]. *)
Lemma interpolate_raises_at {arith : PyArith} ts q pre t post vals c e :
  is_sequence q = true -> seq_items q = pre ++ t :: post ->
  run_queries ts pre = Ok (vals, c) ->
  scan_from ts t c = Raise e ->
  interpolate ts q = Raise e.
Proof.
  intros Hq Hitems Hpre Hscan.
  rewrite interpolate_unfold by done.
  unfold run_queries in *. rewrite Hitems, interpolate_loop_app, Hpre.
  simpl. unfold scan_from in Hscan. by rewrite Hscan.
Qed.

(** The loop over query times that all lie outside the range of the
    series: the cursor stays at 1 and every query time is clamped. *)
Lemma interpolate_loop_clamped {arith : PyArith} ts t_first t_last v_first v_last :
  ts_inv ts -> (2 <= length (_value ts))%nat ->
  endpoints ts t_first t_last v_first v_last ->
  forall newTimes newValues,
    Forall (fun t => (t < t_first)%Q \/ (t_last < t)%Q) newTimes ->
    interpolate_loop (_time ts) (_value ts) (time_len (_time ts))
                     newTimes 1 newValues
    = Ok (newValues
          ++ map (fun t => if Qlt_bool t t_first then v_first else v_last)
                 newTimes, 1).
Proof.
  intros Hinv Hlen (Ht0 & Htl & Hv0 & Hvl).
  induction newTimes as [|t rest IH]; intros newValues Hout.
  { simpl. by rewrite app_nil_r. }
  apply Forall_cons_1 in Hout as [Ht Hrest]. simpl interpolate_loop.
  assert (Hk : (1 <= 1 < length (_value ts))%nat) by lia.
  destruct (scan_from_inside ts t 1 Hinv) as (fuel & Hscan & _); [lia|].
  unfold scan_from in Hscan. change (Z.of_nat 1) with 1 in Hscan.
  rewrite Hscan.
  destruct (Qlt_bool t t_first) eqn:E.
  - pose proof E as E'. apply Qlt_bool_iff in E'.
    pose proof (bracket_scan_left ts Hinv t fuel 1 _ _ Hk Ht0 Hv0 E') as Hl.
    change (Z.of_nat 1) with 1 in Hl. rewrite Hl.
    simpl. rewrite IH by done. rewrite E. by rewrite <- app_assoc.
  - pose proof E as E'. apply Qlt_bool_false_iff in E'.
    destruct Ht as [Ht|Ht]; [done|].
    pose proof (bracket_scan_right ts Hinv t fuel 1 _ _ _ Hk Ht0 Htl Hvl E' Ht)
      as Hr.
    change (Z.of_nat 1) with 1 in Hr. rewrite Hr.
    simpl. rewrite IH by done. rewrite E. by rewrite <- app_assoc.
Qed.

(** The scan of an out-of-range query time with the cursor inside the
    series. *)
Lemma scan_from_clamped {arith : PyArith} ts t (k : nat)
      t_first t_last v_first v_last v :
  ts_inv ts -> (1 <= k < length (_value ts))%nat ->
  endpoints ts t_first t_last v_first v_last ->
  ((t < t_first)%Q /\ v = v_first) \/
  (~ (t < t_first)%Q /\ (t_last < t)%Q /\ v = v_last) ->
  scan_from ts t (Z.of_nat k) = Ok (Some v, Z.of_nat k).
Proof.
  intros Hinv Hk (Ht0 & Htl & Hv0 & Hvl) Hout.
  destruct (scan_from_inside ts t k Hinv) as (fuel & -> & _); [lia|].
  destruct Hout as [[Hlt ->]|(Hge & Hlt & ->)].
  - by apply bracket_scan_left with t_first.
  - by apply bracket_scan_right with t_first t_last.
Qed.

(** C2, as the code has it.  On a series with at least two pairs, a
    query time reached while the cursor is still inside the series is
    clamped: below the first time it takes the first value; above the
    last time, and not below the first, it takes the last value.  This
    holds wherever the query time stands in the list: the loop appends
    the clamped value and leaves the cursor where it was, and the value
    stands at the position of the query time in the result.  When every
    query time lies outside the range of the series the call succeeds
    and returns exactly the clamped values, so that
    [TimeSeries([1,2,3], [0,5,10]).interpolate([-100, 100])] has the
    values [1, 3]; and in [interpolate([7, 100])] the query time 100 is
    clamped to 3 after 7 has moved the cursor to the second bracket. *)
Theorem interpolate_clamps_outside_range {arith : PyArith} :
  (forall ts q pre t post vals (k : nat) t_first t_last v_first v_last v,
     ts_wf ts -> is_sequence q = true -> seq_items q = pre ++ t :: post ->
     run_queries ts pre = Ok (vals, Z.of_nat k) ->
     (k < length (_value ts))%nat ->
     endpoints ts t_first t_last v_first v_last ->
     ((t < t_first)%Q /\ v = v_first) \/
     (~ (t < t_first)%Q /\ (t_last < t)%Q /\ v = v_last) ->
     scan_from ts t (Z.of_nat k) = Ok (Some v, Z.of_nat k) /\
     run_queries ts (pre ++ [t]) = Ok (vals ++ [v], Z.of_nat k) /\
     length vals = length pre /\
     (forall ts',
        interpolate ts q = Ok ts' ->
        _value ts' !! length pre = Some v /\
        _timeseries ts' !! length pre = Some (t, v))) /\
  (forall ts q t_first t_last v_first v_last,
     ts_wf ts -> (2 <= length (_value ts))%nat -> is_sequence q = true ->
     endpoints ts t_first t_last v_first v_last ->
     Forall (fun t => (t < t_first)%Q \/ (t_last < t)%Q) (seq_items q) ->
     exists ts',
       interpolate ts q = Ok ts' /\
       time_items (_time ts') = seq_items q /\
       _value ts'
       = map (fun t => if Qlt_bool t t_first then v_first else v_last)
             (seq_items q)) /\
  (exists ts',
     interpolate ts_0_5_10 (PyList [-100; 100]%Q) = Ok ts' /\
     time_items (_time ts') = [-100; 100]%Q /\
     _value ts' = [1; 3]%Q) /\
  (forall v,
     bracket_value 7 3 2 10 5 = Ok v ->
     exists ts',
       interpolate ts_0_5_10 (PyList [7; 100]%Q) = Ok ts' /\
       time_items (_time ts') = [7; 100]%Q /\
       _value ts' = [v; 3%Q]).
Proof.
  split; [|split; [|split]].
  - intros ts q pre t post vals k t0 tl v0 vl v [Hinv _] Hq Hitems Hpre Hk
           Hends Hout.
    assert (H1k : (1 <= k < length (_value ts))%nat).
    { apply run_queries_cursor in Hpre as [H1 _]. lia. }
    pose proof (scan_from_clamped ts t k t0 tl v0 vl v Hinv H1k Hends Hout)
      as Hscan.
    split; [done|]. split.
    { by rewrite (run_queries_step ts pre t vals _ Hpre), Hscan. }
    destruct (interpolate_at ts q pre t post vals _ v _ Hq Hitems Hpre Hscan)
      as [Hlen Hres].
    split; [done|]. intros ts' Hint.
    destruct (Hres ts' Hint) as (Hv & _ & Hp). done.
  - intros ts q t0 tl v0 vl [Hinv _] Hlen Hq Hends Hout.
    rewrite interpolate_unfold by done. unfold run_queries.
    rewrite (interpolate_loop_clamped ts t0 tl v0 vl Hinv Hlen Hends _ [] Hout).
    simpl.
    destruct (init_aligned
                (map (fun t => if Qlt_bool t t0 then v0 else vl) (seq_items q)) q)
      as (ts' & Hinit & Hval & Htime); [done|by rewrite length_map|].
    exists ts'. done.
  - eexists. split; [reflexivity|]. split; reflexivity.
  - intros v Hv. unfold interpolate, bracket_value in *. simpl in *.
    destruct (py_sub 3 2) as [dv|]; [|done]. simpl in *.
    destruct (py_sub 10 5) as [dt|]; [|done]. simpl in *.
    destruct (py_truediv dv dt) as [slope|]; [|done]. simpl in *.
    destruct (py_mul 7 slope) as [m|]; [|done]. simpl in *.
    rewrite Hv. simpl.
    eexists. split; [reflexivity|]. split; reflexivity.
Qed.

Lemma interpolate_clamps_outside_range_witness :
  (exists ts',
     interpolate (arith:=exact_arith) ts_0_5_10 (PyTuple [-1; 11; -2]%Q)
     = Ok ts' /\
     _value ts' = [1; 3; 1]%Q) /\
  (exists vals,
     run_queries (arith:=exact_arith) ts_0_5_10 [10; 100]%Q = Ok (vals, 2) /\
     Forall2 Qeq vals [12; 3]%Q).
Proof.
  split.
  - destruct (proj1 (proj2 (interpolate_clamps_outside_range
                              (arith:=exact_arith))) ts_0_5_10
                (PyTuple [-1; 11; -2]%Q) 0%Q 10%Q 1%Q 3%Q)
      as (ts' & Hint & _ & Hval).
    + exact ts_0_5_10_wf.
    + simpl. lia.
    + reflexivity.
    + repeat split.
    + simpl. repeat constructor; vm_compute; reflexivity.
    + exists ts'. split; [exact Hint|exact Hval].
  - exists [60 # 5; 3]%Q. split; [|repeat constructor; reflexivity].
    refine (proj1 (proj2 (proj1 (interpolate_clamps_outside_range
                                   (arith:=exact_arith))
              ts_0_5_10 (PyList [10; 100]%Q) [10%Q] 100%Q [] [60 # 5]%Q 2%nat
              0%Q 10%Q 1%Q 3%Q 3%Q ts_0_5_10_wf eq_refl eq_refl eq_refl
              _ _ _))).
    + simpl. lia.
    + repeat split.
    + right. split; [vm_compute; discriminate|]. split; reflexivity.
Defined.

(** C2 as stated does not hold.  On a one-pair series a query time below
    the only time yields no value (the call raises); on a series whose
    times decrease, a query time above the last time and below the first
    takes the first value, not the last; and a query time above the last
    time yields no value once an earlier query time has exhausted the
    cursor. *)
Lemma clamp_fails_without_brackets :
  (exists ts,
     __init__ (PyList [7%Q]) (PyList [3%Q]) = Ok ts /\
     endpoints ts 3 3 7 7 /\ (0 < 3)%Q /\
     interpolate (arith:=exact_arith) ts (PyList [0%Q]) = Raise ValueError) /\
  (exists ts ts',
     __init__ (PyList [1; 2; 3]%Q) (PyList [10; 5; 0]%Q) = Ok ts /\
     endpoints ts 10 0 1 3 /\ (0 < 7)%Q /\
     interpolate (arith:=exact_arith) ts (PyList [7%Q]) = Ok ts' /\
     _value ts' = [1%Q]) /\
  (endpoints ts_0_5_10 0 10 1 3 /\ (10 < 100)%Q /\
   interpolate (arith:=exact_arith) ts_0_5_10 (PyList [7; 3; 100]%Q)
   = Raise ValueError).
Proof.
  split; [|split].
  - eexists. repeat split.
  - do 2 eexists. repeat split.
  - repeat split.
Qed.

(** The scan from cursor [c] stops at the first bracket [k >= c] that
    contains [t], with the outcome of line 162 on that bracket. *)
Lemma scan_from_first_bracket {arith : PyArith} ts t (c k : nat)
      t_first t_last v_first v_last t_lo t_hi v_lo v_hi :
  ts_inv ts -> (1 <= c <= k)%nat -> (k < length (_value ts))%nat ->
  endpoints ts t_first t_last v_first v_last -> within t_first t_last t ->
  bracket_at ts k t_lo t_hi v_lo v_hi -> within t_lo t_hi t ->
  (forall (j : nat) a b va vb,
     (c <= j < k)%nat -> bracket_at ts j a b va vb -> ~ within a b t) ->
  scan_from ts t (Z.of_nat c)
  = newVal ← bracket_value t v_hi v_lo t_hi t_lo;
    mret (Some newVal, Z.of_nat k).
Proof.
  intros Hinv Hck Hk (Ht0 & Htl & _ & _) [Hge Hle]
         (_ & Hta & Htb & Hva & Hvb) [Hlo Hhi] Hfirst.
  unfold scan_from.
  rewrite (bracket_scan_first_bracket ts Hinv t (k - c)
             (Z.to_nat (time_len (_time ts) - Z.of_nat c)) c k
             t_first t_last t_lo t_hi v_lo v_hi); try done; try lia.
  - rewrite (time_len_inv ts Hinv). lia.
  - by apply Qle_not_lt.
  - by apply Qle_not_lt.
  - intros j a b Hj Ha Hb.
    destruct (value_lookup_lt ts (j - 1)) as [va Hja]; [lia|].
    destruct (value_lookup_lt ts j) as [vb Hjb]; [lia|].
    apply (Hfirst j a b va vb Hj). repeat split; [lia|done..].
Qed.

(** C1 as stated does not hold.  In [TimeSeries([1,2,4], [0,5,10])] the
    query time 5 lies in bracket 2, [[5, 10]], but the value returned is
    the one bracket 1 gives, 6, not [5 + 5 * ((4 - 2) / (10 - 5))] = 7;
    and in [TimeSeries([1,2,3], [0,0,10])] the query time 0 lies in
    bracket 1, [[0, 0]], where the division raises. *)
Lemma bracket_formula_fails_at_shared_endpoint :
  (exists ts ts' v,
     __init__ (PyList [1; 2; 4]%Q) (PyList [0; 5; 10]%Q) = Ok ts /\
     bracket_at ts 2 5 10 2 4 /\ within 5 10 5 /\ within 0 10 5 /\
     interpolate (arith:=exact_arith) ts (PyList [5%Q]) = Ok ts' /\
     _value ts' = [v] /\
     (v == 6)%Q /\ ~ (v == 5 + 5 * ((4 - 2) / (10 - 5)))%Q) /\
  (exists ts,
     __init__ (PyList [1; 2; 3]%Q) (PyList [0; 0; 10]%Q) = Ok ts /\
     bracket_at ts 1 0 0 1 2 /\ within 0 0 0 /\ within 0 10 0 /\
     interpolate (arith:=exact_arith) ts (PyList [0%Q])
     = Raise ZeroDivisionError).
Proof.
  split.
  - do 3 eexists. split; [reflexivity|].
    split; [repeat split; lia|].
    split; [split; vm_compute; discriminate|].
    split; [split; vm_compute; discriminate|].
    split; [reflexivity|]. split; [reflexivity|].
    split; vm_compute; [reflexivity|discriminate].
  - eexists. split; [reflexivity|].
    split; [repeat split; lia|].
    split; [split; vm_compute; discriminate|].
    split; [split; vm_compute; discriminate|].
    reflexivity.
Qed.

(** C1, as the code has it.  A query time [t] with
    [time[0] <= t <= time[n-1]], reached with the scan cursor at [c]
    (the cursor the earlier query times of the list leave behind, 1 for
    the first), gets the value line 162 computes,
    [t + t * ((value[k] - value[k-1]) / (time[k] - time[k-1]))], on the
    first bracket [k] from [c] on that contains [t]: the loop appends
    that value and moves the cursor to [k], the value stands at the
    position of [t] in the result, and an exception raised by the
    arithmetic leaves [interpolate].  For a single query time the
    bracket is the first one of the series that contains it.  Where
    nothing is rounded and [time[k] != time[k-1]] the value is the
    rational the formula denotes:
    [TimeSeries([1,2,3], [0,5,10]).interpolate([1])] has the single
    value [1 + 1 * ((2 - 1) / (5 - 0))], which is 6/5 = 1.2. *)
Theorem interpolate_first_bracket_formula {arith : PyArith} :
  (forall ts q pre t post vals (c k : nat)
          t_first t_last v_first v_last t_lo t_hi v_lo v_hi,
     ts_wf ts -> is_sequence q = true -> seq_items q = pre ++ t :: post ->
     run_queries ts pre = Ok (vals, Z.of_nat c) ->
     (c <= k < length (_value ts))%nat ->
     endpoints ts t_first t_last v_first v_last -> within t_first t_last t ->
     bracket_at ts k t_lo t_hi v_lo v_hi -> within t_lo t_hi t ->
     (forall (j : nat) a b va vb,
        (c <= j < k)%nat -> bracket_at ts j a b va vb -> ~ within a b t) ->
     run_queries ts (pre ++ [t])
     = (v ← bracket_value t v_hi v_lo t_hi t_lo;
        mret (vals ++ [v], Z.of_nat k)) /\
     length vals = length pre /\
     (forall e,
        bracket_value t v_hi v_lo t_hi t_lo = Raise e ->
        interpolate ts q = Raise e) /\
     (forall ts',
        interpolate ts q = Ok ts' ->
        exists v,
          bracket_value t v_hi v_lo t_hi t_lo = Ok v /\
          _value ts' !! length pre = Some v /\
          _timeseries ts' !! length pre = Some (t, v))) /\
  (forall ts t (k : nat) t_first t_last v_first v_last t_lo t_hi v_lo v_hi,
     ts_wf ts -> (k < length (_value ts))%nat ->
     endpoints ts t_first t_last v_first v_last -> within t_first t_last t ->
     bracket_at ts k t_lo t_hi v_lo v_hi -> within t_lo t_hi t ->
     (forall (j : nat) a b va vb,
        (j < k)%nat -> bracket_at ts j a b va vb -> ~ within a b t) ->
     interpolate ts (PyList [t])
     = (v ← bracket_value t v_hi v_lo t_hi t_lo;
        __init__ (PyList [v]) (PyList [t])) /\
     (forall v,
        bracket_value t v_hi v_lo t_hi t_lo = Ok v ->
        exists ts',
          interpolate ts (PyList [t]) = Ok ts' /\
          time_items (_time ts') = [t] /\ _value ts' = [v])) /\
  (forall t v_hi v_lo t_hi t_lo,
     ~ (t_hi == t_lo)%Q ->
     bracket_value (arith:=exact_arith) t v_hi v_lo t_hi t_lo
     = Ok (t + t * ((v_hi - v_lo) / (t_hi - t_lo)))%Q) /\
  (forall v,
     bracket_value 1 2 1 5 0 = Ok v ->
     exists ts',
       interpolate ts_0_5_10 (PyList [1%Q]) = Ok ts' /\
       time_items (_time ts') = [1%Q] /\ _value ts' = [v]) /\
  (exists ts' v,
     interpolate (arith:=exact_arith) ts_0_5_10 (PyList [1%Q]) = Ok ts' /\
     time_items (_time ts') = [1%Q] /\
     _value ts' = [v] /\ (v == 12 # 10)%Q).
Proof.
  assert (Hsingle :
    forall ts t (k : nat) t0 tl v0 vl a b va vb,
      ts_wf ts -> (k < length (_value ts))%nat ->
      endpoints ts t0 tl v0 vl -> within t0 tl t ->
      bracket_at ts k a b va vb -> within a b t ->
      (forall (j : nat) a' b' va' vb',
         (j < k)%nat -> bracket_at ts j a' b' va' vb' -> ~ within a' b' t) ->
      interpolate ts (PyList [t])
      = (v ← bracket_value t vb va b a; __init__ (PyList [v]) (PyList [t]))).
  { intros ts t k t0 tl v0 vl a b va vb [Hinv _] Hk Hends Hin Hbr Hw Hfirst.
    assert (H1k : (1 <= 1 <= k)%nat) by (destruct Hbr; lia).
    pose proof (scan_from_first_bracket ts t 1 k t0 tl v0 vl a b va vb
                  Hinv H1k Hk Hends Hin Hbr Hw) as Hscan.
    rewrite interpolate_unfold by done. unfold run_queries. simpl.
    unfold scan_from in Hscan. change (Z.of_nat 1) with 1 in Hscan.
    rewrite Hscan.
    - by destruct (bracket_value t vb va b a).
    - intros j a' b' va' vb' Hj Hbr'.
      apply (Hfirst j a' b' va' vb'); [lia|done]. }
  split; [|split; [|split; [|split]]].
  - intros ts q pre t post vals c k t0 tl v0 vl a b va vb [Hinv _] Hq Hitems
           Hpre Hck Hends Hin Hbr Hw Hfirst.
    assert (H1c : (1 <= c <= k)%nat).
    { apply run_queries_cursor in Hpre as [H1 _]. lia. }
    pose proof (scan_from_first_bracket ts t c k t0 tl v0 vl a b va vb
                  Hinv H1c (proj2 Hck) Hends Hin Hbr Hw Hfirst) as Hscan.
    assert (Hlen : length vals = length pre).
    { apply (run_queries_cursor ts pre vals _ Hpre).
      rewrite (time_len_inv ts Hinv). lia. }
    split; [|split; [done|split]].
    + rewrite (run_queries_step ts pre t vals _ Hpre), Hscan.
      by destruct (bracket_value t vb va b a).
    + intros e He. rewrite He in Hscan.
      by apply (interpolate_raises_at ts q pre t post vals _ e Hq Hitems Hpre).
    + intros ts' Hint.
      destruct (bracket_value t vb va b a) as [v|e] eqn:Hv.
      * exists v. split; [done|].
        destruct (interpolate_at ts q pre t post vals _ v _ Hq Hitems Hpre Hscan)
          as [_ Hres].
        destruct (Hres ts' Hint) as (? & _ & ?). done.
      * rewrite (interpolate_raises_at ts q pre t post vals _ e
                   Hq Hitems Hpre Hscan) in Hint. done.
  - intros ts t k t0 tl v0 vl a b va vb Hwf Hk Hends Hin Hbr Hw Hfirst.
    pose proof (Hsingle ts t k t0 tl v0 vl a b va vb Hwf Hk Hends Hin Hbr Hw
                  Hfirst) as Hint.
    split; [done|]. intros v Hv. rewrite Hint, Hv.
    eexists. split; [reflexivity|]. split; reflexivity.
  - intros t v_hi v_lo t_hi t_lo Hne.
    apply bracket_value_exact. intros H. apply Hne. lra.
  - intros v Hv.
    rewrite (Hsingle ts_0_5_10 1%Q 1%nat 0%Q 10%Q 1%Q 3%Q 0%Q 5%Q 1%Q 2%Q).
    + rewrite Hv. eexists. split; [reflexivity|]. split; reflexivity.
    + exact ts_0_5_10_wf.
    + simpl. lia.
    + repeat split.
    + split; vm_compute; discriminate.
    + repeat split. lia.
    + split; vm_compute; discriminate.
    + intros j a b va vb Hj [Hj1 _]. lia.
  - do 2 eexists. split; [reflexivity|]. split; [reflexivity|].
    split; [reflexivity|]. vm_compute. reflexivity.
Qed.

Lemma interpolate_first_bracket_formula_witness :
  (exists vals,
     run_queries (arith:=exact_arith) ts_0_5_10 [5; 10; 10]%Q
     = Ok (vals, 2) /\
     Forall2 Qeq vals [6; 12; 12]%Q) /\
  exists ts',
    interpolate (arith:=exact_arith) ts_0_5_10 (PyList [5%Q]) = Ok ts' /\
    _value ts' = [(5 + 5 * ((2 - 1) / (5 - 0)))%Q].
Proof.
  split.
  - exists [30 # 5; 60 # 5; 60 # 5]%Q.
    split; [|repeat constructor; reflexivity].
    refine (proj1 (proj1 (interpolate_first_bracket_formula
                            (arith:=exact_arith))
              ts_0_5_10 (PyList [5; 10; 10]%Q) [5; 10]%Q 10%Q []
              [30 # 5; 60 # 5]%Q
              2%nat 2%nat 0%Q 10%Q 1%Q 3%Q 5%Q 10%Q 2%Q 3%Q
              ts_0_5_10_wf eq_refl eq_refl eq_refl _ _ _ _ _ _)).
    + simpl. lia.
    + repeat split.
    + split; vm_compute; discriminate.
    + repeat split. lia.
    + split; vm_compute; discriminate.
    + intros j a b va vb Hj. lia.
  - destruct (proj2 (proj1 (proj2 (interpolate_first_bracket_formula
                                     (arith:=exact_arith)))
                ts_0_5_10 5%Q 1%nat 0%Q 10%Q 1%Q 3%Q 0%Q 5%Q 1%Q 2%Q
                ts_0_5_10_wf ltac:(simpl; lia)
                ltac:(repeat split)
                ltac:(split; vm_compute; discriminate)
                ltac:(repeat split; lia)
                ltac:(split; vm_compute; discriminate)
                ltac:(intros j a b va vb Hj [Hj1 _]; lia))
              (5 + 5 * ((2 - 1) / (5 - 0)))%Q eq_refl)
      as (ts' & Hint & _ & Hval).
    exists ts'. split; [exact Hint|exact Hval].
Defined.

(** ** The invariant *)

Lemma setitem_preserves_inv ts index v :
  ts_inv ts -> ts_inv (__setitem__ ts index v).1.
Proof.
  intros Hinv. destruct (integral_index index) as [i|] eqn:Hidx;
    [rewrite (setitem_integral _ _ _ _ Hidx)
    |by rewrite (setitem_not_integral _ _ _ Hidx)].
  destruct (index_in_range (__len__ ts) i) eqn:Hi.
  - destruct (setitem_in_range ts i v Hinv Hi) as (t & Ht & ->). simpl.
    destruct Hinv as [Hlen Hpairs]. split; simpl.
    + by rewrite length_insert.
    + rewrite Hpairs, insert_zip_with. by rewrite (list_insert_id _ _ _ Ht).
  - by rewrite setitem_out_of_range.
Qed.

(** Every series a method returns is built by the constructor. *)
Lemma getitem_series_constructed ts index ts' :
  __getitem__ ts index = Ok (ItemSeries ts') ->
  exists v t, __init__ v t = Ok ts'.
Proof.
  destruct index as [i|s|x]; cbn [__getitem__].
  - destruct (integral_index _); [|done].
    by destruct (list_getitem (_timeseries ts) _).
  - destruct (list_getslice s (_value ts)) as [v|]; [|done]. simpl.
    destruct (time_getslice s (_time ts)) as [t|]; [|done]. simpl.
    destruct (__init__ (PyList v) t) eqn:E; [|done]. simpl.
    intros [= <-]. eauto.
  - destruct (integral_index _); [|done].
    by destruct (list_getitem (_timeseries ts) _).
Qed.

Lemma interpolate_constructed {arith : PyArith} ts q ts' :
  interpolate ts q = Ok ts' -> exists v t, __init__ v t = Ok ts'.
Proof.
  unfold interpolate. destruct (is_sequence q); [|done]. simpl.
  destruct (interpolate_loop _ _ _ _ _ _) as [[vals c]|]; [|done]. simpl.
  eauto.
Qed.

Lemma binop_constructed a b ts' :
  __add__ a b = Ok ts' \/ __sub__ a b = Ok ts' \/ __mul__ a b = Ok ts' ->
  exists v t, __init__ v t = Ok ts'.
Proof.
  unfold __add__, __sub__, __mul__. destruct b as [other|x].
  - destruct (_ || _); [by intros [|[|]]|]. intros [|[|]]; eauto.
  - by intros [|[|]].
Qed.

(** C6.  The constructor establishes, and every operation preserves,
    the invariant [ts_inv]: there are as many times as values, and the
    pair view is the zip of the times and the values, so that pair [i]
    is [(times[i], values[i])].  Item assignment keeps the invariant and
    the length whatever its outcome, and when it completes it has put
    the new value at position [i] of the values and [(times[i], v)] at
    position [i] of the pair view. *)
Theorem invariant_established_and_preserved :
  (forall input_value input_time ts,
     __init__ input_value input_time = Ok ts -> ts_inv ts) /\
  (forall ts (i : nat) t v,
     ts_inv ts ->
     length (time_items (_time ts)) = length (_value ts) /\
     length (_timeseries ts) = length (_value ts) /\
     (_timeseries ts !! i = Some (t, v) <->
      time_items (_time ts) !! i = Some t /\ _value ts !! i = Some v)) /\
  (forall ts index v,
     ts_inv ts ->
     let after := __setitem__ ts index v in
     ts_inv after.1 /\ __len__ after.1 = __len__ ts /\
     (forall i,
        index = IdxInt i -> index_in_range (__len__ ts) i = true ->
        after.2 = None /\
        _value after.1 !! position (__len__ ts) i = Some v /\
        exists t,
          time_items (_time ts) !! position (__len__ ts) i = Some t /\
          _timeseries after.1 !! position (__len__ ts) i = Some (t, v))) /\
  (forall ts index ts',
     __getitem__ ts index = Ok (ItemSeries ts') -> ts_inv ts') /\
  (forall (arith : PyArith) ts newTimes ts',
     interpolate ts newTimes = Ok ts' -> ts_inv ts') /\
  (forall a b ts',
     __add__ a b = Ok ts' \/ __sub__ a b = Ok ts' \/ __mul__ a b = Ok ts' ->
     ts_inv ts') /\
  (forall a ts', __neg__ a = Ok ts' \/ __pos__ a = Ok ts' -> ts_inv ts').
Proof.
  split; [intros v t ts H; apply (init_wf _ _ _ H)|].
  split.
  { intros ts i t v [Hlen Hpairs]. split; [done|]. split.
    - rewrite Hpairs, length_zip_with_r_eq; [done|by rewrite Hlen].
    - rewrite Hpairs. apply lookup_zip_Some. }
  split.
  { intros ts index v Hinv after.
    split; [by apply setitem_preserves_inv|].
    split; [apply setitem_len|].
    intros i -> Hi. subst after.
    destruct (setitem_in_range ts i v Hinv Hi) as (t & Ht & ->). simpl.
    assert (Hk : (position (__len__ ts) i < length (_value ts))%nat).
    { apply index_in_range_spec in Hi. unfold position, __len__, py_len in *. lia. }
    split; [done|]. split; [by apply list_lookup_insert_eq|].
    exists t. split; [done|]. apply list_lookup_insert_eq.
    destruct Hinv as [Hlen ->].
    rewrite length_zip_with_r_eq; [done|by rewrite Hlen]. }
  split.
  { intros ts index ts' H.
    destruct (getitem_series_constructed _ _ _ H) as (v & t & Hinit).
    apply (init_wf _ _ _ Hinit). }
  split.
  { intros arith ts q ts' H.
    destruct (interpolate_constructed _ _ _ H) as (v & t & Hinit).
    apply (init_wf _ _ _ Hinit). }
  split.
  { intros a b ts' H.
    destruct (binop_constructed _ _ _ H) as (v & t & Hinit).
    apply (init_wf _ _ _ Hinit). }
  intros a ts' [H|H]; apply (init_wf _ _ _ H).
Qed.

Lemma invariant_established_and_preserved_witness :
  ts_inv (__setitem__ ts_0_5_10 (IdxInt 1) 42%Q).1 /\
  _timeseries (__setitem__ ts_0_5_10 (IdxInt 1) 42%Q).1 !! 1%nat
  = Some (5, 42)%Q.
Proof.
  destruct (proj1 (proj2 (proj2 invariant_established_and_preserved))
              ts_0_5_10 (IdxInt 1) 42%Q (proj1 ts_0_5_10_wf))
    as (Hinv & _ & Hset).
  split; [exact Hinv|].
  destruct (Hset 1 eq_refl eq_refl) as (_ & _ & t & Ht & Hpair).
  vm_compute in Ht. injection Ht as <-. exact Hpair.
Defined.

(** * Further properties of the class *)

(** ** Outcomes of the constructor *)

(** X1.  The constructor succeeds exactly when the values are a
    sequence and the time argument is either falsy or a sequence with as
    many items as the values.  A value argument that is not a sequence
    raises [TypeError] whatever the time argument; a truthy time
    argument that is not a sequence raises [TypeError]; a non-empty time
    sequence of another length raises [ValueError].  On success the
    series has one pair per value. *)
Theorem init_outcomes input_value input_time :
  ((exists ts, __init__ input_value input_time = Ok ts) <->
   is_sequence input_value = true /\
   (truthy input_time = false \/
    (is_sequence input_time = true /\
     length (seq_items input_time) = length (seq_items input_value)))) /\
  (is_sequence input_value = false ->
   __init__ input_value input_time = Raise TypeError) /\
  (is_sequence input_value = true -> truthy input_time = true ->
   is_sequence input_time = false ->
   __init__ input_value input_time = Raise TypeError) /\
  (is_sequence input_value = true -> is_sequence input_time = true ->
   seq_items input_time <> [] ->
   length (seq_items input_time) <> length (seq_items input_value) ->
   __init__ input_value input_time = Raise ValueError) /\
  (forall ts,
     __init__ input_value input_time = Ok ts ->
     _value ts = seq_items input_value /\
     __len__ ts = seq_len input_value /\
     length (items ts) = length (seq_items input_value)).
Proof.
  split; [split|].
  - intros [ts H]. destruct (init_Ok _ _ _ H) as (Hv & _ & _ & Htime).
    split; [done|].
    destruct Htime as [(Htr & Ht & Hlen & _) | (Htr & _)]; [right|by left].
    split; [done|]. rewrite !seq_len_items in Hlen by done.
    unfold py_len in Hlen. lia.
  - intros [Hv [Htr | [Ht Hlen]]].
    + eexists. by apply init_default.
    + destruct (truthy input_time) eqn:Htr.
      * eexists. apply init_explicit; try done.
        rewrite !seq_len_items by done. unfold py_len. lia.
      * eexists. by apply init_default.
  - split; [intros Hv; unfold __init__; by rewrite Hv|].
    split; [intros Hv Htr Ht; unfold __init__; by rewrite Hv, Htr, Ht|].
    split.
    + intros Hv Ht Hne Hlen. unfold __init__.
      rewrite Hv, truthy_sequence, Ht by done. simpl.
      destruct (Z.eqb_spec (py_len (seq_items input_time)) 0) as [E|_];
        [by apply py_len_zero in E|]. simpl.
      rewrite !seq_len_items by done.
      destruct (Z.eqb_spec (py_len (seq_items input_time))
                           (py_len (seq_items input_value))) as [E|_]; [|done].
      unfold py_len in E. lia.
    + intros ts H. pose proof (init_wf _ _ _ H) as [Hinv _].
      destruct (init_Ok _ _ _ H) as (Hv & Hval & _ & _).
      split; [done|]. unfold __len__, items. rewrite Hval.
      split; [by rewrite seq_len_items|].
      pose proof (inv_len_pairs ts Hinv) as Hp.
      unfold __len__, py_len in Hp. rewrite Hval in Hp. lia.
Qed.

Lemma init_outcomes_witness :
  __init__ (PyList [1; 2]%Q) (PyList [0; 5; 10]%Q) = Raise ValueError.
Proof.
  apply (proj1 (proj2 (proj2 (proj2
           (init_outcomes (PyList [1; 2]%Q) (PyList [0; 5; 10]%Q))))));
    [reflexivity|reflexivity|discriminate|simpl; lia].
Defined.

(** ** Bounds of integer indices *)

(** X2.  An integer index outside [-n, n) raises [IndexError], both
    when reading and when assigning, and an assignment that raises
    leaves the series as it was; inside that range reading returns a
    pair.  In particular every integer index raises on an empty
    series. *)
Theorem integer_index_bounds ts i v :
  ts_inv ts ->
  (__getitem__ ts (IdxInt i) = Raise IndexError <->
   ~ (- __len__ ts <= i < __len__ ts)) /\
  (~ (- __len__ ts <= i < __len__ ts) ->
   __setitem__ ts (IdxInt i) v = (ts, Some IndexError)) /\
  (- __len__ ts <= i < __len__ ts ->
   (exists p, __getitem__ ts (IdxInt i) = Ok (ItemPair p)) /\
   (__setitem__ ts (IdxInt i) v).2 = None).
Proof.
  intros Hinv. rewrite <- index_in_range_bounds.
  destruct (index_in_range (__len__ ts) i) eqn:Hi.
  - assert (Hget : exists p, __getitem__ ts (IdxInt i) = Ok (ItemPair p)).
    { pose proof Hi as Hp. rewrite <- (inv_len_pairs ts Hinv) in Hp.
      destruct (list_getitem_in_range _ _ Hp) as (p & _ & Hg).
      exists p. simpl. by rewrite Hg. }
    split; [|split].
    + destruct Hget as [p ->]. split; [done|]. intros H. by destruct H.
    + intros H. by destruct H.
    + intros _. split; [done|].
      by destruct (setitem_in_range ts i v Hinv Hi) as (t & _ & ->).
  - split; [|split].
    + rewrite (getitem_int _ _ Hinv), Hi. split; [by intros _ ?|done].
    + intros _. by apply setitem_out_of_range.
    + done.
Qed.

Lemma integer_index_bounds_witness :
  __setitem__ ts_0_5_10 (IdxInt 3) 9%Q = (ts_0_5_10, Some IndexError).
Proof.
  apply (proj1 (proj2 (integer_index_bounds ts_0_5_10 3 9%Q
                         (proj1 ts_0_5_10_wf)))).
  vm_compute. intros [_ H]. discriminate.
Defined.

(** X3.  A series built from two sequences of equal, non-zero length
    pairs them by position: the pair read at index [i], and at the
    negative index [i - n] that designates the same position, is
    [(times[i], values[i])]. *)
Theorem init_pairs_by_position input_value input_time (i : nat) t v :
  is_sequence input_value = true -> is_sequence input_time = true ->
  length (seq_items input_time) = length (seq_items input_value) ->
  seq_items input_time !! i = Some t ->
  seq_items input_value !! i = Some v ->
  exists ts,
    __init__ input_value input_time = Ok ts /\
    __len__ ts = py_len (seq_items input_value) /\
    __getitem__ ts (IdxInt (Z.of_nat i)) = Ok (ItemPair (t, v)) /\
    __getitem__ ts (IdxInt (Z.of_nat i - py_len (seq_items input_value)))
    = Ok (ItemPair (t, v)).
Proof.
  intros Hv Ht Hlen Hti Hvi.
  pose proof (lookup_lt_Some _ _ _ Hvi) as Hi.
  assert (Htr : truthy input_time = true).
  { rewrite truthy_sequence by done. apply negb_true_iff, Z.eqb_neq.
    unfold py_len. lia. }
  eexists. split.
  { apply init_explicit; try done.
    rewrite !seq_len_items by done. unfold py_len. lia. }
  set (ts := mk_TimeSeries _ _ _).
  assert (Hinv : ts_inv ts) by (split; [exact Hlen|done]).
  assert (Hn : __len__ ts = py_len (seq_items input_value)) by done.
  split; [done|].
  rewrite !(getitem_int _ _ Hinv), Hn.
  assert (H1 : index_in_range (py_len (seq_items input_value)) (Z.of_nat i) = true).
  { apply index_in_range_bounds. unfold py_len. lia. }
  assert (H2 : index_in_range (py_len (seq_items input_value))
                 (Z.of_nat i - py_len (seq_items input_value)) = true).
  { apply index_in_range_bounds. unfold py_len. lia. }
  assert (P1 : position (py_len (seq_items input_value)) (Z.of_nat i) = i).
  { unfold position, norm_index. destruct (Z.ltb_spec (Z.of_nat i) 0); lia. }
  assert (P2 : position (py_len (seq_items input_value))
                 (Z.of_nat i - py_len (seq_items input_value)) = i).
  { unfold position, norm_index, py_len.
    destruct (Z.ltb_spec (Z.of_nat i - Z.of_nat (length (seq_items input_value))) 0);
      lia. }
  rewrite H1, H2, P1, P2. simpl. by rewrite Hti, Hvi.
Qed.

Lemma init_pairs_by_position_witness :
  exists ts,
    __init__ (PyTuple [1; 2; 3]%Q) (PyRange (range2 4 7)) = Ok ts /\
    __getitem__ ts (IdxInt (-1)) = Ok (ItemPair (6, 3)%Q).
Proof.
  destruct (init_pairs_by_position (PyTuple [1; 2; 3]%Q) (PyRange (range2 4 7))
              2 6%Q 3%Q eq_refl eq_refl eq_refl eq_refl eq_refl)
    as (ts & Hinit & _ & _ & Hneg).
  exists ts. split; [exact Hinit|exact Hneg].
Defined.

(** ** Repeated assignment *)

Lemma setitem_state ts i v :
  ts_inv ts -> index_in_range (__len__ ts) i = true ->
  exists t,
    time_items (_time ts) !! position (__len__ ts) i = Some t /\
    (__setitem__ ts (IdxInt i) v).1 =
      mk_TimeSeries (_time ts)
        (<[position (__len__ ts) i := v]> (_value ts))
        (<[position (__len__ ts) i := (t, v)]> (_timeseries ts)).
Proof.
  intros Hinv Hi.
  destruct (setitem_in_range ts i v Hinv Hi) as (t & Ht & ->). eauto.
Qed.

(** X4.  Assignments compose as writes to an array.  A second
    assignment to the same position overrides the first, whichever of
    the two indices [i], [i'] designating the position is used;
    assignments to different positions commute; and assigning to a
    position the value it already holds changes nothing. *)
Theorem setitem_composition ts i i' v w :
  ts_inv ts ->
  index_in_range (__len__ ts) i = true ->
  index_in_range (__len__ ts) i' = true ->
  (norm_index (__len__ ts) i = norm_index (__len__ ts) i' ->
   (__setitem__ (__setitem__ ts (IdxInt i) v).1 (IdxInt i') w).1
   = (__setitem__ ts (IdxInt i') w).1) /\
  (norm_index (__len__ ts) i <> norm_index (__len__ ts) i' ->
   (__setitem__ (__setitem__ ts (IdxInt i) v).1 (IdxInt i') w).1
   = (__setitem__ (__setitem__ ts (IdxInt i') w).1 (IdxInt i) v).1) /\
  (list_getitem (_value ts) i = Ok v ->
   __setitem__ ts (IdxInt i) v = (ts, None)).
Proof.
  intros Hinv Hi Hi'.
  pose proof (setitem_preserves_inv ts (IdxInt i) v Hinv) as Hinv1.
  pose proof (setitem_preserves_inv ts (IdxInt i') w Hinv) as Hinv2.
  pose proof (setitem_len ts (IdxInt i) v) as Hlen1.
  pose proof (setitem_len ts (IdxInt i') w) as Hlen2.
  destruct (setitem_state ts i v Hinv Hi) as (t & Ht & E1).
  destruct (setitem_state ts i' w Hinv Hi') as (t' & Ht' & E2).
  destruct (setitem_state _ i' w Hinv1) as (t1 & Ht1 & E12);
    [by rewrite Hlen1|].
  destruct (setitem_state _ i v Hinv2) as (t2 & Ht2 & E21);
    [by rewrite Hlen2|].
  rewrite Hlen1 in Ht1, E12. rewrite Hlen2 in Ht2, E21.
  split; [|split].
  - intros Hsame. rewrite E12, E2, E1. simpl.
    assert (Hp : position (__len__ ts) i = position (__len__ ts) i')
      by (unfold position; by rewrite Hsame).
    rewrite E1 in Ht1. simpl in Ht1.
    assert (t1 = t') by congruence. subst t1.
    rewrite Hp. by rewrite !list_insert_insert_eq.
  - intros Hdiff. rewrite E12, E21, E1, E2. simpl.
    rewrite E1 in Ht1. rewrite E2 in Ht2. simpl in Ht1, Ht2.
    assert (t1 = t') by congruence. assert (t2 = t) by congruence. subst t1 t2.
    assert (Hp : position (__len__ ts) i <> position (__len__ ts) i').
    { apply index_in_range_spec in Hi, Hi'. unfold position. lia. }
    f_equal; by apply list_insert_insert_ne.
  - intros Hcur.
    destruct (list_getitem_in_range (_value ts) i Hi) as (x & Hx & Hgx).
    assert (x = v) by congruence. subst x. fold (__len__ ts) in Hx.
    destruct (setitem_in_range ts i v Hinv Hi) as (t0 & Ht0 & ->).
    assert (t0 = t) by congruence. subst t0.
    destruct ts as [tm value pairs]. destruct Hinv as [Hl Hp]. simpl in *.
    rewrite (list_insert_id _ _ _ Hx).
    rewrite list_insert_id; [done|].
    rewrite Hp. by apply lookup_zip_Some.
Qed.

Lemma setitem_composition_witness :
  (__setitem__ (__setitem__ ts_0_5_10 (IdxInt 2) 8%Q).1 (IdxInt (-1)) 9%Q).1
  = (__setitem__ ts_0_5_10 (IdxInt (-1)) 9%Q).1.
Proof.
  apply (proj1 (setitem_composition ts_0_5_10 2 (-1) 8%Q 9%Q
                  (proj1 ts_0_5_10_wf) eq_refl eq_refl)).
  reflexivity.
Defined.

(** ** More on slices *)

(** The series a slice returns, in terms of the positions it visits. *)
Lemma getitem_slice_positions ts s lo hi st :
  ts_wf ts -> slice_indices s (__len__ ts) = Ok (lo, hi, st) ->
  exists ts',
    __getitem__ ts (IdxSlice s) = Ok (ItemSeries ts') /\
    ts_wf ts' /\
    _value ts' = list_pick (_value ts) lo st (Z.to_nat (stride_len lo hi st)) /\
    time_items (_time ts')
    = list_pick (time_items (_time ts)) lo st (Z.to_nat (stride_len lo hi st)).
Proof.
  intros Hwf Hs.
  assert (Hstep : sl_step s <> Some 0).
  { intros E. unfold slice_indices in Hs. by rewrite E in Hs. }
  destruct (getitem_slice ts s Hwf Hstep)
    as (ts' & v & tms & Hget & Hv & Ht & Hval & Htime).
  exists ts'. split; [done|]. split.
  { destruct (getitem_series_constructed _ _ _ Hget) as (x & y & Hinit).
    apply (init_wf _ _ _ Hinit). }
  unfold list_getslice in Hv, Ht.
  rewrite (inv_len_time ts (proj1 Hwf)) in Ht.
  unfold __len__ in *. rewrite Hs in Hv, Ht. simpl in Hv, Ht.
  injection Hv as <-. injection Ht as <-. done.
Qed.

Lemma slice_positions_series ts s lo hi st (i : nat) :
  slice_indices s (__len__ ts) = Ok (lo, hi, st) ->
  (i < Z.to_nat (stride_len lo hi st))%nat ->
  0 <= lo + Z.of_nat i * st < __len__ ts.
Proof.
  intros Hs Hi.
  by apply (slice_positions_in_range s _ _ hi _ i (py_len_nonneg _)).
Qed.

(** The pairs of [ts[s]] are the slice [s] of the pairs of [ts]. *)
Lemma getitem_slice_pairs ts s :
  ts_wf ts -> sl_step s <> Some 0 ->
  exists ts' lo hi st,
    __getitem__ ts (IdxSlice s) = Ok (ItemSeries ts') /\
    slice_indices s (__len__ ts) = Ok (lo, hi, st) /\
    list_getslice s (items ts) = Ok (items ts') /\
    __len__ ts' = stride_len lo hi st /\
    (forall p, p ∈ items ts' -> p ∈ items ts).
Proof.
  intros Hwf Hstep.
  destruct (slice_indices_Ok s (__len__ ts) Hstep) as (lo & hi & st & Hs).
  destruct (getitem_slice_positions ts s lo hi st Hwf Hs)
    as (ts' & Hget & Hwf' & Hval & Htime).
  set (count := Z.to_nat (stride_len lo hi st)) in *.
  assert (Hin : forall i : nat, (i < count)%nat ->
                  0 <= lo + Z.of_nat i * st < __len__ ts).
  { intros i Hi. by apply (slice_positions_series ts s lo hi st). }
  destruct Hwf as [Hinv _]. destruct Hwf' as [Hinv' _].
  destruct (list_pick_in_range (_value ts) lo st count Hin) as [Lv Pv].
  destruct (list_pick_in_range (time_items (_time ts)) lo st count) as [Lt Pt].
  { by rewrite (inv_len_time ts Hinv). }
  destruct (list_pick_in_range (_timeseries ts) lo st count) as [Lp Pp].
  { by rewrite (inv_len_pairs ts Hinv). }
  assert (Hpairs : items ts' = list_pick (items ts) lo st count).
  { unfold items. destruct Hinv' as [Hlen' ->]. rewrite Hval, Htime.
    apply list_eq. intros i.
    destruct (Nat.lt_ge_cases i count) as [Hi|Hi].
    - rewrite lookup_zip_with, (Pt i Hi), (Pv i Hi), (Pp i Hi).
      destruct Hinv as [_ ->]. by rewrite lookup_zip_with.
    - rewrite !lookup_ge_None_2; [done|lia|].
      rewrite length_zip_with_l_eq; lia. }
  exists ts', lo, hi, st. split; [done|]. split; [done|]. split; [|split].
  - unfold items in *. unfold list_getslice.
    rewrite (inv_len_pairs ts Hinv), Hs. simpl. by rewrite Hpairs.
  - unfold __len__, py_len. rewrite Hval, Lv. subst count.
    apply Z2Nat.id, stride_len_nonneg.
  - intros p Hp. rewrite Hpairs in Hp.
    apply list_elem_of_lookup in Hp as [i Hi].
    pose proof (lookup_lt_Some _ _ _ Hi) as Hlt. unfold items in Hlt.
    rewrite Lp in Hlt. unfold items in Hi. rewrite (Pp i Hlt) in Hi.
    apply list_elem_of_lookup. eauto.
Qed.

(** X5.  Slicing commutes with the pair view: the pairs of [ts[s]] are
    the slice [s] of the pairs of [ts], so every pair of the new series
    is a pair of the original, and its length is the number of positions
    the slice visits. *)
Theorem slice_of_pairs ts s :
  ts_wf ts -> sl_step s <> Some 0 ->
  exists ts' lo hi st,
    __getitem__ ts (IdxSlice s) = Ok (ItemSeries ts') /\
    slice_indices s (__len__ ts) = Ok (lo, hi, st) /\
    list_getslice s (items ts) = Ok (items ts') /\
    __len__ ts' = stride_len lo hi st /\
    (forall p, p ∈ items ts' -> p ∈ items ts).
Proof. apply getitem_slice_pairs. Qed.

Lemma slice_of_pairs_witness :
  exists ts',
    __getitem__ ts_0_5_10 (IdxSlice (mk_slice (Some (-2)) None None))
    = Ok (ItemSeries ts') /\
    items ts' = [(5, 2); (10, 3)]%Q.
Proof.
  destruct (slice_of_pairs ts_0_5_10 (mk_slice (Some (-2)) None None)
              ts_0_5_10_wf)
    as (ts' & lo & hi & st & Hget & _ & Hitems & _).
  - simpl. discriminate.
  - exists ts'. split; [exact Hget|].
    assert (E : list_getslice (mk_slice (Some (-2)) None None) (items ts_0_5_10)
                = Ok [(5, 2); (10, 3)]%Q) by reflexivity.
    rewrite E in Hitems. by injection Hitems as <-.
Defined.

Lemma list_pick_contiguous {A} (l : list A) (lo count : nat) :
  (lo + count <= length l)%nat ->
  list_pick l (Z.of_nat lo) 1 count = take count (drop lo l).
Proof.
  intros Hle.
  destruct (list_pick_in_range l (Z.of_nat lo) 1 count) as [Hlen Hlook].
  { intros i Hi. unfold py_len. lia. }
  apply list_eq. intros i.
  destruct (Nat.lt_ge_cases i count) as [Hi|Hi].
  - rewrite (Hlook i Hi), lookup_take_lt, lookup_drop by done.
    f_equal. lia.
  - rewrite lookup_take_ge by done. apply lookup_ge_None_2. lia.
Qed.

Lemma list_pick_backwards {A} (l : list A) :
  list_pick l (py_len l - 1) (-1) (length l) = reverse l.
Proof.
  destruct (list_pick_in_range l (py_len l - 1) (-1) (length l)) as [Hlen Hlook].
  { intros i Hi. unfold py_len. lia. }
  apply list_eq. intros i.
  destruct (Nat.lt_ge_cases i (length l)) as [Hi|Hi].
  - rewrite (Hlook i Hi), reverse_lookup by done.
    f_equal. unfold py_len. lia.
  - rewrite !lookup_ge_None_2; [done|by rewrite length_reverse|lia].
Qed.

(** X6.  A slice of step 1 (or of omitted step) is the contiguous run
    from its clipped start to its clipped stop, for the values and for
    the times alike, and it is empty when the stop does not lie after
    the start; the full slice [ts[:]] is a copy with the same values,
    times and pairs. *)
Theorem slice_step_one ts s lo hi :
  ts_wf ts -> slice_indices s (__len__ ts) = Ok (lo, hi, 1) ->
  (exists ts',
     __getitem__ ts (IdxSlice s) = Ok (ItemSeries ts') /\
     _value ts' = take (Z.to_nat (hi - lo)) (drop (Z.to_nat lo) (_value ts)) /\
     time_items (_time ts')
     = take (Z.to_nat (hi - lo)) (drop (Z.to_nat lo) (time_items (_time ts))) /\
     (hi <= lo -> __len__ ts' = 0)) /\
  (exists copy,
     __getitem__ ts (IdxSlice (mk_slice None None None)) = Ok (ItemSeries copy) /\
     _value copy = _value ts /\
     time_items (_time copy) = time_items (_time ts) /\
     items copy = items ts).
Proof.
  intros Hwf Hs.
  assert (Hcontig : forall s' lo' hi',
            slice_indices s' (__len__ ts) = Ok (lo', hi', 1) ->
            exists ts',
              __getitem__ ts (IdxSlice s') = Ok (ItemSeries ts') /\
              ts_wf ts' /\
              _value ts'
              = take (Z.to_nat (hi' - lo')) (drop (Z.to_nat lo') (_value ts)) /\
              time_items (_time ts')
              = take (Z.to_nat (hi' - lo'))
                     (drop (Z.to_nat lo') (time_items (_time ts)))).
  { intros s' lo' hi' Hs'.
    destruct (getitem_slice_positions ts s' lo' hi' 1 Hwf Hs')
      as (ts' & Hget & Hwf' & Hval & Htime).
    destruct (slice_indices_bounds _ _ _ _ _ (py_len_nonneg _) Hs')
      as [(_ & Hlo & Hhi) | (Hneg & _)]; [|lia].
    assert (Hcount : Z.to_nat (stride_len lo' hi' 1) = Z.to_nat (hi' - lo')).
    { unfold stride_len. simpl.
      destruct (Z.ltb_spec lo' hi'); [rewrite Z.div_1_r|]; lia. }
    rewrite Hcount in Hval, Htime.
    exists ts'. split; [done|]. split; [done|].
    rewrite <- (Z2Nat.id lo') in Hval, Htime by lia.
    rewrite Z2Nat.id in Hval, Htime by lia.
    rewrite <- (Z2Nat.id lo') in Hval at 1 by lia.
    rewrite <- (Z2Nat.id lo') in Htime at 1 by lia.
    fold (__len__ ts) in Hlo, Hhi. unfold __len__, py_len in Hlo, Hhi.
    destruct (Z.le_gt_cases hi' lo') as [Hle|Hgt].
    - replace (Z.to_nat (hi' - lo')) with 0%nat in * by lia.
      rewrite Hval, Htime. done.
    - rewrite list_pick_contiguous in Hval by lia.
      rewrite list_pick_contiguous in Htime
        by (destruct Hwf as [[-> _] _]; lia).
      done. }
  split.
  - destruct (Hcontig s lo hi Hs) as (ts' & Hget & Hwf' & Hval & Htime).
    exists ts'. split; [done|]. split; [done|]. split; [done|].
    intros Hle. unfold __len__, py_len. rewrite Hval.
    replace (Z.to_nat (hi - lo)) with 0%nat by lia. done.
  - destruct (Hcontig (mk_slice None None None) 0 (__len__ ts))
      as (ts' & Hget & [Hinv' _] & Hval & Htime); [done|].
    assert (Hn : Z.to_nat (__len__ ts - 0) = length (_value ts)).
    { unfold __len__, py_len. lia. }
    rewrite Hn in Hval, Htime. simpl in Hval, Htime.
    rewrite firstn_all in Hval.
    destruct Hwf as [Hinv _].
    rewrite <- (proj1 Hinv), firstn_all in Htime.
    exists ts'. split; [done|]. split; [done|]. split; [done|].
    unfold items. rewrite (proj2 Hinv'), (proj2 Hinv), Hval, Htime. done.
Qed.

Lemma slice_step_one_witness :
  exists ts',
    __getitem__ ts_0_5_10 (IdxSlice (mk_slice (Some 1) (Some 100) None))
    = Ok (ItemSeries ts') /\
    _value ts' = [2; 3]%Q.
Proof.
  destruct (proj1 (slice_step_one ts_0_5_10 (mk_slice (Some 1) (Some 100) None)
                     1 3 ts_0_5_10_wf eq_refl))
    as (ts' & Hget & Hval & _).
  exists ts'. split; [exact Hget|exact Hval].
Defined.

Lemma reverse_zip {A B} (l : list A) (k : list B) :
  length l = length k -> reverse (zip l k) = zip (reverse l) (reverse k).
Proof.
  revert k. induction l as [|x l IH]; intros [|y k] Hlen; try done.
  simpl in Hlen. rewrite !reverse_cons. simpl.
  rewrite reverse_cons, zip_with_app by (rewrite !length_reverse; lia).
  rewrite IH by lia. done.
Qed.

(** X7.  The slice [ts[::-1]] reverses the series: its values, times
    and pairs are those of [ts] in reverse order, and reversing twice
    gives back the values and times of [ts]. *)
Theorem slice_reversed ts :
  ts_wf ts ->
  exists rev,
    __getitem__ ts (IdxSlice (mk_slice None None (Some (-1))))
    = Ok (ItemSeries rev) /\
    _value rev = reverse (_value ts) /\
    time_items (_time rev) = reverse (time_items (_time ts)) /\
    items rev = reverse (items ts) /\
    exists back,
      __getitem__ rev (IdxSlice (mk_slice None None (Some (-1))))
      = Ok (ItemSeries back) /\
      _value back = _value ts /\
      time_items (_time back) = time_items (_time ts).
Proof.
  assert (Hrev : forall x, ts_wf x ->
            exists rev,
              __getitem__ x (IdxSlice (mk_slice None None (Some (-1))))
              = Ok (ItemSeries rev) /\ ts_wf rev /\
              _value rev = reverse (_value x) /\
              time_items (_time rev) = reverse (time_items (_time x))).
  { intros x Hwf.
    destruct (getitem_slice_positions x (mk_slice None None (Some (-1)))
                (__len__ x - 1) (-1) (-1) Hwf eq_refl)
      as (rev & Hget & Hwf' & Hval & Htime).
    assert (Hcount : Z.to_nat (stride_len (__len__ x - 1) (-1) (-1))
                     = length (_value x)).
    { unfold stride_len, __len__, py_len. simpl.
      destruct (Z.ltb_spec (-1) (Z.of_nat (length (_value x)) - 1)).
      - rewrite Z.div_1_r. lia.
      - lia. }
    rewrite Hcount in Hval, Htime.
    exists rev. split; [done|]. split; [done|]. split.
    - rewrite Hval. apply list_pick_backwards.
    - rewrite Htime. rewrite <- (inv_len_time x (proj1 Hwf)).
      destruct Hwf as [[<- _] _]. apply list_pick_backwards. }
  intros Hwf.
  destruct (Hrev ts Hwf) as (rev & Hget & Hwf' & Hval & Htime).
  destruct (Hrev rev Hwf') as (back & Hget' & _ & Hval' & Htime').
  exists rev. split; [done|]. split; [done|]. split; [done|]. split.
  - unfold items. destruct Hwf as [[Hlen ->] _]. destruct Hwf' as [[_ ->] _].
    rewrite Hval, Htime. symmetry. by apply reverse_zip.
  - exists back. split; [done|].
    rewrite Hval', Htime', Hval, Htime. by rewrite !reverse_involutive.
Qed.

Lemma slice_reversed_witness :
  exists rev,
    __getitem__ ts_0_5_10 (IdxSlice (mk_slice None None (Some (-1))))
    = Ok (ItemSeries rev) /\
    _value rev = [3; 2; 1]%Q.
Proof.
  destruct (slice_reversed ts_0_5_10 ts_0_5_10_wf) as (rev & Hget & Hval & _).
  exists rev. split; [exact Hget|exact Hval].
Defined.

(** ** Membership *)

(** X8.  [v in ts] looks at the values only: it holds exactly when some
    pair of [items()] carries a value equal to [v].  It holds for a
    value just assigned, and whatever is in a slice of the series is in
    the series. *)
Theorem contains_values :
  (forall ts v,
     ts_inv ts ->
     (__contains__ ts v = true <->
      exists t x, (t, x) ∈ items ts /\ (x == v)%Q)) /\
  (forall ts i v,
     ts_inv ts -> index_in_range (__len__ ts) i = true ->
     __contains__ (__setitem__ ts (IdxInt i) v).1 v = true) /\
  (forall ts s ts' v,
     ts_wf ts -> __getitem__ ts (IdxSlice s) = Ok (ItemSeries ts') ->
     __contains__ ts' v = true -> __contains__ ts v = true).
Proof.
  assert (Hchar : forall ts v, ts_inv ts ->
            (__contains__ ts v = true <->
             exists t x, (t, x) ∈ items ts /\ (x == v)%Q)).
  { intros ts v [Hlen Hpairs]. unfold __contains__, items.
    rewrite existsb_exists, Hpairs. split.
    - intros (x & Hx & Heq%Qeq_bool_iff).
      apply list_elem_of_In, list_elem_of_lookup in Hx as [i Hi].
      destruct (lookup_lt_is_Some_2 (time_items (_time ts)) i) as [t Ht].
      { rewrite Hlen. by apply lookup_lt_Some in Hi. }
      exists t, x. split; [|done].
      apply list_elem_of_lookup. exists i. by apply lookup_zip_Some.
    - intros (t & x & Hin & Heq).
      apply list_elem_of_lookup in Hin as [i Hi].
      apply lookup_zip_Some in Hi as [_ Hx].
      exists x. split; [|by apply Qeq_bool_iff].
      apply list_elem_of_In, list_elem_of_lookup. eauto. }
  split; [done|]. split.
  - intros ts i v Hinv Hi.
    destruct (setitem_in_range ts i v Hinv Hi) as (t & _ & ->). simpl.
    unfold __contains__. simpl. apply existsb_exists.
    exists v. split; [|apply Qeq_bool_refl].
    apply list_elem_of_In, list_elem_of_lookup.
    exists (position (__len__ ts) i). apply list_lookup_insert_eq.
    apply index_in_range_spec in Hi. unfold position, __len__, py_len in *. lia.
  - intros ts s ts' v Hwf Hget Hin.
    assert (Hstep : sl_step s <> Some 0).
    { intros E. simpl in Hget. unfold list_getslice, slice_indices in Hget.
      by rewrite E in Hget. }
    destruct (getitem_slice_pairs ts s Hwf Hstep)
      as (ts2 & lo & hi & st & Hget2 & _ & _ & _ & Hsub).
    assert (ts2 = ts') by congruence. subst ts2.
    assert (Hinv' : ts_inv ts').
    { destruct (getitem_series_constructed _ _ _ Hget) as (x & y & Hinit).
      apply (init_wf _ _ _ Hinit). }
    apply (Hchar ts' v Hinv') in Hin as (t & x & Hp & Heq).
    apply (Hchar ts v (proj1 Hwf)). exists t, x. split; [by apply Hsub|done].
Qed.

Lemma contains_values_witness :
  __contains__ (__setitem__ ts_0_5_10 (IdxInt (-3)) (1 # 2)%Q).1 (1 # 2)%Q = true.
Proof.
  exact (proj1 (proj2 contains_values) ts_0_5_10 (-3) (1 # 2)%Q
           (proj1 ts_0_5_10_wf) eq_refl).
Defined.

(** ** Equality and the arithmetic operators *)

Lemma Forall2_Qeq_sym l k : Forall2 Qeq l k -> Forall2 Qeq k l.
Proof. induction 1; constructor; [by symmetry|done]. Qed.

Lemma pair_list_eqb_zip t1 v1 t2 v2 :
  length t1 = length v1 -> length t2 = length v2 ->
  pair_list_eqb (zip t1 v1) (zip t2 v2) = true <->
  Forall2 Qeq t1 t2 /\ Forall2 Qeq v1 v2.
Proof.
  revert v1 t2 v2.
  induction t1 as [|a t1 IH]; intros [|x v1] [|b t2] [|y v2] H1 H2;
    simpl in *; try done;
    try (split; [done|intros [H _]; inversion H]).
  - rewrite !andb_true_iff, !Qeq_bool_iff, IH by lia. split.
    + intros [[? ?] [? ?]]. by split; constructor.
    + intros [Ht Hv]. inversion Ht; subst. inversion Hv; subst. done.
Qed.

Lemma time_aligned_sym a b : time_aligned a b -> time_aligned b a.
Proof. apply Forall2_Qeq_sym. Qed.

Lemma same_store_sym a b : same_store a b = same_store b a.
Proof. by destruct a, b. Qed.

Lemma time_ne_sym a b :
  ts_wf a -> ts_wf b -> time_ne (_time a) (_time b) = time_ne (_time b) (_time a).
Proof.
  intros Ha Hb.
  destruct (time_ne (_time a) (_time b)) eqn:E1,
           (time_ne (_time b) (_time a)) eqn:E2; try done.
  - apply (time_ne_false_iff b a Hb Ha) in E2 as [Hal Hst].
    assert (time_ne (_time a) (_time b) = false); [|congruence].
    apply (time_ne_false_iff a b Ha Hb).
    split; [by apply time_aligned_sym|by rewrite same_store_sym].
  - apply (time_ne_false_iff a b Ha Hb) in E1 as [Hal Hst].
    assert (time_ne (_time b) (_time a) = false); [|congruence].
    apply (time_ne_false_iff b a Hb Ha).
    split; [by apply time_aligned_sym|by rewrite same_store_sym].
Qed.

Lemma time_ne_refl a : ts_wf a -> time_ne (_time a) (_time a) = false.
Proof.
  intros Ha. apply (time_ne_false_iff a a Ha Ha).
  split; [apply Forall2_Qeq_refl|by destruct (_time a)].
Qed.

(** The pair views of two series agree exactly when their times and
    their values do. *)
Lemma pairs_eqb_iff x y :
  ts_wf x -> ts_wf y ->
  pair_list_eqb (_timeseries x) (_timeseries y) = true <->
  time_aligned x y /\ Forall2 Qeq (_value x) (_value y).
Proof. intros [[Hlx ->] _] [[Hly ->] _]. by apply pair_list_eqb_zip. Qed.

(** [x == y] on two series. *)
Lemma eq_series x y :
  ts_wf x -> ts_wf y ->
  __eq__ x (OperandSeries y) =
    if time_ne (_time x) (_time y) then Raise ValueError
    else Ok (pair_list_eqb (_timeseries x) (_timeseries y)).
Proof.
  intros Hx Hy. destruct (time_ne (_time x) (_time y)) eqn:E.
  - unfold __eq__. by rewrite E, orb_true_r.
  - by destruct (binop_checked x y (proj1 Hx) (proj1 Hy) E) as (_ & _ & _ & ->).
Qed.

(** X9.  [a == b] answers [True] exactly when the two series store
    their times the same way and have element-wise equal times and
    values, and [False] exactly when the times agree in that sense and
    the values differ; in every other case it raises.  A series is equal
    to itself, and the outcome does not depend on the order of the
    operands. *)
Theorem eq_outcomes a b :
  ts_wf a -> ts_wf b ->
  (__eq__ a (OperandSeries b) = Ok true <->
   same_store (_time a) (_time b) = true /\ time_aligned a b /\
   Forall2 Qeq (_value a) (_value b)) /\
  (__eq__ a (OperandSeries b) = Ok false <->
   same_store (_time a) (_time b) = true /\ time_aligned a b /\
   ~ Forall2 Qeq (_value a) (_value b)) /\
  __eq__ a (OperandSeries a) = Ok true /\
  __eq__ b (OperandSeries a) = __eq__ a (OperandSeries b).
Proof.
  intros Ha Hb.
  pose proof pairs_eqb_iff as Hpairs. pose proof eq_series as Heq.
  split; [|split; [|split]].
  - rewrite (Heq a b Ha Hb).
    destruct (time_ne (_time a) (_time b)) eqn:E.
    + split; [done|]. intros (Hst & Hal & _).
      assert (time_ne (_time a) (_time b) = false); [|congruence].
      by apply (time_ne_false_iff a b Ha Hb).
    + apply (time_ne_false_iff a b Ha Hb) in E as [Hal Hst]. split.
      * intros [= H]. apply (Hpairs a b Ha Hb) in H as [_ Hv]. done.
      * intros (_ & _ & Hv). f_equal. by apply (Hpairs a b Ha Hb).
  - rewrite (Heq a b Ha Hb).
    destruct (time_ne (_time a) (_time b)) eqn:E.
    + split; [done|]. intros (Hst & Hal & _).
      assert (time_ne (_time a) (_time b) = false); [|congruence].
      by apply (time_ne_false_iff a b Ha Hb).
    + apply (time_ne_false_iff a b Ha Hb) in E as [Hal Hst]. split.
      * intros [= H]. split; [done|]. split; [done|]. intros Hv.
        assert (pair_list_eqb (_timeseries a) (_timeseries b) = true);
          [by apply (Hpairs a b Ha Hb)|congruence].
      * intros (_ & _ & Hv). f_equal.
        destruct (pair_list_eqb _ _) eqn:E; [|done].
        apply (Hpairs a b Ha Hb) in E as [_ E]. done.
  - rewrite (Heq a a Ha Ha), (time_ne_refl a Ha). f_equal.
    apply (Hpairs a a Ha Ha). split; apply Forall2_Qeq_refl.
  - rewrite (Heq a b Ha Hb), (Heq b a Hb Ha), (time_ne_sym b a Hb Ha).
    destruct (time_ne (_time a) (_time b)); [done|]. f_equal.
    destruct (pair_list_eqb (_timeseries a) (_timeseries b)) eqn:E1,
             (pair_list_eqb (_timeseries b) (_timeseries a)) eqn:E2; try done.
    + apply (Hpairs a b Ha Hb) in E1 as [Hal Hv].
      assert (pair_list_eqb (_timeseries b) (_timeseries a) = true);
        [|congruence].
      apply (Hpairs b a Hb Ha). split; by apply Forall2_Qeq_sym.
    + apply (Hpairs b a Hb Ha) in E2 as [Hal Hv].
      assert (pair_list_eqb (_timeseries a) (_timeseries b) = true);
        [|congruence].
      apply (Hpairs a b Ha Hb). split; by apply Forall2_Qeq_sym.
Qed.

Lemma explicit_123_wf : ts_wf explicit_123.
Proof.
  apply (init_wf (PyList [4; 5; 6]%Q) (PyList [1; 2; 3]%Q)). reflexivity.
Qed.

Lemma default_123_wf : ts_wf default_123.
Proof. apply (init_wf (PyList [1; 2; 3]%Q) PyNone). reflexivity. Qed.

Lemma eq_outcomes_witness :
  __eq__ ts_0_5_10 (OperandSeries ts_0_5_10) = Ok true.
Proof.
  exact (proj1 (proj2 (proj2 (eq_outcomes ts_0_5_10 explicit_123
           ts_0_5_10_wf explicit_123_wf)))).
Defined.

Lemma time_items_restored tm : time_items (restored tm) = time_items tm.
Proof. unfold restored. by destruct (time_items tm) eqn:E. Qed.

Lemma restored_list l : l <> [] -> restored (TimeList l) = TimeList l.
Proof. by destruct l. Qed.

Lemma restored_default (n : nat) :
  (0 < n)%nat ->
  restored (TimeRange (range2 1 (Z.of_nat n + 1)))
  = TimeList (time_items (TimeRange (range2 1 (Z.of_nat n + 1)))).
Proof.
  intros Hn. unfold restored.
  destruct (time_items _) eqn:E; [|done].
  apply (f_equal length) in E. rewrite length_time_items_default in E.
  simpl in E. lia.
Qed.

(** The constructor call [TimeSeries(v, self._time)] made by the
    operators. *)
Lemma init_restored v tm :
  length (time_items tm) = length v ->
  __init__ (PyList v) (time_object tm)
  = Ok (mk_TimeSeries (restored tm) v (zip (time_items tm) v)).
Proof.
  intros Hlen.
  pose proof (time_object_sequence tm) as Hseq.
  pose proof (seq_items_time_object tm) as Hitems.
  unfold restored. destruct (time_items tm) as [|x l] eqn:E.
  - destruct v; [|done].
    rewrite init_default; [done|done|].
    rewrite truthy_sequence, Hitems by done. done.
  - rewrite init_explicit; try done.
    + by rewrite Hitems.
    + rewrite truthy_sequence, Hitems by done. done.
    + rewrite seq_len_items, Hitems by done. simpl. unfold py_len. lia.
Qed.

Lemma restored_wf tm v :
  length (time_items tm) = length v ->
  ts_wf (mk_TimeSeries (restored tm) v (zip (time_items tm) v)).
Proof. intros Hlen. apply (init_wf _ _ _ (init_restored v tm Hlen)). Qed.

(** The series a binary operator returns once its checks have passed. *)
Lemma binop_result a b :
  ts_wf a -> ts_wf b -> time_ne (_time a) (_time b) = false ->
  let result f :=
    mk_TimeSeries (restored (_time a)) (zip_with f (_value a) (_value b))
      (zip (time_items (_time a)) (zip_with f (_value a) (_value b))) in
  length (_value a) = length (_value b) /\
  __add__ a (OperandSeries b) = Ok (result Qplus) /\
  __sub__ a (OperandSeries b) = Ok (result Qminus) /\
  __mul__ a (OperandSeries b) = Ok (result Qmult) /\
  (forall f, ts_wf (result f)).
Proof.
  intros Ha Hb Hne result.
  assert (Hlen : __len__ a = __len__ b).
  { apply aligned_same_len; [apply Ha|apply Hb|].
    by apply time_ne_false_aligned. }
  assert (Hl : length (_value a) = length (_value b)).
  { unfold __len__, py_len in Hlen. lia. }
  assert (Hz : forall f : Q -> Q -> Q, length (time_items (_time a))
                         = length (zip_with f (_value a) (_value b))).
  { intros f. rewrite length_zip_with_l_eq by done. apply Ha. }
  unfold __add__, __sub__, __mul__.
  rewrite Hne, Hlen, Z.eqb_refl. simpl. rewrite !map_zip_with.
  split; [done|].
  split; [by apply init_restored|].
  split; [by apply init_restored|].
  split; [by apply init_restored|].
  intros f. by apply restored_wf.
Qed.






Lemma Qopp_opp_eq (q : Q) : (- - q)%Q = q.
Proof. destruct q as [n d]. unfold Qopp. simpl. by rewrite Z.opp_involutive. Qed.

Lemma map_Qopp_involutive (l : list Q) : map Qopp (map Qopp l) = l.
Proof.
  induction l as [|x l IH]; [done|]. simpl. by rewrite Qopp_opp_eq, IH.
Qed.

(** What [-a] and [+a] return. *)
Lemma unary_result a :
  ts_wf a ->
  __neg__ a = Ok (mk_TimeSeries (restored (_time a)) (map Qopp (_value a))
                    (zip (time_items (_time a)) (map Qopp (_value a)))) /\
  __pos__ a = Ok (mk_TimeSeries (restored (_time a)) (_value a) (_timeseries a)).
Proof.
  intros [[Hlen Hpairs] _]. unfold __neg__, __pos__. split.
  - apply init_restored. by rewrite length_map.
  - rewrite Hpairs. by apply init_restored.
Qed.

(** X11.  Negation and identity never raise.  [-a] negates every value
    and [+a] keeps them, both keep the times, and [-(-a)] has the
    values, times and pairs of [a].  When [a] stores its times as a
    list, [+a] and [-(-a)] are copies of [a] in every field and
    [a == +a] is [True]. *)
Theorem neg_pos_results a :
  ts_wf a ->
  exists n p nn,
    __neg__ a = Ok n /\ __pos__ a = Ok p /\ __neg__ n = Ok nn /\
    _value n = map Qopp (_value a) /\
    time_items (_time n) = time_items (_time a) /\
    _value p = _value a /\ time_items (_time p) = time_items (_time a) /\
    items p = items a /\
    _value nn = _value a /\ time_items (_time nn) = time_items (_time a) /\
    items nn = items a /\
    (forall l, _time a = TimeList l ->
       p = a /\ nn = a /\ __eq__ a (OperandSeries p) = Ok true).
Proof.
  intros Ha. destruct (unary_result a Ha) as [Hneg Hpos].
  pose proof (restored_wf (_time a) (map Qopp (_value a))) as Hwfn.
  rewrite length_map in Hwfn. specialize (Hwfn (proj1 (proj1 Ha))).
  destruct (unary_result _ Hwfn) as [Hnn _]. simpl in Hnn.
  rewrite map_Qopp_involutive, !time_items_restored in Hnn.
  do 3 eexists. split; [exact Hneg|]. split; [exact Hpos|].
  split; [exact Hnn|]. cbn [_value _time _timeseries items].
  rewrite !time_items_restored.
  destruct Ha as [[Hlen Hpairs] Hrepr].
  unfold items. rewrite <- Hpairs.
  do 8 (split; [reflexivity|]).
  intros l Hl. rewrite Hl in Hrepr. simpl in Hrepr.
  assert (Hres : restored (restored (_time a)) = _time a
                 /\ restored (_time a) = _time a).
  { rewrite Hl. by rewrite !restored_list. }
  destruct Hres as [-> Hr]. rewrite Hr.
  assert (Hsame : mk_TimeSeries (_time a) (_value a) (_timeseries a) = a)
    by (by destruct a).
  rewrite Hsame. split; [done|]. split; [done|].
  assert (Hwf : ts_wf a) by (split; [done|by rewrite Hl]).
  rewrite (eq_series a a Hwf Hwf), (time_ne_refl a Hwf). f_equal.
  apply (pairs_eqb_iff a a Hwf Hwf). split; apply Forall2_Qeq_refl.
Qed.

Lemma neg_pos_results_witness :
  exists n, __neg__ ts_0_5_10 = Ok n /\ _value n = [-1; -2; -3]%Q.
Proof.
  destruct (neg_pos_results ts_0_5_10 ts_0_5_10_wf)
    as (n & p & nn & Hn & _ & _ & Hval & _).
  exists n. split; [exact Hn|exact Hval].
Defined.

(** X12.  How results can be combined again.  The series an operator
    returns stores its times as a list.  So when [a] stores its times as
    a list, [a + b], [a - b] and [a * b] carry exactly the time
    component of [a] and can be added to [a] and to [b] again; but when
    [a] is a non-empty series with the default index, [a + a], [+a] and
    [-a] are all built and none of them can be combined or compared with
    [a]: [(a + a) + a], [a + (a + a)], [a + (-a)] and [a == +a] raise
    [ValueError]. *)
Theorem results_storage :
  (forall a b x l,
     ts_wf a -> ts_wf b -> _time a = TimeList l ->
     __add__ a (OperandSeries b) = Ok x \/
     __sub__ a (OperandSeries b) = Ok x \/
     __mul__ a (OperandSeries b) = Ok x ->
     _time x = _time a /\
     (exists y, __add__ x (OperandSeries a) = Ok y) /\
     (exists y, __add__ x (OperandSeries b) = Ok y)) /\
  (forall a r,
     ts_wf a -> _time a = TimeRange r -> 0 < __len__ a ->
     exists x p n,
       __add__ a (OperandSeries a) = Ok x /\
       __pos__ a = Ok p /\ __neg__ a = Ok n /\
       __add__ x (OperandSeries a) = Raise ValueError /\
       __add__ a (OperandSeries x) = Raise ValueError /\
       __add__ a (OperandSeries n) = Raise ValueError /\
       __eq__ a (OperandSeries p) = Raise ValueError).
Proof.
  split.
  - intros a b x l Ha Hb Hl Hx.
    destruct (time_ne (_time a) (_time b)) eqn:Hne.
    { unfold __add__, __sub__, __mul__ in Hx. rewrite Hne, orb_true_r in Hx.
      by destruct Hx as [|[|]]. }
    destruct (binop_result a b Ha Hb Hne) as (Hlen & Hadd & Hsub & Hmul & Hwf).
    assert (Hr : restored (_time a) = _time a).
    { rewrite Hl. apply restored_list. destruct Ha as [_ Hrepr].
      by rewrite Hl in Hrepr. }
    assert (Hx' : exists f, x = mk_TimeSeries (restored (_time a))
                     (zip_with f (_value a) (_value b))
                     (zip (time_items (_time a))
                          (zip_with f (_value a) (_value b)))).
    { destruct Hx as [Hx|[Hx|Hx]];
        [exists Qplus|exists Qminus|exists Qmult]; congruence. }
    destruct Hx' as [f ->]. specialize (Hwf f). simpl.
    split; [done|]. split.
    + destruct (binop_checked _ a (proj1 Hwf) (proj1 Ha)) as ((y & Hy & _) & _);
        [simpl; rewrite Hr; by apply time_ne_refl|eauto].
    + destruct (binop_checked _ b (proj1 Hwf) (proj1 Hb)) as ((y & Hy & _) & _);
        [simpl; by rewrite Hr|eauto].
  - intros a r Ha Hr Hpos.
    destruct (binop_result a a Ha Ha (time_ne_refl a Ha)) as (_ & Hadd & _).
    destruct (unary_result a Ha) as [Hneg Hp].
    do 3 eexists. split; [exact Hadd|]. split; [exact Hp|]. split; [exact Hneg|].
    assert (Hlist : exists l, restored (_time a) = TimeList l).
    { destruct Ha as [_ Hrepr]. rewrite Hr in Hrepr |- *. simpl in Hrepr.
      subst r. eexists. apply restored_default.
      unfold __len__, py_len in Hpos. lia. }
    destruct Hlist as [l Hlist].
    unfold __add__, __eq__. simpl. rewrite Hlist, Hr. simpl.
    rewrite !orb_true_r. done.
Qed.

Lemma results_storage_witness :
  exists x,
    __add__ default_123 (OperandSeries default_123) = Ok x /\
    __add__ x (OperandSeries default_123) = Raise ValueError.
Proof.
  destruct (proj2 results_storage default_123 (range2 1 4) default_123_wf
              eq_refl eq_refl)
    as (x & p & n & Hx & _ & _ & Hraise & _).
  exists x. split; [exact Hx|exact Hraise].
Defined.





(** ** Iteration *)

(** X14.  The iterators agree with each other and rebuild the series.
    Iterating the series yields its values, as many as [len] says;
    [iteritems] yields the times of [itertimes] paired with the values
    of [itervalues]; and the constructor applied to what [itervalues]
    and [itertimes] yield (or to the two components of [items()]) builds
    a series with the same values, times and pairs, which is [ts] itself
    when [ts] stores its times as a list. *)
Theorem iterators_rebuild ts :
  ts_wf ts ->
  __iter__ ts = itervalues ts /\
  py_len (__iter__ ts) = __len__ ts /\
  length (itertimes ts) = length (itervalues ts) /\
  iteritems ts = zip (itertimes ts) (itervalues ts) /\
  map fst (items ts) = itertimes ts /\
  map snd (items ts) = itervalues ts /\
  exists ts',
    __init__ (PyList (itervalues ts)) (PyList (itertimes ts)) = Ok ts' /\
    _value ts' = _value ts /\
    time_items (_time ts') = time_items (_time ts) /\
    items ts' = items ts /\
    (forall l, _time ts = TimeList l -> ts' = ts).
Proof.
  intros [[Hlen Hpairs] Hrepr].
  unfold __iter__, itervalues, itertimes, iteritems, items.
  split; [done|]. split; [done|]. split; [done|]. split; [done|].
  split; [rewrite Hpairs; apply fst_zip; lia|].
  split; [rewrite Hpairs; apply snd_zip; lia|].
  pose proof (init_restored (_value ts) (TimeList (time_items (_time ts))) Hlen)
    as Hinit.
  simpl in Hinit. eexists. split; [exact Hinit|]. simpl.
  split; [done|]. split; [by rewrite time_items_restored|]. split; [done|].
  intros l Hl. rewrite Hl in Hrepr, Hpairs |- *. simpl in Hrepr |- *.
  rewrite restored_list by done.
  destruct ts as [tm v p]. simpl in *. by subst.
Qed.

Lemma iterators_rebuild_witness :
  __init__ (PyList (itervalues ts_0_5_10)) (PyList (itertimes ts_0_5_10))
  = Ok ts_0_5_10.
Proof.
  destruct (iterators_rebuild ts_0_5_10 ts_0_5_10_wf)
    as (_ & _ & _ & _ & _ & _ & ts' & Hinit & _ & _ & _ & Hsame).
  rewrite Hinit. f_equal. apply (Hsame [0; 5; 10]%Q). reflexivity.
Defined.

(** ** Outcomes of [interpolate] *)

(** With the cursor at 1 or beyond, the scan reads inside the series:
    it ends normally, or with the exception line 162 raises on a
    bracket that contains the query time. *)
Lemma bracket_scan_outcome {arith : PyArith} ts t fuel (k : nat) :
  ts_inv ts -> (1 <= k)%nat ->
  (exists o (k' : nat),
     bracket_scan (_time ts) (_value ts) (time_len (_time ts)) t fuel
                  (Z.of_nat k) = Ok (o, Z.of_nat k') /\ (k <= k')%nat) \/
  (exists e (k' : nat) t_lo t_hi v_lo v_hi,
     bracket_scan (_time ts) (_value ts) (time_len (_time ts)) t fuel
                  (Z.of_nat k) = Raise e /\
     bracket_at ts k' t_lo t_hi v_lo v_hi /\ within t_lo t_hi t /\
     bracket_value t v_hi v_lo t_hi t_lo = Raise e).
Proof.
  intros Hinv. revert k. induction fuel as [|fuel IH]; intros k Hk.
  - left. exists None, k. split; [|done]. simpl.
    by destruct (Z.of_nat k <? time_len (_time ts)).
  - destruct (Nat.lt_ge_cases k (length (_value ts))) as [Hlt|Hge].
    2:{ left. exists None, k. split; [|done].
        apply bracket_scan_exhausted. rewrite (time_len_inv ts Hinv). lia. }
    destruct (time_lookup_lt ts Hinv 0) as [t0 Ht0]; [lia|].
    destruct (time_lookup_lt ts Hinv (length (_value ts) - 1)) as [tl Htl]; [lia|].
    destruct (value_lookup_lt ts 0) as [v0 Hv0]; [lia|].
    destruct (value_lookup_lt ts (length (_value ts) - 1)) as [vl Hvl]; [lia|].
    destruct (time_lookup_lt ts Hinv (k - 1)) as [a Ha]; [lia|].
    destruct (time_lookup_lt ts Hinv k) as [b Hb]; [lia|].
    destruct (value_lookup_lt ts (k - 1)) as [va Hva]; [lia|].
    destruct (value_lookup_lt ts k) as [vb Hvb]; [lia|].
    rewrite (bracket_scan_body ts Hinv t fuel k _ _ _ _ _ _ _ _
               (conj Hk Hlt) Ht0 Htl Hv0 Hvl Ha Hb Hva Hvb).
    destruct (Qlt_bool t t0); [left; by exists (Some v0), k|].
    destruct (Qlt_bool tl t); [left; by exists (Some vl), k|].
    destruct (Qle_bool a t && Qle_bool t b) eqn:Hin.
    + destruct (bracket_value t vb va b a) as [v|e] eqn:Hv; simpl.
      * left. by exists (Some v), k.
      * right. exists e, k, a, b, va, vb.
        apply andb_true_iff in Hin as [Hlo Hhi].
        apply Qle_bool_iff in Hlo, Hhi. done.
    + destruct (IH (S k)) as [(o & k' & Hs & Hle) | Hs]; [lia| |by right].
      left. exists o, k'. split; [done|lia].
Qed.

(** The loop ends normally, or with the exception line 162 raises for
    one of the query times, on a bracket that contains it. *)
Lemma interpolate_loop_outcome {arith : PyArith} ts newTimes :
  ts_inv ts ->
  forall (k : nat) newValues,
    (1 <= k)%nat ->
    (exists vals c,
       interpolate_loop (_time ts) (_value ts) (time_len (_time ts))
                        newTimes (Z.of_nat k) newValues = Ok (vals, c)) \/
    (exists e pre t post vals c (k' : nat) t_lo t_hi v_lo v_hi,
       interpolate_loop (_time ts) (_value ts) (time_len (_time ts))
                        newTimes (Z.of_nat k) newValues = Raise e /\
       newTimes = pre ++ t :: post /\
       interpolate_loop (_time ts) (_value ts) (time_len (_time ts))
                        pre (Z.of_nat k) newValues = Ok (vals, c) /\
       bracket_at ts k' t_lo t_hi v_lo v_hi /\ within t_lo t_hi t /\
       bracket_value t v_hi v_lo t_hi t_lo = Raise e).
Proof.
  intros Hinv. induction newTimes as [|t rest IH]; intros k newValues Hk.
  - left. by eexists _, _.
  - simpl.
    destruct (bracket_scan_outcome ts t
                (Z.to_nat (time_len (_time ts) - Z.of_nat k)) k Hinv Hk)
      as [(o & k' & Hscan & Hle)
         | (e & k' & a & b & va & vb & Hscan & Hbr & Hin & He)];
      rewrite Hscan; simpl.
    + destruct (IH k' (match o with
                       | Some v => newValues ++ [v]
                       | None => newValues
                       end)) as [Hok|Hbad]; [lia|by left|].
      destruct Hbad as (e & pre & t' & post & vals & c & k'' & a & b & va & vb
                        & Hrun & -> & Hpre & Hrest).
      right. exists e, (t :: pre), t', post, vals, c, k'', a, b, va, vb.
      split; [done|]. split; [done|]. split; [|done].
      simpl. by rewrite Hscan.
    + right. exists e, [], t, rest, newValues, (Z.of_nat k), k', a, b, va, vb.
      done.
Qed.

(** X15.  What [interpolate] can do on a series.  It raises [TypeError]
    exactly when the query times are not a sequence and [ValueError]
    exactly when the loop ends with fewer values than query times.  Any
    other exception is the one line 162 raises for one of the query
    times, on a bracket that contains it, and is [ZeroDivisionError] or
    [OverflowError]; in particular the indexing inside the loop never
    raises [IndexError].  When the call succeeds, the new series has the
    query times as its times and one value for each; on an empty
    sequence of query times it succeeds with the empty series. *)
Theorem interpolate_outcomes {arith : PyArith} ts newTimes :
  ts_inv ts ->
  (interpolate ts newTimes = Raise TypeError <-> is_sequence newTimes = false) /\
  (interpolate ts newTimes = Raise ValueError <->
   is_sequence newTimes = true /\
   exists vals c,
     run_queries ts (seq_items newTimes) = Ok (vals, c) /\
     (length vals < length (seq_items newTimes))%nat) /\
  interpolate ts newTimes <> Raise IndexError /\
  (forall e,
     interpolate ts newTimes = Raise e -> e <> TypeError -> e <> ValueError ->
     (e = ZeroDivisionError \/ e = OverflowError) /\
     exists pre t post vals c (k : nat) t_lo t_hi v_lo v_hi,
       seq_items newTimes = pre ++ t :: post /\
       run_queries ts pre = Ok (vals, c) /\
       bracket_at ts k t_lo t_hi v_lo v_hi /\ within t_lo t_hi t /\
       bracket_value t v_hi v_lo t_hi t_lo = Raise e) /\
  (forall ts',
     interpolate ts newTimes = Ok ts' ->
     time_items (_time ts') = seq_items newTimes /\
     length (_value ts') = length (seq_items newTimes)) /\
  (is_sequence newTimes = true -> seq_items newTimes = [] ->
   exists ts', interpolate ts newTimes = Ok ts' /\ _value ts' = [] /\
               items ts' = []).
Proof.
  intros Hinv.
  assert (Hempty : is_sequence newTimes = true -> seq_items newTimes = [] ->
            exists ts', interpolate ts newTimes = Ok ts' /\ _value ts' = [] /\
                        items ts' = []).
  { intros Hq E. rewrite interpolate_unfold by done. unfold run_queries.
    rewrite E. simpl.
    rewrite init_default; [|done|by rewrite truthy_sequence, E].
    eexists. split; [done|]. split; [done|].
    by unfold items. }
  destruct (is_sequence newTimes) eqn:Hq.
  2:{ unfold interpolate. rewrite Hq. simpl.
      split; [done|]. split; [split; [done|by intros [? _]]|].
      split; [done|]. split; [by intros e [= <-] He|]. split; done. }
  rewrite interpolate_unfold in * by done. unfold run_queries.
  destruct (interpolate_loop_outcome ts (seq_items newTimes) Hinv 1 [])
    as [(vals & c & Hrun)
       | (e & pre & t & post & vals & c & k & a & b & va & vb
          & Hrun & Hitems & Hpre & Hbr & Hin & He)]; [lia| |].
  2:{ change (Z.of_nat 1) with 1 in Hrun, Hpre. rewrite Hrun. simpl.
      pose proof (bracket_value_raises _ _ _ _ _ _ He) as Hkind.
      split; [split; [intros [= ->]; by destruct Hkind|done]|].
      split.
      { split; [intros [= ->]; by destruct Hkind|].
        intros [_ (vals' & c' & Hbad & _)]. discriminate. }
      split; [intros [= ->]; by destruct Hkind|].
      split.
      { intros e' [= <-] _ _. split; [done|].
        by exists pre, t, post, vals, c, k, a, b, va, vb. }
      split; [done|].
      intros _ E. rewrite E in Hitems. by destruct pre. }
  change (Z.of_nat 1) with 1 in Hrun. rewrite Hrun. simpl.
  pose proof (interpolate_loop_length _ _ _ _ _ _ _ _ Hrun) as Hle.
  simpl in Hle.
  destruct (Nat.lt_ge_cases (length vals) (length (seq_items newTimes)))
    as [Hlt|Hge].
  - rewrite (init_too_few_values vals newTimes Hq Hlt).
    split; [done|]. split.
    { split; [|done]. intros _. split; [done|]. by exists vals, c. }
    split; [done|]. split; [by intros e [= <-] _ He|]. split; [done|].
    intros _ E. rewrite E in Hlt. simpl in Hlt. lia.
  - destruct (init_aligned vals newTimes Hq) as (ts' & Hinit & Hval & Htime);
      [lia|].
    rewrite Hinit.
    split; [done|]. split.
    { split; [done|]. intros (_ & vals' & c' & [= <- <-] & Hlt). lia. }
    split; [done|]. split; [done|]. split.
    + intros x [= <-]. split; [done|]. rewrite Hval. lia.
    + intros _ E. destruct (Hempty eq_refl E) as (x & Hx & Hrest).
      unfold run_queries in Hx. rewrite Hrun in Hx. simpl in Hx.
      exists x. split; [congruence|done].
Qed.

Lemma interpolate_outcomes_witness :
  interpolate (arith:=exact_arith) ts_0_5_10 (PyNum 3) = Raise TypeError.
Proof.
  apply (proj1 (interpolate_outcomes (arith:=exact_arith) ts_0_5_10 (PyNum 3)
                  (proj1 ts_0_5_10_wf))).
  reflexivity.
Defined.

(** With the arithmetic in which nothing rounds a bracket of zero width
    raises [ZeroDivisionError]. *)
Lemma bracket_value_exact_zero_width t v_hi v_lo t_hi t_lo :
  (t_hi == t_lo)%Q ->
  bracket_value (arith:=exact_arith) t v_hi v_lo t_hi t_lo
  = Raise ZeroDivisionError.
Proof.
  intros Heq. unfold bracket_value. simpl. unfold exact_truediv.
  assert (E : Qeq_bool (t_hi - t_lo) 0 = true) by (apply Qeq_bool_iff; lra).
  by rewrite E.
Qed.

(** X16.  Duplicate times.  When the first bracket, from the cursor on,
    that contains the query time [t] has equal end points (so that [t]
    is that repeated time), line 162 raises -- [ZeroDivisionError] from
    the division, unless an operand too large for a float has raised
    [OverflowError] before -- and the whole call raises the same
    exception whatever query times follow.  Where nothing is rounded the
    exception is [ZeroDivisionError]. *)
Theorem interpolate_zero_width_bracket {arith : PyArith} ts t (c k : nat)
        t_first t_last v_first v_last t_lo t_hi v_lo v_hi :
  ts_wf ts -> (1 <= c <= k)%nat -> (k < length (_value ts))%nat ->
  endpoints ts t_first t_last v_first v_last -> within t_first t_last t ->
  bracket_at ts k t_lo t_hi v_lo v_hi -> within t_lo t_hi t ->
  (t_hi == t_lo)%Q ->
  (forall (j : nat) a b va vb,
     (c <= j < k)%nat -> bracket_at ts j a b va vb -> ~ within a b t) ->
  (exists e,
     (e = ZeroDivisionError \/ e = OverflowError) /\
     bracket_value t v_hi v_lo t_hi t_lo = Raise e /\
     scan_from ts t (Z.of_nat c) = Raise e /\
     (forall newTimes pre post vals,
        is_sequence newTimes = true -> seq_items newTimes = pre ++ t :: post ->
        run_queries ts pre = Ok (vals, Z.of_nat c) ->
        interpolate ts newTimes = Raise e)) /\
  (scan_from (arith:=exact_arith) ts t (Z.of_nat c) = Raise ZeroDivisionError /\
   (forall newTimes pre post vals,
      is_sequence newTimes = true -> seq_items newTimes = pre ++ t :: post ->
      run_queries (arith:=exact_arith) ts pre = Ok (vals, Z.of_nat c) ->
      interpolate (arith:=exact_arith) ts newTimes = Raise ZeroDivisionError)).
Proof.
  intros [Hinv _] Hck Hk Hends Hin Hbr Hw Hwidth Hfirst.
  split.
  - destruct (bracket_value_zero_width t v_hi v_lo t_hi t_lo Hwidth)
      as [e He].
    assert (Hscan : scan_from ts t (Z.of_nat c) = Raise e).
    { rewrite (scan_from_first_bracket ts t c k t_first t_last v_first v_last
                 t_lo t_hi v_lo v_hi) by done.
      by rewrite He. }
    exists e. split; [by apply bracket_value_raises in He|].
    split; [done|]. split; [done|].
    intros q pre post vals Hq Hitems Hpre.
    by apply (interpolate_raises_at ts q pre t post vals (Z.of_nat c)).
  - assert (Hscan : scan_from (arith:=exact_arith) ts t (Z.of_nat c)
                    = Raise ZeroDivisionError).
    { rewrite (scan_from_first_bracket ts t c k t_first t_last v_first v_last
                 t_lo t_hi v_lo v_hi) by done.
      by rewrite bracket_value_exact_zero_width. }
    split; [done|].
    intros q pre post vals Hq Hitems Hpre.
    by apply (interpolate_raises_at ts q pre t post vals (Z.of_nat c)).
Qed.

Lemma interpolate_zero_width_bracket_witness :
  interpolate (arith:=exact_arith)
              (mk_TimeSeries (TimeList [0; 0; 10]%Q) [1; 2; 3]%Q
                 [(0, 1); (0, 2); (10, 3)]%Q)
              (PyList [0; 4]%Q)
  = Raise ZeroDivisionError.
Proof.
  set (ts := mk_TimeSeries _ _ _).
  assert (Hwf : ts_wf ts).
  { apply (init_wf (PyList [1; 2; 3]%Q) (PyList [0; 0; 10]%Q)). reflexivity. }
  apply (proj2 (proj2 (interpolate_zero_width_bracket (arith:=exact_arith)
                  ts 0%Q 1 1 0%Q 10%Q 1%Q 3%Q
                  0%Q 0%Q 1%Q 2%Q Hwf ltac:(lia) ltac:(simpl; lia)
                  ltac:(repeat split)
                  ltac:(split; vm_compute; discriminate)
                  ltac:(repeat split; lia)
                  ltac:(split; vm_compute; discriminate)
                  ltac:(reflexivity)
                  ltac:(intros; lia)))
          (PyList [0; 4]%Q) [] [4%Q] []); reflexivity.
Defined.

(** ** Sorted series and sorted query times *)

(** The first exception among the outcomes of the query times is one
    line 162 raises. *)
Lemma collect_raises {arith : PyArith} ts newTimes outcomes e :
  Forall2 (point_result ts) newTimes outcomes ->
  collect outcomes = Raise e ->
  e = ZeroDivisionError \/ e = OverflowError.
Proof.
  induction 1 as [|t r rest outcomes Hr _ IH]; simpl; [done|].
  destruct r as [v|e']; simpl.
  - destruct (collect outcomes); simpl; [done|]. intros [= <-]. by apply IH.
  - intros [= <-].
    destruct Hr as (t0 & tl & v0 & vl & _ & [[_ ?]|[(_ & _ & ?)|[_ Hin]]]);
      [done..|].
    destruct Hin as (k & a & b & va & vb & _ & _ & _ & _ & Hv).
    symmetry in Hv. by apply bracket_value_raises in Hv.
Qed.

Section SortedQueries.
Context {arith : PyArith}.
Variable ts : TimeSeries.
Hypothesis Hinv : ts_inv ts.
Hypothesis Hinc : increasing_times ts.

(** From position [k] on, the first time that is not below [t]. *)
Lemma first_time_not_below t (gap : nat) :
  forall (k : nat) t_last,
    (k + gap = length (_value ts) - 1)%nat ->
    time_items (_time ts) !! (length (_value ts) - 1)%nat = Some t_last ->
    (t <= t_last)%Q ->
    exists (k' : nat) b,
      (k <= k' < length (_value ts))%nat /\
      time_items (_time ts) !! k' = Some b /\ (t <= b)%Q /\
      (forall (j : nat) x,
         (k <= j < k')%nat -> time_items (_time ts) !! j = Some x -> (x < t)%Q).
Proof.
  induction gap as [|gap IH]; intros k tl Hk Htl Hle.
  - pose proof (lookup_lt_Some _ _ _ Htl) as Hlt.
    rewrite (proj1 Hinv) in Hlt.
    exists k, tl. replace k with (length (_value ts) - 1)%nat by lia.
    split; [lia|]. split; [done|]. split; [done|]. intros j x Hj. lia.
  - destruct (time_lookup_lt ts Hinv k) as [b Hb]; [lia|].
    destruct (Qlt_le_dec b t) as [Hlt|Hge].
    + destruct (IH (S k) tl) as (k' & b' & Hk' & Hb' & Hle' & Hbelow);
        [lia|done|done|].
      exists k', b'. split; [lia|]. split; [done|]. split; [done|].
      intros j x Hj Hx. destruct (decide (j = k)) as [->|Hne].
      * congruence.
      * apply (Hbelow j x); [lia|done].
    + exists k, b. split; [lia|]. split; [done|]. split; [done|].
      intros j x Hj. lia.
Qed.

(** A query time inside the range of the series, reached with the cursor
    not past it, finds its bracket. *)
Lemma scan_sorted_inside t (k : nat) t_first t_last v_first v_last :
  (1 <= k < length (_value ts))%nat ->
  endpoints ts t_first t_last v_first v_last -> within t_first t_last t ->
  cursor_behind ts k t ->
  exists r (k' : nat),
    scan_from ts t (Z.of_nat k) = (v ← r; mret (Some v, Z.of_nat k')) /\
    point_result ts t r /\
    (1 <= k' < length (_value ts))%nat /\
    (forall t', (t <= t')%Q -> cursor_behind ts k' t').
Proof.
  intros Hk Hends [Hge Hle] Hcur.
  pose proof Hends as (Ht0 & Htl & Hv0 & Hvl).
  destruct (first_time_not_below t (length (_value ts) - 1 - k) k t_last)
    as (k' & b & Hk' & Hb & Htb & Hbelow); [lia|done|done|].
  destruct (time_lookup_lt ts Hinv (k' - 1)) as [a Ha]; [lia|].
  destruct (value_lookup_lt ts (k' - 1)) as [va Hva]; [lia|].
  destruct (value_lookup_lt ts k') as [vb Hvb]; [lia|].
  assert (Hbr : bracket_at ts k' a b va vb) by (repeat split; [lia|done..]).
  (* the left end of the bracket is not above [t], strictly so beyond
     the first bracket *)
  assert (Hleft : (a <= t)%Q /\ (k' = 1%nat \/ (a < t)%Q)).
  { destruct (decide (k' = k)) as [->|Hne].
    - destruct Hcur as [-> | (a' & Ha' & Hlt)].
      + split; [|by left]. simpl in Ha. congruence.
      + assert (a' = a) by congruence. subst a'.
        split; [by apply Qlt_le_weak|by right].
    - assert (Hlt : (a < t)%Q) by (apply (Hbelow (k' - 1)%nat a); [lia|done]).
      split; [by apply Qlt_le_weak|by right]. }
  destruct Hleft as [Hat Hstrict].
  (* no earlier bracket contains [t] *)
  assert (Hearlier : forall (j : nat) x y vx vy,
            (j < k')%nat -> bracket_at ts j x y vx vy -> ~ within x y t).
  { intros j x y vx vy Hj (Hj1 & _ & Hy & _) [_ Hty].
    assert (Hyt : (y < t)%Q); [|by apply Qlt_not_le in Hyt].
    destruct (Nat.lt_ge_cases j k) as [Hjk|Hjk].
    - destruct Hcur as [-> | (a' & Ha' & Hlt)]; [lia|].
      destruct (decide (j = k - 1)%nat) as [->|Hne].
      + congruence.
      + apply Qlt_trans with a'; [|done].
        apply (Hinc j (k - 1)%nat); [lia|done..].
    - apply (Hbelow j y); [lia|done]. }
  exists (bracket_value t vb va b a), k'.
  split; [|split; [|split]].
  - apply (scan_from_first_bracket ts t k k' t_first t_last v_first v_last
             a b va vb); try done; try lia.
    intros j x y vx vy Hj. apply Hearlier. lia.
  - exists t_first, t_last, v_first, v_last. split; [done|].
    right. right. split; [done|].
    exists k', a, b, va, vb.
    split; [lia|]. split; [done|]. split; [done|]. split; [exact Hearlier|done].
  - lia.
  - intros t' Ht'. destruct Hstrict as [->|Hlt]; [by left|].
    right. exists a. split; [done|]. by apply Qlt_le_trans with t.
Qed.

(** One query time, reached with the cursor inside the series and not
    past it: the scan yields the outcome the source computes for that
    query time alone, and leaves the cursor not past any later one. *)
Lemma scan_sorted t (k : nat) t_first t_last v_first v_last :
  (1 <= k < length (_value ts))%nat ->
  endpoints ts t_first t_last v_first v_last ->
  cursor_behind ts k t ->
  exists r (k' : nat),
    scan_from ts t (Z.of_nat k) = (v ← r; mret (Some v, Z.of_nat k')) /\
    point_result ts t r /\
    (1 <= k' < length (_value ts))%nat /\
    (forall t', (t <= t')%Q -> cursor_behind ts k t' -> cursor_behind ts k' t').
Proof.
  intros Hk Hends Hcur. pose proof Hends as (Ht0 & Htl & Hv0 & Hvl).
  destruct (Qlt_le_dec t t_first) as [Hlt|Hge].
  { exists (Ok v_first), k. split; [|split; [|split; [done|done]]].
    - destruct (scan_from_inside ts t k Hinv) as (fuel & -> & _); [lia|].
      by apply bracket_scan_left with t_first.
    - exists t_first, t_last, v_first, v_last. split; [done|]. by left. }
  destruct (Qlt_le_dec t_last t) as [Hgt|Hle'].
  { exists (Ok v_last), k. split; [|split; [|split; [done|done]]].
    - destruct (scan_from_inside ts t k Hinv) as (fuel & -> & _); [lia|].
      apply bracket_scan_right with t_first t_last; try done.
      by apply Qle_not_lt.
    - exists t_first, t_last, v_first, v_last. split; [done|].
      right. left. split; [by apply Qle_not_lt|done]. }
  destruct (scan_sorted_inside t k t_first t_last v_first v_last Hk Hends)
    as (r & k' & Hscan & Hpv & Hk' & Hnext); [done|done|].
  exists r, k'. split; [done|]. split; [done|]. split; [done|].
  intros t' Ht' _. by apply Hnext.
Qed.

(** Every query time has an outcome of its own. *)
Lemma point_results_total t_first t_last v_first v_last newTimes :
  (2 <= length (_value ts))%nat ->
  endpoints ts t_first t_last v_first v_last ->
  exists outcomes, Forall2 (point_result ts) newTimes outcomes.
Proof.
  intros Hlen Hends. induction newTimes as [|t rest [outcomes IH]].
  - by exists [].
  - destruct (scan_sorted t 1 t_first t_last v_first v_last)
      as (r & _ & _ & Hr & _); [lia|done|by left|].
    exists (r :: outcomes). by constructor.
Qed.

(** The loop on ascending query times, from a cursor not past them. *)
Lemma interpolate_loop_sorted t_first t_last v_first v_last :
  (2 <= length (_value ts))%nat ->
  endpoints ts t_first t_last v_first v_last ->
  forall newTimes (k : nat) newValues,
    (1 <= k < length (_value ts))%nat ->
    ascending newTimes -> Forall (cursor_behind ts k) newTimes ->
    exists outcomes,
      Forall2 (point_result ts) newTimes outcomes /\
      match collect outcomes with
      | Ok vals =>
          exists c,
            interpolate_loop (_time ts) (_value ts) (time_len (_time ts))
                             newTimes (Z.of_nat k) newValues
            = Ok (newValues ++ vals, c)
      | Raise e =>
          interpolate_loop (_time ts) (_value ts) (time_len (_time ts))
                           newTimes (Z.of_nat k) newValues
          = Raise e
      end.
Proof.
  intros Hlen Hends.
  induction newTimes as [|t rest IH]; intros k newValues Hk Hasc Hcur.
  { exists []. split; [constructor|]. simpl.
    exists (Z.of_nat k). by rewrite app_nil_r. }
  destruct Hasc as [Hle Hasc]. apply Forall_cons_1 in Hcur as [Hct Hcrest].
  simpl interpolate_loop.
  change (bracket_scan (_time ts) (_value ts) (time_len (_time ts)) t
            (Z.to_nat (time_len (_time ts) - Z.of_nat k)) (Z.of_nat k))
    with (scan_from ts t (Z.of_nat k)).
  destruct (scan_sorted t k t_first t_last v_first v_last Hk Hends Hct)
    as (r & k' & -> & Hr & Hk' & Hnext).
  destruct r as [v|e]; simpl.
  - assert (Hcur' : Forall (cursor_behind ts k') rest).
    { apply Forall_forall. intros t' Hin.
      rewrite Forall_forall in Hle, Hcrest.
      apply Hnext; [by apply Hle|by apply Hcrest]. }
    destruct (IH k' (newValues ++ [v]) Hk' Hasc Hcur')
      as (outcomes & Hall & Hloop).
    exists (Ok v :: outcomes). split; [by constructor|]. simpl.
    destruct (collect outcomes) as [vals|e]; simpl; [|done].
    destruct Hloop as [c Hloop]. exists c.
    by rewrite Hloop, <- app_assoc.
  - destruct (point_results_total t_first t_last v_first v_last rest Hlen Hends)
      as [outcomes Hall].
    exists (Raise e :: outcomes). split; [by constructor|done].
Qed.

(** On sorted inputs the call is determined by the outcomes of the
    query times taken one by one. *)
Lemma interpolate_sorted_outcomes newTimes :
  (2 <= length (_value ts))%nat ->
  is_sequence newTimes = true -> ascending (seq_items newTimes) ->
  exists outcomes,
    Forall2 (point_result ts) (seq_items newTimes) outcomes /\
    (forall vals,
       collect outcomes = Ok vals ->
       exists ts',
         interpolate ts newTimes = Ok ts' /\
         time_items (_time ts') = seq_items newTimes /\
         _value ts' = vals) /\
    (forall e, collect outcomes = Raise e -> interpolate ts newTimes = Raise e).
Proof.
  intros Hlen Hq Hasc.
  destruct (time_lookup_lt ts Hinv 0) as [t0 Ht0]; [lia|].
  destruct (time_lookup_lt ts Hinv (length (_value ts) - 1)) as [tl Htl]; [lia|].
  destruct (value_lookup_lt ts 0) as [v0 Hv0]; [lia|].
  destruct (value_lookup_lt ts (length (_value ts) - 1)) as [vl Hvl]; [lia|].
  destruct (interpolate_loop_sorted t0 tl v0 vl Hlen
              (conj Ht0 (conj Htl (conj Hv0 Hvl))) (seq_items newTimes) 1 [])
    as (outcomes & Hall & Hloop); [lia|done| |].
  { apply Forall_forall. intros t _. by left. }
  exists outcomes. split; [done|].
  change (Z.of_nat 1) with 1 in Hloop.
  split.
  - intros vals Hvals. rewrite Hvals in Hloop. destruct Hloop as [c Hloop].
    rewrite interpolate_unfold by done. unfold run_queries.
    rewrite Hloop. simpl.
    assert (Hn : length vals = length (seq_items newTimes)).
    { clear -Hall Hvals. revert vals Hvals.
      induction Hall as [|t r rest outcomes _ _ IH]; simpl; intros vals.
      - by intros [= <-].
      - destruct r as [v|]; simpl; [|done].
        destruct (collect outcomes) as [vs|]; simpl; [|done].
        intros [= <-]. simpl. by rewrite (IH vs). }
    destruct (init_aligned vals newTimes Hq) as (ts' & Hinit & Hval & Htime);
      [done|].
    by exists ts'.
  - intros e He. rewrite He in Hloop.
    rewrite interpolate_unfold by done. unfold run_queries.
    by rewrite Hloop.
Qed.
End SortedQueries.

(** Where nothing is rounded, every query time on a series with
    increasing times has a value. *)
Lemma collect_exact ts newTimes outcomes :
  increasing_times ts ->
  Forall2 (point_result (arith:=exact_arith) ts) newTimes outcomes ->
  exists vals,
    collect outcomes = Ok vals /\
    Forall2 (fun t v => point_result (arith:=exact_arith) ts t (Ok v))
            newTimes vals.
Proof.
  intros Hinc. induction 1 as [|t r rest outcomes Hr _ (vals & Hvals & IH)].
  - by exists [].
  - assert (Hv : exists v, r = Ok v).
    { destruct Hr as (t0 & tl & v0 & vl & _ & [[_ ->]|[(_ & _ & ->)|[_ Hin]]]);
        [by eexists..|].
      destruct Hin as (k & a & b & va & vb & Hk & Hbr & _ & _ & ->).
      destruct Hbr as (Hk1 & Ha & Hb & _).
      assert (Hab : (a < b)%Q) by (apply (Hinc (k - 1)%nat k); [lia|done..]).
      rewrite bracket_value_exact; [by eexists|].
      intros E. assert (E' : (b == a)%Q) by lra.
      rewrite E' in Hab. by apply Qlt_irrefl in Hab. }
    destruct Hv as [v ->].
    exists (v :: vals). simpl. rewrite Hvals. simpl. split; [done|].
    by constructor.
Qed.

(** X17.  On a series of at least two pairs whose times increase
    strictly, ascending query times are all answered: every query time
    has the outcome the source computes for it alone (first value below
    the range, last value above it, line 162 on the first bracket
    containing it inside) -- the cursor carried from one query time to
    the next never skips a bracket that is needed.  When no outcome is
    an exception the call succeeds, and the new series has the query
    times as its times and those values; otherwise it raises the first
    exception among the outcomes, which is [ZeroDivisionError] or
    [OverflowError].  So the call never raises [ValueError], and where
    nothing is rounded it succeeds. *)
Theorem interpolate_sorted {arith : PyArith} ts newTimes :
  ts_wf ts -> (2 <= length (_value ts))%nat -> increasing_times ts ->
  is_sequence newTimes = true -> ascending (seq_items newTimes) ->
  (exists outcomes,
     Forall2 (point_result ts) (seq_items newTimes) outcomes /\
     (forall vals,
        collect outcomes = Ok vals ->
        exists ts',
          interpolate ts newTimes = Ok ts' /\
          time_items (_time ts') = seq_items newTimes /\
          _value ts' = vals) /\
     (forall e,
        collect outcomes = Raise e ->
        interpolate ts newTimes = Raise e /\
        (e = ZeroDivisionError \/ e = OverflowError))) /\
  interpolate ts newTimes <> Raise ValueError /\
  (exists ts',
     interpolate (arith:=exact_arith) ts newTimes = Ok ts' /\
     time_items (_time ts') = seq_items newTimes /\
     Forall2 (fun t v => point_result (arith:=exact_arith) ts t (Ok v))
             (seq_items newTimes) (_value ts')).
Proof.
  intros [Hinv _] Hlen Hinc Hq Hasc.
  destruct (interpolate_sorted_outcomes ts Hinv Hinc newTimes Hlen Hq Hasc)
    as (outcomes & Hall & Hok & Hbad).
  split; [|split].
  - exists outcomes. split; [done|]. split; [done|].
    intros e He. split; [by apply Hbad|].
    by apply (collect_raises ts (seq_items newTimes) outcomes).
  - destruct (collect outcomes) as [vals|e] eqn:Hc.
    + destruct (Hok vals eq_refl) as (ts' & -> & _). done.
    + rewrite (Hbad e eq_refl). intros [= ->].
      by destruct (collect_raises ts (seq_items newTimes) outcomes _ Hall Hc).
  - destruct (interpolate_sorted_outcomes (arith:=exact_arith) ts Hinv Hinc
                newTimes Hlen Hq Hasc) as (exact & Hall' & Hok' & _).
    destruct (collect_exact ts _ _ Hinc Hall') as (vals & Hvals & Hpoint).
    destruct (Hok' vals Hvals) as (ts' & Hint & Htime & Hval).
    exists ts'. rewrite Hval. done.
Qed.

Lemma interpolate_sorted_witness :
  exists ts',
    interpolate (arith:=exact_arith) ts_0_5_10
                (PyList [-1; 0; 5; 5; 10; 12]%Q) = Ok ts' /\
    Forall2 Qeq (_value ts') [1; 0; 6; 6; 12; 3]%Q.
Proof.
  destruct (proj2 (proj2 (interpolate_sorted (arith:=exact_arith) ts_0_5_10
              (PyList [-1; 0; 5; 5; 10; 12]%Q)
              ts_0_5_10_wf
              ltac:(simpl; lia)
              ltac:(intros i j a b Hij Ha Hb;
                    destruct i as [|[|[|i]]], j as [|[|[|j]]];
                    simpl in Ha, Hb; try lia; try discriminate;
                    injection Ha as <-; injection Hb as <-; reflexivity)
              eq_refl
              ltac:(simpl; repeat split; repeat constructor;
                    vm_compute; discriminate))))
    as (ts' & Hint & _ & _).
  exists ts'. split; [exact Hint|].
  vm_compute in Hint. injection Hint as <-.
  repeat constructor; vm_compute; reflexivity.
Defined.

(** ** Assignment seen through equality *)

Lemma Forall2_Qeq_insert (l : list Q) (k : nat) v old :
  l !! k = Some old ->
  Forall2 Qeq (<[k := v]> l) l <-> (v == old)%Q.
Proof.
  intros Hk. pose proof (lookup_lt_Some _ _ _ Hk) as Hlt. split.
  - intros H.
    apply (Forall2_lookup_lr _ _ _ k v old H); [|done].
    by apply list_lookup_insert_eq.
  - intros Hv. apply Forall2_same_length_lookup_2; [by rewrite length_insert|].
    intros j x y Hx Hy. destruct (decide (j = k)) as [->|Hne].
    + rewrite list_lookup_insert_eq in Hx by done. congruence.
    + rewrite list_lookup_insert_ne in Hx by done.
      assert (x = y) by congruence. subst. reflexivity.
Qed.

(** X18.  Equality detects an assignment exactly.  After [ts[i] = v] on
    a copy of [ts], comparing the changed series with the original never
    raises, and answers [True] precisely when [v] equals the value that
    was at [i]. *)
Theorem setitem_seen_by_eq ts i v old :
  ts_wf ts -> index_in_range (__len__ ts) i = true ->
  list_getitem (_value ts) i = Ok old ->
  __eq__ (__setitem__ ts (IdxInt i) v).1 (OperandSeries ts)
  = Ok (Qeq_bool v old).
Proof.
  intros Hwf Hi Hold.
  pose proof (setitem_preserves_wf ts (IdxInt i) v Hwf) as Hwf'.
  destruct (setitem_state ts i v (proj1 Hwf) Hi) as (t & Ht & Hstate).
  destruct (list_getitem_in_range (_value ts) i Hi) as (x & Hx & Hgx).
  assert (x = old) by congruence. subst x. fold (__len__ ts) in Hx.
  rewrite (eq_series _ ts Hwf' Hwf).
  assert (Htime : _time (__setitem__ ts (IdxInt i) v).1 = _time ts)
    by (by rewrite Hstate).
  rewrite Htime, (time_ne_refl ts Hwf). f_equal.
  apply eq_true_iff_eq.
  rewrite (pairs_eqb_iff _ ts Hwf' Hwf), Qeq_bool_iff.
  unfold time_aligned. rewrite Htime, Hstate. simpl.
  rewrite (Forall2_Qeq_insert _ _ v old Hx). split.
  - by intros [_ ?].
  - intros Hv. split; [apply Forall2_Qeq_refl|done].
Qed.

Lemma setitem_seen_by_eq_witness :
  __eq__ (__setitem__ ts_0_5_10 (IdxInt 1) 7%Q).1 (OperandSeries ts_0_5_10)
  = Ok false.
Proof.
  exact (setitem_seen_by_eq ts_0_5_10 1 7%Q 2%Q ts_0_5_10_wf eq_refl eq_refl).
Defined.
